(** * Visionary AI supervisor agent: safety pipeline and turn routing

    A shallow embedding of
      - [backend/agents/supervisor_agent/security_guardrails.py]
      - [backend/agents/supervisor_agent/utils/http_client.py]
      - [backend/agents/supervisor_agent/utils/validators.py]
      - [backend/agents/supervisor_agent/app.py]
    followed by the properties established about them.

    Conventions of the embedding.
      - A Python [str] is a [string]; every character is an [ascii] holding
        its code point, so the texts covered are those whose code points lie
        below 256.  The character tables ([isspace], [lower], the regex
        class [\w]) are the Unicode ones restricted to that range.
      - [time.time()] is an input of each call, a rational number of
        seconds; arithmetic on it is exact.
      - Dictionaries are [gmap]s, Python sets are [gset]s.
      - Mutable objects ([RateLimiter.bucket], the orchestrator metrics, the
        document store) are threaded explicitly through the functions. *)

From Stdlib Require Import ZArith QArith Qround String Ascii List Lia Lqa Bool.
From Stdlib Require Import DecimalString.
From stdpp Require Import base gmap strings list.
Import ListNotations.

#[local] Set Warnings "-register-all".

Local Open Scope string_scope.
Local Open Scope list_scope.

(* ===================================================================== *)
(** ** Python strings *)
(* ===================================================================== *)

Module Py.

Definition chars (s : string) : list ascii := list_ascii_of_string s.
Definition str (l : list ascii) : string := string_of_list_ascii l.

Definition code (c : ascii) : nat := nat_of_ascii c.

Definition between (lo hi : nat) (c : ascii) : bool :=
  (lo <=? code c)%nat && (code c <=? hi)%nat.

(** [str.isspace] on one character: U+0009..U+000D, U+001C..U+0020,
    U+0085, U+00A0. *)
Definition is_space (c : ascii) : bool :=
  between 9 13 c || between 28 32 c || (code c =? 133)%nat || (code c =? 160)%nat.

Definition is_upper (c : ascii) : bool :=
  between 65 90 c || (between 192 222 c && negb (code c =? 215)%nat).

(** [str.lower] on one character. *)
Definition lower_char (c : ascii) : ascii :=
  if is_upper c then ascii_of_nat (code c + 32) else c.

Definition is_az (c : ascii) : bool := between 97 122 c.

(** The regex class [\w]: [str.isalnum] or the underscore. *)
Definition is_word (c : ascii) : bool :=
  between 48 57 c || between 65 90 c || between 97 122 c || (code c =? 95)%nat
  || (code c =? 170)%nat || (code c =? 178)%nat || (code c =? 179)%nat
  || (code c =? 181)%nat || (code c =? 185)%nat || (code c =? 186)%nat
  || between 188 190 c || between 192 214 c || between 216 246 c
  || between 248 255 c.

Definition is_digit (c : ascii) : bool := between 48 57 c.

Fixpoint lstrip_l (l : list ascii) : list ascii :=
  match l with
  | c :: l' => if is_space c then lstrip_l l' else l
  | [] => []
  end.

Definition strip_l (l : list ascii) : list ascii :=
  rev (lstrip_l (rev (lstrip_l l))).

(** [s.strip()] *)
Definition strip (s : string) : string := str (strip_l (chars s)).

(** [s.lower()] *)
Definition lower (s : string) : string := str (map lower_char (chars s)).

(** [len(s)] *)
Definition len (s : string) : nat := length (chars s).

(** Maximal runs of characters satisfying [p]; [cur] is the run being
    read, most recent character first. *)
Fixpoint runs (p : ascii -> bool) (cur : list ascii) (l : list ascii) : list string :=
  match l with
  | [] => match cur with [] => [] | _ => [str (rev cur)] end
  | c :: l' =>
      if p c then runs p (c :: cur) l'
      else match cur with
           | [] => runs p [] l'
           | _ => str (rev cur) :: runs p [] l'
           end
  end.

(** [re.findall(r'[a-z]+', s)] *)
Definition findall_az (s : string) : list string := runs is_az [] (chars s).

(** [s.split()] *)
Definition split (s : string) : list string :=
  runs (fun c => negb (is_space c)) [] (chars s).

Fixpoint prefix_l (p l : list ascii) : bool :=
  match p, l with
  | [], _ => true
  | a :: p', b :: l' => Ascii.eqb a b && prefix_l p' l'
  | _ :: _, [] => false
  end.

Fixpoint contains_l (p l : list ascii) : bool :=
  prefix_l p l || match l with [] => false | _ :: l' => contains_l p l' end.

(** [p in s] for strings *)
Definition contains (p s : string) : bool := contains_l (chars p) (chars s).

(** [sep.join(l)] *)
Fixpoint join (sep : string) (l : list string) : string :=
  match l with
  | [] => ""
  | [x] => x
  | x :: l' => x +:+ sep +:+ join sep l'
  end.

(** [str(n)] for an [int] *)
Definition str_of_int (z : Z) : string := NilZero.string_of_int (Z.to_int z).

(** [int(q)]: truncation towards zero *)
Definition int (q : Q) : Z := Z.quot (Qnum q) (Zpos (Qden q)).

(** [x < y] on numbers *)
Definition Qltb (x y : Q) : bool := (Qnum x * QDen y <? Qnum y * QDen x)%Z.

(** [l[-n:] if len(l) > n else l] *)
Definition last_n {A} (n : nat) (l : list A) : list A :=
  if (n <? length l)%nat then skipn (length l - n) l else l.

End Py.

(* ===================================================================== *)
(** ** The fragment of [re] the patterns use *)
(* ===================================================================== *)

Module Re.

Inductive regex : Type :=
| Eps
| Chr (c : ascii)                 (* a literal character *)
| Cls (p : ascii -> bool)         (* a character class *)
| Dot                             (* [.]: anything but a newline *)
| Seq (a b : regex)
| Alt (a b : regex)
| Star (a : regex)
| Bol                             (* [^] *)
| WordB.                          (* [\b] *)

Definition is_word_opt (o : option ascii) : bool :=
  match o with Some c => Py.is_word c | None => false end.

(** Zero or more rounds of [step]; a round that consumes nothing adds no
    new position, so it is cut. *)
Fixpoint iterate (step : option ascii -> list ascii -> list (option ascii * list ascii))
         (fuel : nat) (prev : option ascii) (s : list ascii)
  : list (option ascii * list ascii) :=
  (prev, s) ::
  match fuel with
  | O => []
  | S fuel' =>
      flat_map (fun '(p, t) =>
                  if (length t <? length s)%nat then iterate step fuel' p t else [])
               (step prev s)
  end.

(** [matches icase r prev s]: every way [r] can match a prefix of [s],
    given the character [prev] just before [s] ([None] at the start of
    the text); each way is the last character consumed so far and the
    rest of the text.  [icase] is the flag [(?i)]. *)
Fixpoint matches (icase : bool) (r : regex) (prev : option ascii) (s : list ascii)
  : list (option ascii * list ascii) :=
  match r with
  | Eps => [(prev, s)]
  | Chr c =>
      match s with
      | x :: s' =>
          if Ascii.eqb x c
             || (icase && Ascii.eqb (Py.lower_char x) (Py.lower_char c))
          then [(Some x, s')] else []
      | [] => []
      end
  | Cls p =>
      match s with
      | x :: s' => if p x then [(Some x, s')] else []
      | [] => []
      end
  | Dot =>
      match s with
      | x :: s' => if Ascii.eqb x "010" then [] else [(Some x, s')]
      | [] => []
      end
  | Seq a b => flat_map (fun '(p, t) => matches icase b p t) (matches icase a prev s)
  | Alt a b => matches icase a prev s ++ matches icase b prev s
  | Star a => iterate (matches icase a) (length s) prev s
  | Bol => match prev with None => [(prev, s)] | Some _ => [] end
  | WordB =>
      if xorb (is_word_opt prev) (is_word_opt (head s)) then [(prev, s)] else []
  end.

Definition matches_here (icase : bool) (r : regex) (prev : option ascii) (s : list ascii) : bool :=
  match matches icase r prev s with [] => false | _ :: _ => true end.

Fixpoint search_from (icase : bool) (r : regex) (prev : option ascii) (s : list ascii) : bool :=
  matches_here icase r prev s ||
  match s with
  | [] => false
  | x :: s' => search_from icase r (Some x) s'
  end.

(** [re.search(r, s) is not None] *)
Definition search (icase : bool) (r : regex) (s : string) : bool :=
  search_from icase r None (Py.chars s).

(** A literal word or phrase. *)
Definition lit (s : string) : regex :=
  fold_right (fun c r => Seq (Chr c) r) Eps (Py.chars s).

(** [(a|b|...)] *)
Definition alts (l : list regex) : regex :=
  match l with
  | [] => Eps
  | r :: l' => fold_left Alt l' r
  end.

Definition words (l : list string) : regex := alts (map lit l).

Definition seqs (l : list regex) : regex := fold_right Seq Eps l.

Definition opt (r : regex) : regex := Alt r Eps.

End Re.

(* ===================================================================== *)
(** ** security_guardrails.py *)
(* ===================================================================== *)

(** *** Vocabulary *)

Definition MEDICAL_KEYWORDS : gset string := list_to_set [
  "rash"; "acne"; "eczema"; "psoriasis"; "lesion"; "mole"; "nevus"; "wart";
  "blister"; "itch"; "itching"; "itchy";
  "erythema"; "redness"; "swelling"; "inflammation"; "bump"; "bumps"; "spot";
  "spots"; "patch"; "patches";
  "bleeding"; "bleed"; "bruise"; "bruising"; "pain"; "painful"; "sore";
  "soreness"; "hurt"; "hurts"; "burning";
  "discharge"; "pus"; "infection"; "infected"; "inflamed"; "tender"; "tenderness";
  "gum"; "gums"; "tooth"; "teeth"; "cavity"; "caries"; "gingivitis"; "ulcer";
  "ulcers"; "mouth"; "lip"; "lips";
  "tongue"; "jaw"; "enamel"; "plaque"; "dental"; "toothache"; "sensitivity" ].

Definition BODY_PARTS : gset string := list_to_set [
  "arm"; "arms"; "leg"; "legs"; "hand"; "hands"; "foot"; "feet"; "finger";
  "fingers"; "toe"; "toes";
  "forearm"; "forearms"; "wrist"; "wrists"; "elbow"; "elbows"; "shoulder"; "shoulders";
  "back"; "chest"; "stomach"; "abdomen"; "belly"; "side"; "sides";
  "head"; "face"; "forehead"; "cheek"; "cheeks"; "chin"; "nose"; "eye"; "eyes";
  "ear"; "ears"; "neck"; "throat";
  "skin"; "scalp"; "hair"; "nail"; "nails";
  "upper"; "lower"; "left"; "right"; "middle"; "center";
  "knee"; "knees"; "ankle"; "ankles"; "hip"; "hips"; "thigh"; "thighs"; "calf";
  "calves"; "shin"; "shins" ].

Definition DESCRIPTORS : gset string := list_to_set [
  "about"; "around"; "near"; "between"; "under"; "over"; "above"; "below";
  "halfway"; "quarter"; "third"; "part"; "area"; "region"; "section"; "spot"; "location";
  "since"; "ago"; "days"; "weeks"; "months"; "years"; "yesterday"; "today";
  "morning"; "evening"; "night";
  "started"; "began"; "appeared"; "developed"; "showed"; "noticed";
  "small"; "large"; "big"; "tiny"; "huge"; "medium"; "sized";
  "red"; "pink"; "white"; "yellow"; "brown"; "black"; "blue"; "purple"; "green";
  "round"; "circular"; "oval"; "irregular"; "shaped" ].

Definition PERSONAL_INFO : gset string := list_to_set [
  "age"; "years"; "old"; "months";
  "male"; "female"; "man"; "woman"; "boy"; "girl"; "child"; "adult";
  "height"; "weight"; "tall"; "short"; "heavy"; "light"; "thin";
  "pregnant"; "pregnancy"; "expecting"; "trimester";
  "allergic"; "allergy"; "allergies"; "medication"; "medicine"; "drug";
  "history"; "family"; "personal"; "medical"; "condition"; "conditions";
  "doctor"; "physician"; "dermatologist"; "dentist" ].

(** [bool(a & b)] *)
Definition meets (a b : gset string) : bool := bool_decide (a ∩ b ≠ ∅).

(** *** Security patterns *)

Definition INJECTION_PATTERNS : list Re.regex := [
  (* (?i)\bignore (all|previous) (instructions|rules|prompts)\b *)
  Re.seqs [Re.WordB; Re.lit "ignore "; Re.words ["all"; "previous"]; Re.lit " ";
           Re.words ["instructions"; "rules"; "prompts"]; Re.WordB];
  (* (?i)\bdisregard (the )?(system|previous|prior) (prompt|instruction)\b *)
  Re.seqs [Re.WordB; Re.lit "disregard "; Re.opt (Re.lit "the ");
           Re.words ["system"; "previous"; "prior"]; Re.lit " ";
           Re.words ["prompt"; "instruction"]; Re.WordB];
  (* (?i)\boverride (the )?(safety|security|system)\b *)
  Re.seqs [Re.WordB; Re.lit "override "; Re.opt (Re.lit "the ");
           Re.words ["safety"; "security"; "system"]; Re.WordB];
  (* (?i)\byou are (now |)chatgpt\b *)
  Re.seqs [Re.WordB; Re.lit "you are "; Re.words ["now "; ""]; Re.lit "chatgpt"; Re.WordB];
  (* (?i)\bpretend (you|to) (are|be)\b.*\b(not|different)\b *)
  Re.seqs [Re.WordB; Re.lit "pretend "; Re.words ["you"; "to"]; Re.lit " ";
           Re.words ["are"; "be"]; Re.WordB; Re.Star Re.Dot; Re.WordB;
           Re.words ["not"; "different"]; Re.WordB];
  (* (?i)\breset (your|the) (instructions|rules|system)\b *)
  Re.seqs [Re.WordB; Re.lit "reset "; Re.words ["your"; "the"]; Re.lit " ";
           Re.words ["instructions"; "rules"; "system"]; Re.WordB] ].

(** *** RateLimiter *)

Module RateLimiter.

(** [self.bucket]: key -> timestamps, oldest first *)
Abbreviation bucket_t := (gmap (string * string) (list Q)).

(** [self.limits.get(kind, (30, 60))] *)
Definition limits (kind : string) : nat * Q :=
  if String.eqb kind "text" then (30%nat, 60%Q)
  else if String.eqb kind "image" then (5%nat, 3600%Q)
  else (30%nat, 60%Q).

Definition exceeded_message (wait_time : Z) : string :=
  "Rate limit exceeded. Please try again in " +:+ Py.str_of_int wait_time +:+ " seconds.".

(** The list stored under [key] once the expired timestamps are removed. *)
Definition live (now : Q) (window : Q) (bucket : bucket_t) (key : string * string) : list Q :=
  List.filter (fun t => Py.Qltb (now - t) window) (default [] (bucket !! key)).

(** [check(user_id, kind)] with [time.time()] reading [now].  Every limit
    is positive, so [self.bucket[key][0]] is read on a non-empty list;
    the empty case stands for the [IndexError] that never happens. *)
Definition check (now : Q) (user_id kind : string) (bucket : bucket_t)
  : (bool * string) * bucket_t :=
  let '(limit, window) := limits kind in
  let key := (user_id, kind) in
  let kept := live now window bucket key in
  if (limit <=? length kept)%nat then
    let wait_time := Py.int (window - (now - List.hd now kept)) in
    ((false, exceeded_message wait_time), <[key := kept]> bucket)
  else
    ((true, ""), <[key := kept ++ [now]]> bucket).

End RateLimiter.

(** The list under a key, empty when the key is absent. *)
Definition stored (b : RateLimiter.bucket_t) (key : string * string) : list Q :=
  default [] (b !! key).

(** The bucket after a series of calls [(now, user_id, kind)] made on a new
    [RateLimiter]. *)
Definition bucket_after (calls : list (Q * string * string)) : RateLimiter.bucket_t :=
  fold_left (fun b c => (RateLimiter.check c.1.1 c.1.2 c.2 b).2) calls ∅.

(** [check(user_id, kind)] at each of the times [ts] in turn; the bucket
    reached if every one of them is accepted. *)
Fixpoint accepted_run (ts : list Q) (user_id kind : string) (b : RateLimiter.bucket_t)
  : option RateLimiter.bucket_t :=
  match ts with
  | [] => Some b
  | t :: ts' =>
      let '((ok, _), b') := RateLimiter.check t user_id kind b in
      if ok then accepted_run ts' user_id kind b' else None
  end.

(** No list in the bucket is longer than the limit of its kind. *)
Definition bounded (b : RateLimiter.bucket_t) : Prop :=
  map_Forall (fun key l => (length l <= (RateLimiter.limits key.2).1)%nat) b.

(** A time between [t1], the first accepted request, and [now]. *)
Definition between_times (t1 now t : Q) : Prop := (t1 <= t /\ t <= now)%Q.


(** *** PromptInjectionDetector *)

Module PromptInjectionDetector.

Definition detect (text : string) : bool * string :=
  if String.eqb text "" then (false, "")
  else if existsb (fun pattern => Re.search true pattern text) INJECTION_PATTERNS
       then (true, "Invalid input detected")
       else (false, "").

End PromptInjectionDetector.

(** *** DomainGrounding *)

(** One entry of the history handed to the guardrails: a dictionary (with
    its ["content"], when it has one) or any other object, given by its
    [str()]. *)
Inductive HistoryMsg : Type :=
| HDict (role : string) (content : option string)
| HOther (text : string).

Module DomainGrounding.

Definition off_topic_response : string :=
  "I'm designed to help with skin and oral health concerns. "
  +:+ "Please describe your medical symptoms or concern. "
  +:+ "For example: 'I have a rash on my arm' or 'My gums are bleeding'.".

(** [set(re.findall(r'[a-z]+', s))] *)
Definition tokens_of (s : string) : gset string := list_to_set (Py.findall_az s).

Definition specialty_context (speciality : string) : list string :=
  if String.eqb speciality "skin" then
    ["skin"; "derma"; "rash"; "mole"; "itch"; "face"; "arm"; "leg"; "back"]
  else if String.eqb speciality "oral" then
    ["tooth"; "teeth"; "gum"; "mouth"; "dental"; "bite"; "jaw"; "tongue"]
  else [].

Definition specialty_keywords (speciality : string) : list string :=
  if String.eqb speciality "skin" then
    ["skin"; "derma"; "face"; "body"; "area"; "spot"; "mark"]
  else if String.eqb speciality "oral" then
    ["tooth"; "teeth"; "mouth"; "dental"; "bite"; "chew"; "taste"]
  else [].

Definition msg_text (msg : HistoryMsg) : string :=
  match msg with
  | HDict _ (Some c) => c
  | HDict _ None => ""
  | HOther t => t
  end.

(** [" ".join([...]).lower()] over the last ten messages *)
Definition combined_text (history : list HistoryMsg) : string :=
  Py.lower (Py.join " " (map msg_text (Py.last_n 10 history))).

Definition _analyze_conversation_context (history : list HistoryMsg) (speciality : string) : bool :=
  match history with
  | [] => false
  | _ =>
      let combined := combined_text history in
      let history_tokens := tokens_of combined in
      let has_medical_keywords := meets history_tokens MEDICAL_KEYWORDS in
      let has_body_parts := meets history_tokens BODY_PARTS in
      let has_descriptors := (3 <=? size (history_tokens ∩ DESCRIPTORS))%nat in
      let has_specialty_context :=
        existsb (fun word => Py.contains word combined) (specialty_context speciality) in
      has_medical_keywords || has_specialty_context || (has_body_parts && has_descriptors)
  end.

Definition non_medical_patterns : list Re.regex := [
  (* \b(weather|sports|politics|news|recipe|movie|music)\b *)
  Re.seqs [Re.WordB;
           Re.words ["weather"; "sports"; "politics"; "news"; "recipe"; "movie"; "music"];
           Re.WordB];
  (* \b(how to (make|cook|build|install))\b *)
  Re.seqs [Re.WordB; Re.lit "how to "; Re.words ["make"; "cook"; "build"; "install"];
           Re.WordB];
  (* \b(what is (the|a) (capital|president|weather))\b *)
  Re.seqs [Re.WordB; Re.lit "what is "; Re.words ["the"; "a"]; Re.lit " ";
           Re.words ["capital"; "president"; "weather"]; Re.WordB] ].

(** The message hits one of the patterns of obviously unrelated topics. *)
Definition matches_non_medical (text : string) : bool :=
  existsb (fun pattern => Re.search false pattern (Py.lower text)) non_medical_patterns.

Definition is_in_domain (text speciality : string) (history : list HistoryMsg)
  : bool * string :=
  if String.eqb text "" then (true, "") else
  let text_lower := Py.lower text in
  let tokens := tokens_of text_lower in
  (* signal 1 *)
  if meets tokens MEDICAL_KEYWORDS then (true, "") else
  (* signal 2 *)
  let has_body_part := meets tokens BODY_PARTS in
  if has_body_part then (true, "") else
  (* signal 3 *)
  let has_descriptors := meets tokens DESCRIPTORS in
  let descriptor_count := size (tokens ∩ DESCRIPTORS) in
  if (2 <=? descriptor_count)%nat && (size tokens <=? 20)%nat then (true, "") else
  (* signal 4 *)
  let has_personal_info := meets tokens PERSONAL_INFO in
  if has_personal_info && (size tokens <=? 15)%nat then (true, "") else
  (* signal 5 *)
  if match history with [] => false | _ => true end
     && _analyze_conversation_context history speciality
     && ((size tokens <=? 20)%nat
         || has_descriptors
         || existsb (fun w => bool_decide (w ∈ tokens))
                    ["yes"; "no"; "it"; "its"; "this"; "that"])
  then (true, "") else
  (* signal 6 *)
  if (String.eqb speciality "skin" || String.eqb speciality "oral")
     && (existsb (fun word => Py.contains word text_lower) (specialty_keywords speciality)
         || ((size tokens <=? 10)%nat && (has_descriptors || has_personal_info)))
  then (true, "") else
  (* rejection: with or without a hit of the unrelated-topic patterns *)
  if matches_non_medical text then (false, off_topic_response)
  else (false, off_topic_response).

End DomainGrounding.

(** The lower-cased text of the whole history, not only of its last ten
    messages. *)
Definition whole_history_text (history : list HistoryMsg) : string :=
  Py.lower (Py.join " " (map DomainGrounding.msg_text history)).


(** *** ContentModerator *)

Module ContentModerator.

Definition emergency_response : string :=
  "I'm concerned about your safety. If you're in crisis or considering self-harm, "
  +:+ "please contact emergency services immediately (call 911 in the US) or reach out to "
  +:+ "a crisis helpline like the 988 Suicide & Crisis Lifeline (call or text 988). "
  +:+ "Your life matters and help is available 24/7.".

Definition crisis_patterns : list Re.regex := [
  (* \b(suicide|kill myself|end my life|want to die)\b *)
  Re.seqs [Re.WordB;
           Re.words ["suicide"; "kill myself"; "end my life"; "want to die"];
           Re.WordB];
  (* \b(self.harm|cutting myself|hurt myself)\b *)
  Re.seqs [Re.WordB;
           Re.alts [Re.seqs [Re.lit "self"; Re.Dot; Re.lit "harm"];
                    Re.lit "cutting myself"; Re.lit "hurt myself"];
           Re.WordB] ].

(** The message hits a crisis pattern. *)
Definition matches_crisis (text : string) : bool :=
  existsb (fun pattern => Re.search false pattern (Py.lower text)) crisis_patterns.

(** [(is_safe, category, message)] *)
Definition moderate (text : string) : bool * string * string :=
  if String.eqb text "" then (true, "safe", "") else
  if matches_crisis text then (false, "emergency", emergency_response) else
  if (8000 <? Z.of_nat (Py.len text))%Z then
    (false, "validation", "Message too long. Please keep messages under 8000 characters.")
  else
  if (size (list_to_set (Py.split (Py.lower text)) : gset string) <? 3)%nat
     && (50 <? Z.of_nat (Py.len text))%Z
  then (false, "validation", "Invalid message format")
  else (true, "safe", "").

End ContentModerator.

(** *** ResponseSanitizer *)

Module ResponseSanitizer.

(** [html.escape(text)], quotes included *)
Definition escape_char (c : ascii) : list ascii :=
  if Ascii.eqb c "&" then Py.chars "&amp;"
  else if Ascii.eqb c "<" then Py.chars "&lt;"
  else if Ascii.eqb c ">" then Py.chars "&gt;"
  else if Ascii.eqb c "034" then Py.chars "&quot;"
  else if Ascii.eqb c "'" then Py.chars "&#x27;"
  else [c].

Definition html_escape_l (l : list ascii) : list ascii := flat_map escape_char l.

(** The class [[\x00-\x08\x0b-\x0c\x0e-\x1f\x7f]] *)
Definition is_control (c : ascii) : bool :=
  Py.between 0 8 c || Py.between 11 12 c || Py.between 14 31 c || (Py.code c =? 127)%nat.

Definition drop_control_l (l : list ascii) : list ascii :=
  List.filter (fun c => negb (is_control c)) l.

Definition sanitize_l (l : list ascii) : list ascii :=
  Py.strip_l (drop_control_l (html_escape_l l)).

Definition sanitize_text (text : string) : string :=
  if String.eqb text "" then ""
  else Py.str (sanitize_l (Py.chars text)).

End ResponseSanitizer.

(** The five characters [html.escape] rewrites. *)
Definition is_html_special (c : ascii) : bool :=
  Ascii.eqb c "&" || Ascii.eqb c "<" || Ascii.eqb c ">" || Ascii.eqb c "034"
  || Ascii.eqb c "'".

Definition has_html_special (text : string) : bool :=
  existsb is_html_special (Py.chars text).

(** The first character, when there is one, is not white space. *)
Definition starts_clean (l : list ascii) : bool :=
  match l with c :: _ => negb (Py.is_space c) | [] => true end.

Definition ends_clean (l : list ascii) : bool := starts_clean (rev l).

(** Texts that [re.sub] and [strip] leave alone. *)
Definition clean (l : list ascii) : Prop :=
  forallb (fun c => negb (ResponseSanitizer.is_control c)) l = true
  /\ starts_clean l = true /\ ends_clean l = true.


(** *** SecurityOrchestrator *)

Module SecurityOrchestrator.

(** [self.metrics] *)
Record Metrics : Type := {
  total_requests : nat;
  blocked_requests : nat;
  block_reasons : gmap string nat
}.

(** The mutable part of the orchestrator. *)
Record State : Type := {
  enabled : bool;
  bucket : RateLimiter.bucket_t;
  metrics : Metrics
}.

(** [SecurityOrchestrator(enabled)] *)
Definition init (enabled : bool) : State :=
  {| enabled := enabled;
     bucket := ∅;
     metrics := {| total_requests := 0; blocked_requests := 0; block_reasons := ∅ |} |}.

Definition count_request (m : Metrics) : Metrics :=
  {| total_requests := total_requests m + 1;
     blocked_requests := blocked_requests m;
     block_reasons := block_reasons m |}.

Definition _track_block (reason : string) (m : Metrics) : Metrics :=
  {| total_requests := total_requests m;
     blocked_requests := blocked_requests m + 1;
     block_reasons :=
       <[reason := default 0%nat (block_reasons m !! reason) + 1]> (block_reasons m) |}.

(** The third component of the result: [{"category": c}] on acceptance,
    [{"error_type": e}] on rejection. *)
Inductive Meta : Type :=
| Category (c : string)
| ErrorType (e : string).

Definition with_metrics (st : State) (m : Metrics) : State :=
  {| enabled := enabled st; bucket := bucket st; metrics := m |}.

Definition validate_input (now : Q) (user_id : string) (message : option string)
           (req_type speciality : string) (history : list HistoryMsg) (st : State)
  : (bool * string * Meta) * State :=
  let st := with_metrics st (count_request (metrics st)) in
  if negb (enabled st) then ((true, "", Category "security_disabled"), st) else
  let message := Py.strip (default "" message) in
  (* layer 1 *)
  let '((ok, msg), bucket') :=
    RateLimiter.check now user_id (if String.eqb req_type "text" then "text" else "image")
                      (bucket st) in
  let st := {| enabled := enabled st; bucket := bucket'; metrics := metrics st |} in
  if negb ok then
    ((false, msg, ErrorType "rate_limit"), with_metrics st (_track_block "rate_limit" (metrics st)))
  else
  (* layer 2 *)
  let '(suspicious, inj_msg) := PromptInjectionDetector.detect message in
  if suspicious then
    ((false, "Invalid input detected.", ErrorType "security"),
     with_metrics st (_track_block "injection" (metrics st)))
  else
  (* layer 3 *)
  let '(in_domain, domain_msg) :=
    if String.eqb req_type "text"
    then DomainGrounding.is_in_domain message speciality history
    else (true, "") in
  if negb in_domain then
    ((false, domain_msg, ErrorType "off_topic"),
     with_metrics st (_track_block "off_topic" (metrics st)))
  else
  (* layer 4 *)
  let '(safe, category, mod_msg) := ContentModerator.moderate message in
  if negb safe then
    let st := with_metrics st (_track_block category (metrics st)) in
    if String.eqb category "emergency" then ((false, mod_msg, ErrorType "emergency"), st)
    else ((false, if String.eqb mod_msg "" then "Inappropriate content" else mod_msg,
           ErrorType category), st)
  else ((true, "", Category "safe"), st).

(** [sum(block_reasons.values())] *)
Definition reasons_total (m : Metrics) : nat :=
  map_fold (fun _ n acc => n + acc) 0 (block_reasons m).

(** [get_metrics()["block_rate"]]: the quotient, or [None] for the
    [ZeroDivisionError] of a zero denominator. *)
Definition block_rate (m : Metrics) : option Q :=
  let denominator := Nat.max (total_requests m) 1 in
  if (denominator =? 0)%nat then None
  else Some (Z.of_nat (blocked_requests m) # Pos.of_nat denominator).

End SecurityOrchestrator.

(** One call of [validate_input], with the clock it reads. *)
Record ValidateCall : Type := {
  at_time : Q;
  by_user : string;
  with_message : option string;
  of_type : string;
  for_speciality : string;
  after_history : list HistoryMsg
}.

Definition validate_call (c : ValidateCall) (st : SecurityOrchestrator.State)
  : (bool * string * SecurityOrchestrator.Meta) * SecurityOrchestrator.State :=
  SecurityOrchestrator.validate_input
    (at_time c) (by_user c) (with_message c) (of_type c) (for_speciality c)
    (after_history c) st.

(** The orchestrator after a series of calls made on a new one. *)
Definition state_after (enabled : bool) (calls : list ValidateCall)
  : SecurityOrchestrator.State :=
  fold_left (fun st c => (validate_call c st).2) calls (SecurityOrchestrator.init enabled).

(** [blocked_requests] is the sum of the histogram and is at most
    [total_requests]. *)
Definition metrics_consistent (m : SecurityOrchestrator.Metrics) : Prop :=
  SecurityOrchestrator.reasons_total m = SecurityOrchestrator.blocked_requests m
  /\ SecurityOrchestrator.blocked_requests m <= SecurityOrchestrator.total_requests m.


(* ===================================================================== *)
(** ** Decoded JSON values and Python exceptions *)
(* ===================================================================== *)

(** What [r.json()] returns, and what the dictionaries built by the
    supervisor hold.  A dictionary is the list of its items; the first item
    of a key is the one that counts. *)
Inductive json : Type :=
| JNull
| JBool (b : bool)
| JInt (z : Z)
| JFloat (q : Q)
| JStr (s : string)
| JArr (items : list json)
| JObj (fields : list (string * json)).

(** An exception: FastAPI's [HTTPException], or any other one, given by
    its [str()]. *)
Inductive PyExc : Type :=
| HTTPException (status_code : Z) (detail : string)
| Error (text : string).

Module Json.

Fixpoint dict_get (k : string) (d : list (string * json)) : option json :=
  match d with
  | [] => None
  | (k', v) :: d' => if String.eqb k k' then Some v else dict_get k d'
  end.

(** [bool(j)] *)
Definition truthy (j : json) : bool :=
  match j with
  | JNull => false
  | JBool b => b
  | JInt z => negb (z =? 0)%Z
  | JFloat q => negb (Qeq_bool q 0)
  | JStr s => negb (String.eqb s "")
  | JArr l => match l with [] => false | _ => true end
  | JObj d => match d with [] => false | _ => true end
  end.

Definition type_name (j : json) : string :=
  match j with
  | JNull => "NoneType"
  | JBool _ => "bool"
  | JInt _ => "int"
  | JFloat _ => "float"
  | JStr _ => "str"
  | JArr _ => "list"
  | JObj _ => "dict"
  end.

(** [j.get(k, dflt)]: only a dictionary has [get]. *)
Definition get (j : json) (k : string) (dflt : json) : PyExc + json :=
  match j with
  | JObj d => inr (default dflt (dict_get k d))
  | _ => inl (Error ("'" +:+ type_name j +:+ "' object has no attribute 'get'"))
  end.

Definition of_option_str (o : option string) : json :=
  match o with Some s => JStr s | None => JNull end.

End Json.

(** [str(e)]; for an [HTTPException] it is Starlette's
    [f"{status_code}: {detail}"]. *)
Definition exc_str (e : PyExc) : string :=
  match e with
  | HTTPException status detail => Py.str_of_int status +:+ ": " +:+ detail
  | Error text => text
  end.

(* ===================================================================== *)
(** ** utils/http_client.py *)
(* ===================================================================== *)

Module HttpClient.

(** What one pass through the [try] block of [post_json] does: one of
    its three statements raises, or the body is returned.  Each exception
    is given by its [str()]. *)
Inductive Outcome : Type :=
| PostRaised (e : string)                  (* [client.post]: timeout, transport error *)
| StatusRaised (status : Z) (e : string)   (* [r.raise_for_status()]: a non-2xx status *)
| JsonRaised (e : string)                  (* [r.json()]: the body is not JSON *)
| Returned (body : json).

(** What the client does to the outside, in order. *)
Inductive Event : Type :=
| Post (url : string) (payload : json)
| Sleep (seconds : Q).

Definition base_delay : Q := 3 # 10.

(** [0.3 * (attempt + 1)], taken as an exact decimal; the code computes
    the product in double precision. *)
Definition backoff (attempt : nat) : Q := base_delay * inject_Z (Z.of_nat attempt + 1).

(** [str(last_err)] *)
Definition last_err_str (last_err : option string) : string :=
  match last_err with Some e => e | None => "None" end.

Definition unavailable (url : string) (last_err : option string) : PyExc :=
  HTTPException 502 ("Downstream " +:+ url +:+ " error: " +:+ last_err_str last_err).

Definition failure (o : Outcome) : option string :=
  match o with
  | PostRaised e | StatusRaised _ e | JsonRaised e => Some e
  | Returned _ => None
  end.

(** The [for] loop with [n] rounds left, the next one numbered
    [attempt]; [net k] is what attempt [k] meets. *)
Fixpoint attempts (url : string) (payload : json) (net : nat -> Outcome)
         (n attempt : nat) (last_err : option string) : (PyExc + json) * list Event :=
  match n with
  | O => (inl (unavailable url last_err), [])
  | S n' =>
      match net attempt with
      | Returned body => (inr body, [Post url payload])
      | PostRaised e | StatusRaised _ e | JsonRaised e =>
          let '(r, evs) := attempts url payload net n' (S attempt) (Some e) in
          (r, Post url payload :: Sleep (backoff attempt) :: evs)
      end
  end.

(** [HttpClient(timeout, retries).post_json(url, payload)]; the loop runs
    over [range(retries + 1)]. *)
Definition post_json (retries : Z) (url : string) (payload : json) (net : nat -> Outcome)
  : (PyExc + json) * list Event :=
  attempts url payload net (Z.to_nat (retries + 1)) 0 None.

(** The requests among the events. *)
Definition posts (evs : list Event) : list (string * json) :=
  flat_map (fun ev => match ev with Post u p => [(u, p)] | Sleep _ => [] end) evs.

Definition sleeps (evs : list Event) : list Q :=
  flat_map (fun ev => match ev with Post _ _ => [] | Sleep d => [d] end) evs.

End HttpClient.

(** The events of the failed attempts numbered [first], ..., [first + n - 1],
    each followed by its sleep. *)
Definition failed_rounds (url : string) (payload : json) (first n : nat)
  : list HttpClient.Event :=
  flat_map (fun k => [HttpClient.Post url payload; HttpClient.Sleep (HttpClient.backoff k)])
           (seq first n).


(* ===================================================================== *)
(** ** utils/validators.py *)
(* ===================================================================== *)

Module Validators.

(** The fields of [urllib.parse.urlparse(url)] that are read. *)
Record ParseResult : Type := {
  scheme : string;
  path : string;
  hostname : option string
}.

Definition SAFE_EXT : list string := [".jpg"; ".jpeg"; ".png"].

Definition dot : Re.regex := Re.Chr ".".

(* (^127\.0\.0\.1)|(^0\.)|(^10\.)|(^169\.254\.)|(^172\.(1[6-9]|2\d|3[0-1])\.)|(^192\.168\.) *)
Definition PRIVATE_IP_RE : Re.regex :=
  Re.alts [
    Re.seqs [Re.Bol; Re.lit "127.0.0.1"];
    Re.seqs [Re.Bol; Re.lit "0."];
    Re.seqs [Re.Bol; Re.lit "10."];
    Re.seqs [Re.Bol; Re.lit "169.254."];
    Re.seqs [Re.Bol; Re.lit "172.";
             Re.alts [Re.Seq (Re.Chr "1") (Re.Cls (Py.between 54 57));
                      Re.Seq (Re.Chr "2") (Re.Cls Py.is_digit);
                      Re.Seq (Re.Chr "3") (Re.Cls (Py.between 48 49))];
             dot];
    Re.seqs [Re.Bol; Re.lit "192.168."] ].

(* (localhost|file:|metadata\.googleinternal|169\.254\.169\.254), re.IGNORECASE *)
Definition UNSAFE_HOST_RE : Re.regex :=
  Re.words ["localhost"; "file:"; "metadata.googleinternal"; "169.254.169.254"].

(** [s.endswith(suffix)] *)
Definition endswith (s suffix : string) : bool :=
  Py.prefix_l (rev (Py.chars suffix)) (rev (Py.chars s)).

Definition validate_image_url (urlparse : string -> ParseResult) (url : string)
  : bool * string :=
  if String.eqb url "" then (false, "image_url is required.") else
  let parsed := urlparse url in
  if negb (existsb (String.eqb (scheme parsed)) ["http"; "https"; "gs"]) then
    (false, "Invalid URL scheme. Must be http, https, or gs:// (Google Cloud Storage).")
  else
  let path_lower := Py.lower (path parsed) in
  if String.eqb (scheme parsed) "gs" then
    if String.eqb (path parsed) "" then (false, "Invalid gs:// URL. Path is required.")
    else if negb (existsb (endswith path_lower) SAFE_EXT) then
      (false, "Only .jpg, .jpeg, and .png images are allowed.")
    else (true, "")
  else
  if negb (existsb (endswith path_lower) SAFE_EXT) then
    (false, "Only .jpg, .jpeg, and .png images are allowed.")
  else
  let host := Py.lower (default "" (hostname parsed)) in
  if String.eqb host "" then (false, "Missing hostname in image URL.") else
  if Re.search false PRIVATE_IP_RE host then
    (false, "Image URL points to a private or local network address.")
  else if Re.search true UNSAFE_HOST_RE url then
    (false, "Unsafe or internal host detected in image URL.")
  else (true, "").

End Validators.

(* ===================================================================== *)
(** ** app.py *)
(* ===================================================================== *)

Module MessageTurn.
Record t : Type := { role : string; content : string }.
End MessageTurn.

Module SupervisorRequest.
Record t : Type := {
  message : option string;
  image_url : option string;
  user : option string;
  user_id : string;
  chat_id : string;
  type : string;
  speciality : string;
  history : list MessageTurn.t
}.
End SupervisorRequest.

(** [timestamp], read from the clock when the response is built, is left
    out. *)
Module AgentResponse.
Record t : Type := {
  success : bool;
  response : string;
  response_type : string;
  chat_id : string;
  metadata : list (string * json);
  error : option (list (string * json))
}.
End AgentResponse.

Module Supervisor.

Import SupervisorRequest.

(** The environment variables read at start-up. *)
Record Config : Type := {
  SKIN_AGENT_URL : string;
  ORAL_AGENT_URL : string;
  VISION_AGENT_URL : string;
  REPORTING_AGENT_URL : string
}.

(** Library behaviour the supervisor relies on and that is taken as
    given. *)
Record Platform : Type := {
  (* [urllib.parse.urlparse], on the URLs it parses.  On a few malformed
     ones (a bracket that is not closed in the host) it raises a
     [ValueError]; that exception leaves [validate_payload] and
     [main_entry] before anything is logged, and is not part of the
     embedding. *)
  urlparse : string -> Validators.ParseResult;
  (* [f"{v}"] for a decoded JSON value [v] *)
  format_value : json -> string;
  (* [str(e)] for the pydantic error of a request whose [type],
     [speciality] or a [role] is not one of the allowed words *)
  payload_error : SupervisorRequest.t -> string;
  (* [str(e)] for the pydantic error of a [str] field given this value *)
  model_error : json -> string;
  (* the fields of a chat document after [set(data, merge=True)] *)
  firestore_merge : option (list (string * json)) -> list (string * json)
                    -> list (string * json)
}.

(** The document store: under each chat, the sub-collections
    [messages], [vision] and [reports], and the chat document itself.
    Each write of [FirestoreService] succeeds; [createdAt] and
    [timestamp], which the store fills in itself, are left out. *)
Record Store : Type := {
  messages : gmap string (list json);
  vision : gmap string (list json);
  reports : gmap string (list json);
  chats : gmap string (list (string * json))
}.

(** Everything a turn can change. *)
Record World : Type := {
  guardrails : SecurityOrchestrator.State;
  db : Store;
  http_log : list HttpClient.Event
}.

(** What a turn meets: the clock read by the rate limiter, and for the
    [call]-th [post_json] of the turn what its [attempt]-th request
    meets. *)
Record Env : Type := {
  now : Q;
  net : nat -> nat -> HttpClient.Outcome
}.

(** Computations that change the world and may raise. *)
Definition M (A : Type) : Type := World -> (PyExc + A) * World.

Definition ret {A} (a : A) : M A := fun w => (inr a, w).
Definition raise {A} (e : PyExc) : M A := fun w => (inl e, w).
Definition lift {A} (r : PyExc + A) : M A := fun w => (r, w).
Definition bind {A B} (m : M A) (k : A -> M B) : M B :=
  fun w => match m w with
           | (inl e, w') => (inl e, w')
           | (inr a, w') => k a w'
           end.
Definition try_except {A} (m : M A) (handler : PyExc -> M A) : M A :=
  fun w => match m w with
           | (inl e, w') => handler e w'
           | (inr a, w') => (inr a, w')
           end.

(** A computation that leaves the transcript alone; one that leaves it
    alone when it raises. *)
Definition quiet {A} (m : M A) : Prop :=
  forall w, messages (db (m w).2) = messages (db w).

Definition silent_on_raise {A} (m : M A) : Prop :=
  forall w e w', m w = (inl e, w') -> messages (db w') = messages (db w).


Notation "x <- m ;; k" := (bind m (fun x => k))
  (at level 100, m at next level, right associativity).

Definition add_doc (chat : string) (doc : json) (c : gmap string (list json))
  : gmap string (list json) :=
  <[chat := default [] (c !! chat) ++ [doc]]> c.

Definition with_db (w : World) (d : Store) : World :=
  {| guardrails := guardrails w; db := d; http_log := http_log w |}.

(** [db.save_message(chat_id, message)] *)
Definition save_message (chat : string) (doc : json) : M unit :=
  fun w => (inr tt,
            with_db w {| messages := add_doc chat doc (messages (db w));
                         vision := vision (db w);
                         reports := reports (db w);
                         chats := chats (db w) |}).

(** [db.log_vision_result(chat_id, result)] *)
Definition log_vision_result (chat : string) (doc : json) : M unit :=
  fun w => (inr tt,
            with_db w {| messages := messages (db w);
                         vision := add_doc chat doc (vision (db w));
                         reports := reports (db w);
                         chats := chats (db w) |}).

(** [db.save_report(chat_id, report_data)] *)
Definition save_report (chat : string) (doc : json) : M unit :=
  fun w => (inr tt,
            with_db w {| messages := messages (db w);
                         vision := vision (db w);
                         reports := add_doc chat doc (reports (db w));
                         chats := chats (db w) |}).

Section WithPlatform.

Context (P : Platform) (cfg : Config) (env : Env).

(** [db.db.collection("chats").document(chat_id).set(data, merge=True)] *)
Definition set_merge (chat : string) (data : list (string * json)) : M unit :=
  fun w => (inr tt,
            with_db w {| messages := messages (db w);
                         vision := vision (db w);
                         reports := reports (db w);
                         chats := <[chat := firestore_merge P (chats (db w) !! chat) data]>
                                    (chats (db w)) |}).

(** [http.post_json(url, payload)] with [http = HttpClient(timeout=25,
    retries=2)]; [call] numbers the calls of the turn. *)
Definition post_json (call : nat) (url : string) (payload : json) : M json :=
  fun w =>
    let '(r, evs) := HttpClient.post_json 2 url payload (net env call) in
    (r, {| guardrails := guardrails w; db := db w; http_log := http_log w ++ evs |}).

(** The [pattern] constraints of [SupervisorRequest] and [MessageTurn]. *)
Definition well_formed (req : SupervisorRequest.t) : bool :=
  existsb (String.eqb (type req)) ["text"; "image"]
  && existsb (String.eqb (speciality req)) ["skin"; "oral"]
  && forallb (fun h => existsb (String.eqb (MessageTurn.role h))
                               ["user"; "assistant"; "system"])
             (history req).

Definition ok (chat_id : string) (msg : json) (typ : string) (meta : list (string * json))
  : PyExc + AgentResponse.t :=
  match msg with
  | JStr s =>
      inr {| AgentResponse.success := true;
             AgentResponse.response := s;
             AgentResponse.response_type := typ;
             AgentResponse.chat_id := chat_id;
             AgentResponse.metadata := meta;
             AgentResponse.error := None |}
  | _ => inl (Error (model_error P msg))
  end.

Definition err (chat_id msg typ : string) (meta : option (list (string * json)))
  : AgentResponse.t :=
  {| AgentResponse.success := false;
     AgentResponse.response := msg;
     AgentResponse.response_type := "error";
     AgentResponse.chat_id := chat_id;
     AgentResponse.metadata :=
       match meta with
       | Some (item :: items) => item :: items
       | _ => [("error_type", JStr typ)]
       end;
     AgentResponse.error := Some [("type", JStr typ); ("message", JStr msg)] |}.

Definition validate_payload (req : SupervisorRequest.t) : M unit :=
  if String.eqb (type req) "text" && String.eqb (default "" (message req)) "" then
    raise (HTTPException 400 "message required for type='text'")
  else if String.eqb (type req) "image" then
    let '(ok_url, msg) :=
      Validators.validate_image_url (urlparse P) (default "" (image_url req)) in
    if negb ok_url then raise (HTTPException 400 msg) else ret tt
  else ret tt.

(** The [doc] of [_log_user_message]. *)
Definition user_doc (req : SupervisorRequest.t) : json :=
  JObj ([("sender", JStr "user");
         ("user", JStr (default "" (user req)));
         ("userId", JStr (user_id req));
         ("text", if String.eqb (type req) "text"
                  then Json.of_option_str (message req) else JStr "[Image sent]")]
        ++ (if String.eqb (type req) "image"
            then [("image", Json.of_option_str (image_url req))] else [])).

Definition _log_user_message (req : SupervisorRequest.t) : M unit :=
  save_message (chat_id req) (user_doc req).

(** The [bot_doc] of [_log_bot_message]. *)
Definition bot_doc (req : SupervisorRequest.t) (response : AgentResponse.t) : json :=
  JObj [("sender", JStr "bot");
        ("user", JStr "AI Bot");
        ("userId", JStr (user_id req));
        ("text", JStr (AgentResponse.response response))].

Definition _log_bot_message (req : SupervisorRequest.t) (response : AgentResponse.t)
  : M unit :=
  save_message (chat_id req) (bot_doc req response).

Definition turn_json (h : MessageTurn.t) : json :=
  JObj [("role", JStr (MessageTurn.role h)); ("content", JStr (MessageTurn.content h))].

(** [MessageTurn(role="assistant", content=v)]: [content] has to be a
    [str]. *)
Definition assistant_turn (v : json) : PyExc + MessageTurn.t :=
  match v with
  | JStr s => inr {| MessageTurn.role := "assistant"; MessageTurn.content := s |}
  | _ => inl (Error (model_error P v))
  end.

(** The two appends to [req.history] are seen by nothing afterwards;
    what is kept of them is the exception the second can raise.
    [post_json] raises nothing but [HTTPException], so the handler for
    [httpx.HTTPStatusError] is never entered and every exception of
    the [try] block reaches [except Exception]. *)
Definition _route_text (req : SupervisorRequest.t) : M AgentResponse.t :=
  let agent_url :=
    if String.eqb (speciality req) "skin" then SKIN_AGENT_URL cfg else ORAL_AGENT_URL cfg in
  let chat_history := map turn_json (history req) in
  let current := JObj [("role", JStr "user"); ("content", Json.of_option_str (message req))] in
  let chat_history :=
    match List.last (map Some (history req)) None with
    | Some h =>
        if bool_decide (Some (MessageTurn.content h) = message req)
        then chat_history else chat_history ++ [current]
    | None => chat_history ++ [current]
    end in
  let payload :=
    JObj [("thread_id", JStr (chat_id req));
          ("message", Json.of_option_str (message req));
          ("chat_history", JArr chat_history)] in
  try_except
    (data <- post_json 0 agent_url payload ;;
     reply <- lift (Json.get data "response" JNull) ;;
     _ <- (if Json.truthy reply
           then (_ <- lift (assistant_turn reply) ;; ret tt)
           else ret tt) ;;
     msg <- lift (Json.get data "response" (JStr "")) ;;
     should_request_image <- lift (Json.get data "should_request_image" (JBool false)) ;;
     collected_info <- lift (Json.get data "collected_info" (JObj [])) ;;
     _ <- (if Json.truthy collected_info
           then set_merge (chat_id req) [("user_metadata", collected_info)]
           else ret tt) ;;
     thread_id <- lift (Json.get data "thread_id" JNull) ;;
     history_out <- lift (Json.get data "chat_history" (JArr [])) ;;
     information_complete <- lift (Json.get data "information_complete" (JBool false)) ;;
     api_calls <- lift (Json.get data "api_calls" (JInt 1)) ;;
     let meta :=
       [("thread_id", thread_id);
        ("chat_history", history_out);
        ("information_complete", information_complete);
        ("should_request_image", should_request_image);
        ("ready_for_images", should_request_image);
        ("collected_info", collected_info);
        ("api_calls", api_calls)] in
     lift (ok (chat_id req) msg "text" meta))
    (fun e =>
       raise (HTTPException 502
                ("Downstream " +:+ agent_url +:+ " error: " +:+ exc_str e))).

Definition vision_payload (req : SupervisorRequest.t) : json :=
  JObj [("image_url", Json.of_option_str (image_url req));
        ("user_id", JStr (user_id req));
        ("chat_id", JStr (chat_id req));
        ("chat_type", JStr (speciality req));
        ("message_type", JStr "image")].

Definition _route_image_then_report (req : SupervisorRequest.t) : M AgentResponse.t :=
  vision <- post_json 0 (VISION_AGENT_URL cfg) (vision_payload req) ;;
  is_valid <- lift (Json.get vision "is_valid" (JBool false)) ;;
  validation_reason <- lift (Json.get vision "validation_reason" (JStr "")) ;;
  if negb (Json.truthy is_valid) then
    let error_msg := "Invalid image: " +:+ format_value P validation_reason in
    let response :=
      err (chat_id req) error_msg "invalid_image"
          (Some [("validation_reason", validation_reason);
                 ("error_type", JStr "image_validation_failed")]) in
    _ <- _log_bot_message req response ;;
    ret response
  else
  prediction_result <- lift (Json.get vision "prediction_result" JNull) ;;
  if negb (Json.truthy prediction_result) then
    raise (HTTPException 502 "Vision agent returned valid image but no prediction result")
  else
  diagnosis_name <- lift (Json.get prediction_result "predicted_class" (JStr "Unknown")) ;;
  confidence <- lift (Json.get prediction_result "confidence" (JFloat 0)) ;;
  let diagnosis := JObj [("diagnosis_name", diagnosis_name); ("confidence", confidence)] in
  _ <- log_vision_result (chat_id req)
         (JObj [("speciality", JStr (speciality req));
                ("diagnosis", diagnosis_name);
                ("confidence", confidence)]) ;;
  collected_info <-
    (fun w => (inr match chats (db w) !! chat_id req with
                   | Some chat_data =>
                       default (JObj []) (Json.dict_get "user_metadata" chat_data)
                   | None => JObj []
                   end, w)) ;;
  let report_payload :=
    JObj [("user_id", JStr (user_id req));
          ("chat_id", JStr (chat_id req));
          ("speciality", JStr (speciality req));
          ("type", JStr "report");
          ("history", JArr (map turn_json (history req)));
          ("diagnosis", diagnosis);
          ("image_url", Json.of_option_str (image_url req));
          ("metadata", collected_info)] in
  report <- post_json 1 (REPORTING_AGENT_URL cfg) report_payload ;;
  report_data <- lift (Json.get report "report" (JObj [])) ;;
  diagnosis_from_report <- lift (Json.get report "diagnosis" diagnosis) ;;
  output <- lift (Json.get report_data "output" JNull) ;;
  let report_output := if Json.truthy output then output else JStr "Your report is ready." in
  image_description <- lift (Json.get report "image_description" JNull) ;;
  image_url_out <- lift (Json.get report "image_url" (Json.of_option_str (image_url req))) ;;
  speciality_out <- lift (Json.get report "speciality" (JStr (speciality req))) ;;
  generated_at <- lift (Json.get report "generated_at" JNull) ;;
  status <- lift (Json.get report "status" (JStr "success")) ;;
  let meta :=
    [("diagnosis", diagnosis_from_report);
     ("report", report_data);
     ("image_description", image_description);
     ("image_url", image_url_out);
     ("speciality", speciality_out);
     ("generated_at", generated_at);
     ("status", status);
     ("message_state", JStr "COMPLETED");
     ("ready_for_images", JBool false);
     ("validation_reason", validation_reason)] in
  final <- lift (ok (chat_id req) report_output "report" meta) ;;
  _ <- save_report (chat_id req)
         (JObj [("diagnosis", diagnosis_from_report);
                ("report", report_data);
                ("full_report_response", report)]) ;;
  ret final.

(** [guardrails.validate_input(...)] on the shared orchestrator *)
Definition validate_input (req : SupervisorRequest.t)
  : M (bool * string * SecurityOrchestrator.Meta) :=
  fun w =>
    let history_for_validation :=
      map (fun h => HDict (MessageTurn.role h) (Some (MessageTurn.content h)))
          (history req) in
    let '(verdict, st) :=
      SecurityOrchestrator.validate_input
        (now env) (user_id req) (Some (default "" (message req))) (type req)
        (speciality req) history_for_validation (guardrails w) in
    (inr verdict, {| guardrails := st; db := db w; http_log := http_log w |}).

Definition meta_dict (meta : SecurityOrchestrator.Meta) : list (string * json) :=
  match meta with
  | SecurityOrchestrator.Category c => [("category", JStr c)]
  | SecurityOrchestrator.ErrorType e => [("error_type", JStr e)]
  end.

(** [meta.get("error_type", "security")] *)
Definition meta_error_type (meta : SecurityOrchestrator.Meta) : string :=
  match meta with
  | SecurityOrchestrator.Category _ => "security"
  | SecurityOrchestrator.ErrorType e => e
  end.

(** The handler of [POST /api/v1/main] on a payload whose fields have
    the declared types; an exception that leaves it is the HTTP error
    sent to the caller. *)
Definition main_entry (req : SupervisorRequest.t) : M AgentResponse.t :=
  if negb (well_formed req) then
    raise (HTTPException 400 ("Invalid payload: " +:+ payload_error P req))
  else
  _ <- validate_payload req ;;
  _ <- _log_user_message req ;;
  rejected <-
    (if String.eqb (type req) "text" then
       verdict <- validate_input req ;;
       let '(ok_sec, msg, meta) := verdict in
       if negb ok_sec then
         let response := err (chat_id req) msg (meta_error_type meta) (Some (meta_dict meta)) in
         _ <- _log_bot_message req response ;;
         ret (Some response)
       else ret None
     else ret None) ;;
  match rejected with
  | Some response => ret response
  | None =>
      try_except
        (response <- (if String.eqb (type req) "text"
                      then _route_text req else _route_image_then_report req) ;;
         _ <- _log_bot_message req response ;;
         ret response)
        (fun e =>
           match e with
           | HTTPException _ _ => raise e
           | Error _ =>
               let response :=
                 err (chat_id req) "Internal server error" "internal_error"
                     (Some [("detail", JStr (exc_str e))]) in
               _ <- _log_bot_message req response ;;
               ret response
           end)
  end.

(** The steps of [main_entry], named. *)

(** The step of [main_entry] that consults the guardrails. *)
Definition screening (req : SupervisorRequest.t) : M (option AgentResponse.t) :=
  if String.eqb (type req) "text" then
    verdict <- validate_input req ;;
    let '(ok_sec, msg, meta) := verdict in
    if negb ok_sec then
      let response := err (chat_id req) msg (meta_error_type meta) (Some (meta_dict meta)) in
      _ <- _log_bot_message req response ;;
      ret (Some response)
    else ret None
  else ret None.

(** The route of a turn. *)
Definition route (req : SupervisorRequest.t) : M AgentResponse.t :=
  if String.eqb (type req) "text"
  then _route_text req
  else _route_image_then_report req.

(** The routing step of [main_entry], with its handlers. *)
Definition routing (req : SupervisorRequest.t) : M AgentResponse.t :=
  try_except
    (response <- route req ;;
     _ <- _log_bot_message req response ;;
     ret response)
    (fun e =>
       match e with
       | HTTPException _ _ => raise e
       | Error _ =>
           let response :=
             err (chat_id req) "Internal server error" "internal_error"
                 (Some [("detail", JStr (exc_str e))]) in
           _ <- _log_bot_message req response ;;
           ret response
       end).


End WithPlatform.

(** A store with nothing in it. *)
Definition empty_store : Store :=
  {| messages := ∅; vision := ∅; reports := ∅; chats := ∅ |}.

(** The world when the service starts. *)
Definition start (ENABLE_SECURITY : bool) : World :=
  {| guardrails := SecurityOrchestrator.init ENABLE_SECURITY;
     db := empty_store;
     http_log := [] |}.

End Supervisor.

(** The history handed to the guardrails by [main_entry]. *)
Definition history_for_validation (req : SupervisorRequest.t) : list HistoryMsg :=
  map (fun h => HDict (MessageTurn.role h) (Some (MessageTurn.content h)))
      (SupervisorRequest.history req).

(** The store once [docs] are appended, in order, to the transcript of the
    chat of [req]; nothing else changes. *)
Definition logged (req : SupervisorRequest.t) (docs : list json) (d : Supervisor.Store)
  : Supervisor.Store :=
  {| Supervisor.messages :=
       fold_left (fun m doc => Supervisor.add_doc (SupervisorRequest.chat_id req) doc m)
                 docs (Supervisor.messages d);
     Supervisor.vision := Supervisor.vision d;
     Supervisor.reports := Supervisor.reports d;
     Supervisor.chats := Supervisor.chats d |}.

(** The verdict of the guardrails on the turn [req] in the world [w]. *)
Definition verdict_of (env : Supervisor.Env) (req : SupervisorRequest.t) (w : Supervisor.World)
  : (bool * string * SecurityOrchestrator.Meta) * SecurityOrchestrator.State :=
  SecurityOrchestrator.validate_input
    (Supervisor.now env) (SupervisorRequest.user_id req)
    (Some (default "" (SupervisorRequest.message req)))
    (SupervisorRequest.type req) (SupervisorRequest.speciality req)
    (history_for_validation req) (Supervisor.guardrails w).

(** *** Example turns *)

(** The library functions on the values the examples meet: the one image
    URL, and strings in f-strings. *)
Definition example_platform : Supervisor.Platform :=
  {| Supervisor.urlparse := fun _ =>
       {| Validators.scheme := "https";
          Validators.path := "/rash.png";
          Validators.hostname := Some "example.com" |};
     Supervisor.format_value := fun v => match v with JStr s => s | _ => "" end;
     Supervisor.payload_error := fun _ => "";
     Supervisor.model_error := fun _ => "";
     Supervisor.firestore_merge := fun _ data => data |}.

Definition example_config : Supervisor.Config :=
  {| Supervisor.SKIN_AGENT_URL := "http://skin";
     Supervisor.ORAL_AGENT_URL := "http://oral";
     Supervisor.VISION_AGENT_URL := "http://vision";
     Supervisor.REPORTING_AGENT_URL := "http://report" |}.

(** Every request to a backend times out. *)
Definition backends_down : Supervisor.Env :=
  {| Supervisor.now := 0; Supervisor.net := fun _ _ => HttpClient.PostRaised "timeout" |}.

(** The vision backend finds the image invalid. *)
Definition vision_says_invalid : Supervisor.Env :=
  {| Supervisor.now := 0;
     Supervisor.net := fun _ _ =>
       HttpClient.Returned (JObj [("is_valid", JBool false);
                                  ("validation_reason", JStr "not a skin image")]) |}.

Definition text_turn (message : string) : SupervisorRequest.t :=
  {| SupervisorRequest.message := Some message;
     SupervisorRequest.image_url := None;
     SupervisorRequest.user := None;
     SupervisorRequest.user_id := "u1";
     SupervisorRequest.chat_id := "c1";
     SupervisorRequest.type := "text";
     SupervisorRequest.speciality := "skin";
     SupervisorRequest.history := [] |}.

Definition image_turn : SupervisorRequest.t :=
  {| SupervisorRequest.message := None;
     SupervisorRequest.image_url := Some "https://example.com/rash.png";
     SupervisorRequest.user := None;
     SupervisorRequest.user_id := "u1";
     SupervisorRequest.chat_id := "c1";
     SupervisorRequest.type := "image";
     SupervisorRequest.speciality := "skin";
     SupervisorRequest.history := [] |}.


(* ===================================================================== *)
(** ** Vocabulary of the further properties *)
(* ===================================================================== *)

(** *** Letter case and patterns *)

(** A pattern with no character class of its own: literals, [.], [^],
    [\b] and what is built from them. *)
Fixpoint class_free (r : Re.regex) : bool :=
  match r with
  | Re.Cls _ => false
  | Re.Seq a b | Re.Alt a b => class_free a && class_free b
  | Re.Star a => class_free a
  | _ => true
  end.

Definition lower_l (l : list ascii) : list ascii := map Py.lower_char l.

Definition lower_pos (x : option ascii * list ascii) : option ascii * list ascii :=
  (option_map Py.lower_char x.1, lower_l x.2).

(** A word that [lower] leaves as it is. *)
Definition is_lowered (w : list ascii) : bool :=
  forallb (fun c => Ascii.eqb (Py.lower_char c) c) w.

(** The characters that open or close markup or an attribute value. *)
Definition is_markup (c : ascii) : bool :=
  Ascii.eqb c "<" || Ascii.eqb c ">" || Ascii.eqb c "034" || Ascii.eqb c "'".

(** *** The orchestrator *)

(** The verdicts ([allowed]) of a series of calls, from the state [st]. *)
Fixpoint verdicts (calls : list ValidateCall) (st : SecurityOrchestrator.State) : list bool :=
  match calls with
  | [] => []
  | c :: calls' =>
      (validate_call c st).1.1.1 :: verdicts calls' (validate_call c st).2
  end.

(** The values of [error_type] in the metadata of a rejection. *)
Definition ERROR_TYPES : list string :=
  ["rate_limit"; "security"; "off_topic"; "emergency"; "validation"].

(** *** Image URLs *)

(** The beginnings of a host name that [PRIVATE_IP_RE] matches. *)
Definition PRIVATE_PREFIXES : list string :=
  ["127.0.0.1"; "0."; "10."; "169.254."; "192.168.";
   "172.16."; "172.17."; "172.18."; "172.19.";
   "172.20."; "172.21."; "172.22."; "172.23."; "172.24.";
   "172.25."; "172.26."; "172.27."; "172.28."; "172.29.";
   "172.30."; "172.31."].

(** The alternatives of [UNSAFE_HOST_RE]. *)
Definition UNSAFE_WORDS : list string :=
  ["localhost"; "file:"; "metadata.googleinternal"; "169.254.169.254"].

(** *** Turns *)

(** A computation that leaves the part [f] of the world as it is, whether
    it returns or raises. *)
Definition preserves {A X} (f : Supervisor.World -> X) (m : Supervisor.M A) : Prop :=
  forall w, f (m w).2 = f w.

(** What the store holds for the chat [c]. *)
Definition chat_view (c : string) (w : Supervisor.World)
  : option (list json) * option (list json) * option (list json)
    * option (list (string * json)) :=
  (Supervisor.messages (Supervisor.db w) !! c,
   Supervisor.vision (Supervisor.db w) !! c,
   Supervisor.reports (Supervisor.db w) !! c,
   Supervisor.chats (Supervisor.db w) !! c).

(** A computation that adds at most [n] requests to the log, all of them
    to one of [urls]. *)
Definition emits {A} (n : nat) (urls : list string) (m : Supervisor.M A) : Prop :=
  forall w, exists evs,
    Supervisor.http_log (m w).2 = Supervisor.http_log w ++ evs
    /\ length (HttpClient.posts evs) <= n
    /\ Forall (fun p => In p.1 urls) (HttpClient.posts evs).

(** [agent_url] of [_route_text]. *)
Definition agent_url (cfg : Supervisor.Config) (req : SupervisorRequest.t) : string :=
  if String.eqb (SupervisorRequest.speciality req) "skin"
  then Supervisor.SKIN_AGENT_URL cfg else Supervisor.ORAL_AGENT_URL cfg.

(** [chat_history] of [_route_text]: the history, and the current message
    unless the last entry already has its content. *)
Definition text_chat_history (req : SupervisorRequest.t) : list json :=
  let chat_history := map Supervisor.turn_json (SupervisorRequest.history req) in
  let current :=
    JObj [("role", JStr "user");
          ("content", Json.of_option_str (SupervisorRequest.message req))] in
  match List.last (map Some (SupervisorRequest.history req)) None with
  | Some h =>
      if bool_decide (Some (MessageTurn.content h) = SupervisorRequest.message req)
      then chat_history else chat_history ++ [current]
  | None => chat_history ++ [current]
  end.

(** [payload] of [_route_text]. *)
Definition text_payload (req : SupervisorRequest.t) : json :=
  JObj [("thread_id", JStr (SupervisorRequest.chat_id req));
        ("message", Json.of_option_str (SupervisorRequest.message req));
        ("chat_history", JArr (text_chat_history req))].

(** [diagnosis] of [_route_image_then_report], from the prediction of the
    vision agent. *)
Definition diagnosis_of (prediction : list (string * json)) : json :=
  JObj [("diagnosis_name",
         default (JStr "Unknown") (Json.dict_get "predicted_class" prediction));
        ("confidence", default (JFloat 0) (Json.dict_get "confidence" prediction))].

(** The record handed to [db.log_vision_result]. *)
Definition vision_record (req : SupervisorRequest.t) (prediction : list (string * json))
  : json :=
  JObj [("speciality", JStr (SupervisorRequest.speciality req));
        ("diagnosis",
         default (JStr "Unknown") (Json.dict_get "predicted_class" prediction));
        ("confidence", default (JFloat 0) (Json.dict_get "confidence" prediction))].

(** [collected_info] of [_route_image_then_report]: the [user_metadata] of
    the chat document, empty when there is none. *)
Definition stored_metadata (req : SupervisorRequest.t) (d : Supervisor.Store) : json :=
  match Supervisor.chats d !! SupervisorRequest.chat_id req with
  | Some chat_data => default (JObj []) (Json.dict_get "user_metadata" chat_data)
  | None => JObj []
  end.

(** [report_payload] of [_route_image_then_report]. *)
Definition report_payload (req : SupervisorRequest.t) (prediction : list (string * json))
           (collected_info : json) : json :=
  JObj [("user_id", JStr (SupervisorRequest.user_id req));
        ("chat_id", JStr (SupervisorRequest.chat_id req));
        ("speciality", JStr (SupervisorRequest.speciality req));
        ("type", JStr "report");
        ("history", JArr (map Supervisor.turn_json (SupervisorRequest.history req)));
        ("diagnosis", diagnosis_of prediction);
        ("image_url", Json.of_option_str (SupervisorRequest.image_url req));
        ("metadata", collected_info)].

(** The record handed to [db.save_report]. *)
Definition report_record (diagnosis : json) (report : list (string * json)) : json :=
  JObj [("diagnosis", default diagnosis (Json.dict_get "diagnosis" report));
        ("report", default (JObj []) (Json.dict_get "report" report));
        ("full_report_response", JObj report)].

(** [isinstance(j, dict)] *)
Definition is_dict (j : json) : bool :=
  match j with JObj _ => true | _ => false end.

(** *** More example turns *)

(** The text backend answers at once, with what it has collected. *)
Definition text_backend_answers : Supervisor.Env :=
  {| Supervisor.now := 0;
     Supervisor.net := fun _ _ =>
       HttpClient.Returned
         (JObj [("response", JStr "How long have you had it?");
                ("collected_info", JObj [("location", JStr "arm")])]) |}.

(** The vision backend classifies the image, and the reporting backend
    writes the report. *)
Definition report_backends_answer : Supervisor.Env :=
  {| Supervisor.now := 0;
     Supervisor.net := fun call _ =>
       match call with
       | O =>
           HttpClient.Returned
             (JObj [("is_valid", JBool true);
                    ("prediction_result", JObj [("predicted_class", JStr "eczema")])])
       | S _ =>
           HttpClient.Returned
             (JObj [("report", JObj [("output", JStr "This looks like eczema.")])])
       end |}.

(** The vision backend accepts the image and sends no prediction. *)
Definition vision_without_prediction : Supervisor.Env :=
  {| Supervisor.now := 0;
     Supervisor.net := fun _ _ => HttpClient.Returned (JObj [("is_valid", JBool true)]) |}.

(** Every backend answers with a JSON list. *)
Definition backends_answer_list : Supervisor.Env :=
  {| Supervisor.now := 0;
     Supervisor.net := fun _ _ => HttpClient.Returned (JArr []) |}.

(* ===================================================================== *)
(** * Properties *)
(* ===================================================================== *)

(** ** Strings *)

Lemma chars_str (l : list ascii) : Py.chars (Py.str l) = l.
Proof. apply list_ascii_of_string_of_list_ascii. Qed.

Lemma str_chars (s : string) : Py.str (Py.chars s) = s.
Proof. apply string_of_list_ascii_of_string. Qed.

Lemma str_inj (l1 l2 : list ascii) : Py.str l1 = Py.str l2 -> l1 = l2.
Proof. intros H. rewrite <- (chars_str l1), <- (chars_str l2). by rewrite H. Qed.

(** ** ResponseSanitizer: when sanitising twice changes nothing *)

Section Sanitizer.

Import ResponseSanitizer.

Lemma lstrip_fixed l : starts_clean l = true -> Py.lstrip_l l = l.
Proof.
  destruct l as [|c l]; simpl; [done|].
  intros H. apply negb_true_iff in H. by rewrite H.
Qed.

Lemma lstrip_starts_clean l : starts_clean (Py.lstrip_l l) = true.
Proof.
  induction l as [|c l IH]; simpl; [done|].
  destruct (Py.is_space c) eqn:E; [done|]. simpl. by rewrite E.
Qed.

Lemma lstrip_suffix l : exists p, l = p ++ Py.lstrip_l l.
Proof.
  induction l as [|c l [p IH]]; simpl; [by exists []|].
  destruct (Py.is_space c).
  - exists (c :: p). simpl. by rewrite <- IH.
  - by exists [].
Qed.

Lemma lstrip_keeps c l : In c l -> Py.is_space c = false -> In c (Py.lstrip_l l).
Proof.
  induction l as [|d l IH]; simpl; [done|].
  intros [->|Hin] Hc.
  - rewrite Hc. by left.
  - destruct (Py.is_space d); [by apply IH | by right].
Qed.

Lemma lstrip_sub c l : In c (Py.lstrip_l l) -> In c l.
Proof.
  destruct (lstrip_suffix l) as [p Hp]. intros H. rewrite Hp.
  apply in_or_app. by right.
Qed.

Lemma ends_clean_suffix p l : l <> [] -> ends_clean (p ++ l) = ends_clean l.
Proof.
  intros Hl. unfold ends_clean. rewrite rev_app_distr.
  destruct (rev l) as [|c r] eqn:E; [|done].
  apply (f_equal (@rev ascii)) in E. rewrite rev_involutive in E. done.
Qed.

Lemma lstrip_ends_clean l : ends_clean l = true -> ends_clean (Py.lstrip_l l) = true.
Proof.
  intros H. destruct (lstrip_suffix l) as [p Hp].
  destruct (Py.lstrip_l l) as [|c m] eqn:E; [done|].
  rewrite Hp in H. by rewrite ends_clean_suffix in H.
Qed.

Lemma strip_fixed l : starts_clean l = true -> ends_clean l = true -> Py.strip_l l = l.
Proof.
  intros Hs He. unfold Py.strip_l.
  rewrite (lstrip_fixed l Hs), (lstrip_fixed (rev l) He). apply rev_involutive.
Qed.

Lemma strip_ends_clean l : ends_clean (Py.strip_l l) = true.
Proof.
  unfold ends_clean, Py.strip_l. rewrite rev_involutive. apply lstrip_starts_clean.
Qed.

Lemma strip_starts_clean l : starts_clean (Py.strip_l l) = true.
Proof.
  unfold Py.strip_l.
  pose proof (lstrip_ends_clean (rev (Py.lstrip_l l))) as H.
  unfold ends_clean in H at 2. apply H.
  unfold ends_clean. rewrite rev_involutive. apply lstrip_starts_clean.
Qed.

Lemma strip_keeps c l : In c l -> Py.is_space c = false -> In c (Py.strip_l l).
Proof.
  intros Hin Hc. unfold Py.strip_l.
  apply in_rev. rewrite rev_involutive.
  apply lstrip_keeps; [|done]. apply -> in_rev. by apply lstrip_keeps.
Qed.

Lemma strip_sub c l : In c (Py.strip_l l) -> In c l.
Proof.
  unfold Py.strip_l. intros H. apply in_rev in H.
  apply lstrip_sub in H. apply in_rev in H. by apply lstrip_sub in H.
Qed.

Lemma drop_control_fixed l :
  forallb (fun c => negb (is_control c)) l = true -> drop_control_l l = l.
Proof.
  induction l as [|c l IH]; simpl; [done|].
  intros [Hc Hl]%andb_true_iff. rewrite Hc. by rewrite IH.
Qed.

Lemma drop_control_free l :
  forallb (fun c => negb (is_control c)) (drop_control_l l) = true.
Proof.
  induction l as [|c l IH]; simpl; [done|].
  destruct (negb (is_control c)) eqn:E; simpl; [by rewrite E|done].
Qed.

Lemma forallb_In {A} (p : A -> bool) (l : list A) :
  forallb p l = true <-> (forall x, In x l -> p x = true).
Proof. apply forallb_forall. Qed.

Lemma tidy_clean l : clean (Py.strip_l (drop_control_l l)).
Proof.
  split; [|split].
  - apply forallb_In. intros c Hc. apply strip_sub in Hc.
    pose proof (drop_control_free l) as H. rewrite forallb_In in H. by apply H.
  - apply strip_starts_clean.
  - apply strip_ends_clean.
Qed.

Lemma clean_fixed l : clean l -> Py.strip_l (drop_control_l l) = l.
Proof.
  intros (Hc & Hs & He). rewrite (drop_control_fixed l Hc). by apply strip_fixed.
Qed.

(** What [html.escape] puts for one character. *)
Lemma escape_char_cases c :
  (is_html_special c = false /\ escape_char c = [c])
  \/ (is_html_special c = true
      /\ exists m, escape_char c = "&"%char :: m ++ [";"%char]
                   /\ forallb (fun c => negb (is_control c)) m = true).
Proof.
  unfold is_html_special, escape_char.
  destruct (Ascii.eqb c "&") eqn:E1.
  { right. split; [done|]. by exists (Py.chars "amp"). }
  destruct (Ascii.eqb c "<") eqn:E2.
  { right. split; [done|]. by exists (Py.chars "lt"). }
  destruct (Ascii.eqb c ">") eqn:E3.
  { right. split; [done|]. by exists (Py.chars "gt"). }
  destruct (Ascii.eqb c "034") eqn:E4.
  { right. split; [done|]. by exists (Py.chars "quot"). }
  destruct (Ascii.eqb c "'") eqn:E5.
  { right. split; [done|]. by exists (Py.chars "#x27"). }
  by left.
Qed.

Lemma escape_no_special l :
  existsb is_html_special l = false -> html_escape_l l = l.
Proof.
  induction l as [|c l IH]; simpl; [done|].
  intros [Hc Hl]%orb_false_iff.
  destruct (escape_char_cases c) as [[_ ->]|[H _]]; [|congruence].
  simpl. by rewrite IH.
Qed.

Lemma escape_length l : length l <= length (html_escape_l l).
Proof.
  induction l as [|c l IH]; simpl; [done|].
  rewrite length_app.
  destruct (escape_char_cases c) as [[_ ->]|[_ (m & -> & _)]]; simpl; lia.
Qed.

Lemma escape_grows l :
  existsb is_html_special l = true -> length l < length (html_escape_l l).
Proof.
  induction l as [|c l IH]; simpl; [done|].
  rewrite length_app. pose proof (escape_length l).
  destruct (escape_char_cases c) as [[Hc ->]|[_ (m & -> & _)]].
  - rewrite Hc. simpl. intros Hl. specialize (IH Hl). lia.
  - intros _. simpl. rewrite length_app. simpl. lia.
Qed.

Lemma escape_has_amp l :
  existsb is_html_special l = true -> In "&"%char (html_escape_l l).
Proof.
  induction l as [|c l IH]; simpl; [done|].
  intros H. apply in_or_app.
  destruct (escape_char_cases c) as [[Hc _]|[_ (m & -> & _)]].
  - right. apply IH. by rewrite Hc in H.
  - left. by left.
Qed.

Lemma escape_control_free l :
  forallb (fun c => negb (is_control c)) l = true ->
  forallb (fun c => negb (is_control c)) (html_escape_l l) = true.
Proof.
  induction l as [|c l IH]; simpl; [done|].
  intros [Hc Hl]%andb_true_iff. rewrite forallb_app, (IH Hl), andb_true_r.
  destruct (escape_char_cases c) as [[_ ->]|[_ (m & -> & Hm)]].
  - simpl. by rewrite Hc.
  - simpl. rewrite forallb_app, Hm. done.
Qed.

Lemma escape_starts_clean l : starts_clean l = true -> starts_clean (html_escape_l l) = true.
Proof.
  destruct l as [|c l]; simpl; [done|].
  destruct (escape_char_cases c) as [[_ ->]|[_ (m & -> & _)]]; done.
Qed.

Lemma escape_rev_head c l :
  exists d r, rev (html_escape_l (l ++ [c])) = d :: r
              /\ (Py.is_space c = false -> Py.is_space d = false).
Proof.
  unfold html_escape_l. rewrite flat_map_app. simpl. rewrite app_nil_r, rev_app_distr.
  destruct (escape_char_cases c) as [[_ ->]|[_ (m & -> & _)]].
  - simpl. eauto.
  - change ("&"%char :: m ++ [";"%char]) with (("&"%char :: m) ++ [";"%char]).
    rewrite rev_app_distr. simpl. eexists _, _. split; [done|]. done.
Qed.

Lemma escape_ends_clean l : ends_clean l = true -> ends_clean (html_escape_l l) = true.
Proof.
  unfold ends_clean.
  destruct l as [|c l _] using rev_ind; [done|].
  rewrite rev_app_distr. simpl. intros Hc%negb_true_iff.
  destruct (escape_rev_head c l) as (d & r & -> & Hd). simpl.
  by rewrite (Hd Hc).
Qed.

Lemma escape_clean l : clean l -> clean (html_escape_l l).
Proof.
  intros (Hc & Hs & He). split; [|split].
  - by apply escape_control_free.
  - by apply escape_starts_clean.
  - by apply escape_ends_clean.
Qed.

Lemma sanitize_clean l : clean (sanitize_l l).
Proof. apply tidy_clean. Qed.

(** Sanitising a sanitised text only escapes it once more. *)
Lemma sanitize_twice l : sanitize_l (sanitize_l l) = html_escape_l (sanitize_l l).
Proof.
  unfold sanitize_l at 1. apply clean_fixed, escape_clean, sanitize_clean.
Qed.

Lemma sanitize_special l :
  existsb is_html_special (sanitize_l l) = existsb is_html_special l.
Proof.
  destruct (existsb is_html_special l) eqn:E.
  - apply existsb_exists. exists "&"%char. split; [|done].
    unfold sanitize_l. apply strip_keeps; [|done].
    apply filter_In. split; [|done]. by apply escape_has_amp.
  - unfold sanitize_l. rewrite (escape_no_special l E).
    apply not_true_is_false. intros (c & Hc & Hs)%existsb_exists.
    apply strip_sub in Hc. apply filter_In in Hc as [Hc _].
    assert (existsb is_html_special l = true); [|congruence].
    apply existsb_exists. eauto.
Qed.

Lemma sanitize_l_idempotent_iff l :
  sanitize_l (sanitize_l l) = sanitize_l l <-> existsb is_html_special l = false.
Proof.
  rewrite sanitize_twice, <- (sanitize_special l). split.
  - intros H. apply not_true_is_false. intros Hs%escape_grows.
    rewrite H in Hs. lia.
  - apply escape_no_special.
Qed.

Lemma sanitize_text_unfold (x : string) :
  sanitize_text x = Py.str (sanitize_l (Py.chars x)).
Proof.
  unfold sanitize_text. destruct (String.eqb x "") eqn:E; [|done].
  apply String.eqb_eq in E. by subst.
Qed.

End Sanitizer.

(** C3, as amended.  [sanitize_text(sanitize_text(x)) == sanitize_text(x)]
    holds exactly for the texts [x] that contain none of the five characters
    [&], [<], [>], double quote and single quote: on every other text the
    second pass escapes again the [&] the first pass has put. *)
Theorem sanitize_text_idempotent_iff (x : string) :
  ResponseSanitizer.sanitize_text (ResponseSanitizer.sanitize_text x)
  = ResponseSanitizer.sanitize_text x
  <-> has_html_special x = false.
Proof.
  rewrite !sanitize_text_unfold, chars_str. unfold has_html_special.
  rewrite <- sanitize_l_idempotent_iff. split.
  - apply str_inj.
  - by intros ->.
Qed.

(** C3, as stated, fails: sanitising ["&"] gives ["&amp;"], and sanitising
    that gives ["&amp;amp;"]. *)
Lemma sanitize_text_not_idempotent :
  ResponseSanitizer.sanitize_text "&" = "&amp;"
  /\ ResponseSanitizer.sanitize_text (ResponseSanitizer.sanitize_text "&") = "&amp;amp;"
  /\ ResponseSanitizer.sanitize_text (ResponseSanitizer.sanitize_text "&")
     <> ResponseSanitizer.sanitize_text "&".
Proof. split; [reflexivity | split; [reflexivity | discriminate]]. Qed.

(** ** RateLimiter *)

Section RateLimiterFacts.

Import RateLimiter.
Local Open Scope Q_scope.

Lemma Qltb_lt (x y : Q) : Py.Qltb x y = true <-> x < y.
Proof. unfold Py.Qltb, Qlt. apply Z.ltb_lt. Qed.

Lemma Qltb_ge (x y : Q) : Py.Qltb x y = false <-> y <= x.
Proof. unfold Py.Qltb, Qle. apply Z.ltb_ge. Qed.

Lemma limits_cases kind :
  limits kind = (30%nat, 60) \/ limits kind = (5%nat, 3600).
Proof.
  unfold limits. destruct (String.eqb kind "text"); [by left|].
  destruct (String.eqb kind "image"); [by right | by left].
Qed.

Lemma window_pos kind : 0 < (limits kind).2.
Proof. destruct (limits_cases kind) as [-> | ->]; reflexivity. Qed.

Lemma limit_pos kind : (1 <= (limits kind).1)%nat.
Proof. destruct (limits_cases kind) as [-> | ->]; simpl; lia. Qed.

Lemma check_unfold now user_id kind b :
  check now user_id kind b =
  let kept := live now (limits kind).2 b (user_id, kind) in
  if ((limits kind).1 <=? length kept)%nat then
    ((false, exceeded_message (Py.int ((limits kind).2 - (now - List.hd now kept)))),
     <[(user_id, kind) := kept]> b)
  else ((true, ""), <[(user_id, kind) := kept ++ [now]]> b).
Proof. unfold check. by destruct (limits kind). Qed.

Lemma live_fresh now window b key :
  Forall (fun t => now - t < window) (live now window b key).
Proof.
  apply List.Forall_forall. intros t [_ Ht]%filter_In. by apply Qltb_lt.
Qed.

Lemma live_length now window b key :
  (length (live now window b key) <= length (stored b key))%nat.
Proof. apply List.filter_length_le. Qed.

Lemma filter_all {A} (p : A -> bool) (l : list A) :
  Forall (fun x => p x = true) l -> List.filter p l = l.
Proof. induction 1 as [|x l Hx _ IH]; simpl; [done|]. by rewrite Hx, IH. Qed.

(** The list of the checked key after a call. *)
Lemma check_lookup now user_id kind b :
  (check now user_id kind b).2 !! (user_id, kind) =
  Some (let kept := live now (limits kind).2 b (user_id, kind) in
        if ((limits kind).1 <=? length kept)%nat then kept else kept ++ [now]).
Proof.
  rewrite check_unfold. cbv zeta.
  destruct (_ <=? _)%nat; simpl; by rewrite lookup_insert_eq.
Qed.

(** A refusal reads [self.bucket[key][0]] on a list that is not empty. *)
Lemma refusal_has_oldest now user_id kind b :
  (check now user_id kind b).1.1 = false ->
  live now (limits kind).2 b (user_id, kind) <> [].
Proof.
  rewrite check_unfold. cbv zeta. pose proof (limit_pos kind) as Hpos.
  destruct (_ <=? _)%nat eqn:E; [|done]. apply Nat.leb_le in E.
  intros _ Hnil. rewrite Hnil in E. simpl in E. lia.
Qed.

(** A call leaves the lists of the other keys as they are, and its verdict
    depends on the list of its own key only. *)
Lemma check_other_key now user_id kind b key :
  key <> (user_id, kind) -> (check now user_id kind b).2 !! key = b !! key.
Proof.
  intros Hne. rewrite check_unfold. cbv zeta.
  destruct (_ <=? _)%nat; simpl; by rewrite lookup_insert_ne.
Qed.

Lemma check_verdict_local now user_id kind b1 b2 :
  stored b1 (user_id, kind) = stored b2 (user_id, kind) ->
  (check now user_id kind b1).1 = (check now user_id kind b2).1
  /\ stored (check now user_id kind b1).2 (user_id, kind)
     = stored (check now user_id kind b2).2 (user_id, kind).
Proof.
  intros Heq.
  assert (forall b, stored (check now user_id kind b).2 (user_id, kind)
                    = let kept := live now (limits kind).2 b (user_id, kind) in
                      if ((limits kind).1 <=? length kept)%nat then kept else kept ++ [now])
    as Hst by (intros b; unfold stored; by rewrite check_lookup).
  rewrite !Hst, !check_unfold. cbv zeta.
  unfold live. fold (stored b1 (user_id, kind)) (stored b2 (user_id, kind)).
  rewrite Heq. by destruct (_ <=? _)%nat.
Qed.

Lemma check_bounded now user_id kind b : bounded b -> bounded (check now user_id kind b).2.
Proof.
  intros Hb. rewrite check_unfold. cbv zeta.
  assert (length (stored b (user_id, kind)) <= (limits kind).1)%nat as Hold.
  { unfold stored. destruct (b !! (user_id, kind)) as [l|] eqn:E; simpl; [|lia].
    apply (Hb _ _ E). }
  pose proof (live_length now (limits kind).2 b (user_id, kind)) as Hlen.
  destruct (_ <=? _)%nat eqn:E; simpl.
  - apply map_Forall_insert_2; [simpl; lia | done].
  - apply Nat.leb_gt in E.
    apply map_Forall_insert_2; [|done]. simpl. rewrite length_app. simpl. lia.
Qed.

Lemma bucket_after_bounded_from calls b :
  bounded b ->
  bounded (fold_left (fun b c => (check c.1.1 c.1.2 c.2 b).2) calls b).
Proof.
  revert b. induction calls as [|c calls IH]; intros b Hb; simpl; [done|].
  apply IH. by apply check_bounded.
Qed.

End RateLimiterFacts.

(** C9.  After any series of calls on a new [RateLimiter] and one more call
    [check(user_id, kind)] at time [now], every timestamp left under the
    checked key is strictly younger than the window of that kind, and no
    list in the bucket is longer than the limit of its kind. *)
Theorem rate_limiter_invariant
        (calls : list (Q * string * string)) (now : Q) (user_id kind : string) :
  let bucket' := (RateLimiter.check now user_id kind (bucket_after calls)).2 in
  (exists l, bucket' !! (user_id, kind) = Some l
             /\ Forall (fun t => (now - t < (RateLimiter.limits kind).2)%Q) l)
  /\ bounded bucket'.
Proof.
  intros bucket'. split.
  - eexists. split; [apply check_lookup|]. cbv zeta.
    pose proof (live_fresh now (RateLimiter.limits kind).2 (bucket_after calls)
                           (user_id, kind)) as Hlive.
    destruct (_ <=? _)%nat; [done|].
    apply Forall_app. split; [done|]. apply Forall_cons. split; [|done].
    pose proof (window_pos kind). lra.
  - apply check_bounded, bucket_after_bounded_from. apply map_Forall_empty.
Qed.

Section RateLimiterWindow.

Import RateLimiter.
Local Open Scope Q_scope.

Context (user_id kind : string) (t1 now : Q).
Context (Hwithin : now - t1 < (limits kind).2).

Lemma between_live t l :
  between_times t1 now t -> Forall (between_times t1 now) l ->
  Forall (fun p => Py.Qltb (t - p) (limits kind).2 = true) l.
Proof using Hwithin.
  intros [Ht1 Ht2] Hl. eapply List.Forall_impl; [|exact Hl].
  intros p [Hp1 Hp2]. simpl. apply Qltb_lt. lra.
Qed.

Lemma live_app t b F pre :
  stored b (user_id, kind) = F ++ pre ->
  between_times t1 now t -> Forall (between_times t1 now) pre ->
  live t (limits kind).2 b (user_id, kind)
  = List.filter (fun p => Py.Qltb (t - p) (limits kind).2) F ++ pre.
Proof using Hwithin.
  intros Hst Ht Hpre. unfold live. fold (stored b (user_id, kind)).
  rewrite Hst, List.filter_app. f_equal. apply filter_all. by apply between_live.
Qed.

Lemma stored_insert b key l : stored (<[key := l]> b) key = l.
Proof. unfold stored. by rewrite lookup_insert_eq. Qed.

(** Requests accepted between [t1] and [now] stay in the list, behind
    whatever was there before. *)
Lemma accepted_run_stored ts :
  forall b b' F pre,
    stored b (user_id, kind) = F ++ pre ->
    Forall (between_times t1 now) pre ->
    Forall (between_times t1 now) ts ->
    (pre <> [] -> (length (F ++ pre) <= (limits kind).1)%nat) ->
    accepted_run ts user_id kind b = Some b' ->
    exists F', stored b' (user_id, kind) = F' ++ pre ++ ts
               /\ (pre ++ ts <> [] -> (length (F' ++ pre ++ ts) <= (limits kind).1)%nat).
Proof using Hwithin.
  induction ts as [|t ts IH]; intros b b' F pre Hst Hpre Hts Hlen Hrun.
  - simpl in Hrun. injection Hrun as <-. exists F. by rewrite app_nil_r.
  - simpl in Hrun. rewrite check_unfold in Hrun. cbv zeta in Hrun.
    apply Forall_cons in Hts as [Ht Hts].
    rewrite (live_app t b F pre Hst Ht Hpre) in Hrun.
    set (F1 := List.filter (fun p => Py.Qltb (t - p) (limits kind).2) F) in *.
    destruct (_ <=? _)%nat eqn:E; [done|]. apply Nat.leb_gt in E.
    destruct (IH _ b' F1 (pre ++ [t]) ltac:(by rewrite stored_insert, app_assoc)
                 ltac:(apply Forall_app; split; [done | by apply Forall_cons])
                 Hts
                 ltac:(intros _; rewrite app_assoc, length_app; simpl; lia)
                 Hrun) as (F' & HF' & Hb').
    exists F'. rewrite <- app_assoc in HF', Hb'. simpl in HF', Hb'. split; [done|].
    intros _. apply Hb'. by destruct pre.
Qed.

End RateLimiterWindow.

Section RateLimiterLiteral.
Import RateLimiter.
Local Open Scope Q_scope.

(** [int] of a number that is not negative is its floor. *)
Lemma int_floor (q : Q) :
  0 <= q -> inject_Z (Py.int q) <= q /\ q < inject_Z (Py.int q) + 1.
Proof.
  destruct q as [n d]. unfold Qle, Qlt, Py.int. simpl. rewrite !Z.mul_1_r. intros Hn.
  rewrite Z.quot_div_nonneg by lia.
  pose proof (Z.mul_div_le n (Z.pos d) ltac:(lia)) as Hle.
  pose proof (Z.mul_succ_div_gt n (Z.pos d) ltac:(lia)) as Hgt.
  split; nia.
Qed.

Lemma limits_literal kind (L : nat) (W : Q) :
  (L, W) = (if String.eqb kind "image" then (5%nat, 3600) else (30%nat, 60)) ->
  limits kind = (L, W).
Proof.
  intros ->. unfold limits.
  destruct (String.eqb_spec kind "text") as [->|_]; [reflexivity|].
  by destruct (String.eqb kind "image").
Qed.

Lemma Qlt_le_dec_ltb (x y : Q) :
  (if Qlt_le_dec x y then true else false) = Py.Qltb x y.
Proof.
  destruct (Qlt_le_dec x y) as [H|H]; symmetry; [by apply Qltb_lt | by apply Qltb_ge].
Qed.

(** The first timestamp that is kept, in the list as it was stored. *)
Lemma filter_first {A} (p : A -> bool) (l : list A) x xs :
  List.filter p l = x :: xs ->
  exists pre post, l = pre ++ x :: post
                   /\ Forall (fun y => p y = false) pre /\ p x = true.
Proof.
  induction l as [|a l IH]; simpl; [done|].
  destruct (p a) eqn:E.
  - intros H. injection H as -> _. by exists [], l.
  - intros H. destruct (IH H) as (pre & post & -> & Hpre & Hx).
    exists (a :: pre), post. split; [done|]. split; [by constructor | done].
Qed.

End RateLimiterLiteral.

(** C4.  Take a kind with limit [L] per window [W]: 5 per 3600 s for
    ["image"], 30 per 60 s for ["text"] and for any other kind.  Take [L]
    calls [check(user_id, kind)] that are all accepted, the first at [t1],
    all of them between [t1] and [now], with [now - t1 < W].  Then the call
    at [now] is refused, with the message
    ["Rate limit exceeded. Please try again in N seconds."] where [N] is the
    whole number of seconds in [W - (now - t1)], the time until [t1]
    expires, and it leaves exactly the [L] accepted timestamps in the list.
    At any time [later] with [later - t1 >= W] a new call is accepted and
    puts [later] behind those of the accepted timestamps that are still
    younger than [W]. *)
Theorem rate_limit_window
        (user_id kind : string) (L : nat) (W : Q) (b b' : RateLimiter.bucket_t)
        (t1 now : Q) (rest : list Q) :
  (L, W) = (if String.eqb kind "image" then (5%nat, 3600%Q) else (30%nat, 60%Q)) ->
  let ts := t1 :: rest in
  length ts = L ->
  Forall (fun t => (t1 <= t /\ t <= now)%Q) ts ->
  (now - t1 < W)%Q ->
  accepted_run ts user_id kind b = Some b' ->
  let full := <[(user_id, kind) := ts]> b' in
  (exists wait_time : Z,
      (inject_Z wait_time <= W - (now - t1) /\ W - (now - t1) < inject_Z wait_time + 1)%Q
      /\ RateLimiter.check now user_id kind b'
         = ((false,
             "Rate limit exceeded. Please try again in "
             +:+ NilZero.string_of_int (Z.to_int wait_time) +:+ " seconds."),
            full))
  /\ forall later : Q,
      (W <= later - t1)%Q ->
      RateLimiter.check later user_id kind full
      = ((true, ""),
         <[(user_id, kind) :=
             List.filter (fun t => if Qlt_le_dec (later - t) W then true else false) rest
             ++ [later]]> full).
Proof.
  intros Hlimits ts Hlen Hts Hwithin Hrun full.
  apply limits_literal in Hlimits.
  assert (L = (RateLimiter.limits kind).1) as HL by (by rewrite Hlimits).
  assert (W = (RateLimiter.limits kind).2) as HW by (by rewrite Hlimits).
  rewrite HW in Hwithin.
  destruct (accepted_run_stored user_id kind t1 now Hwithin ts b b'
              (stored b (user_id, kind)) []) as (F' & HF' & Hbound);
    [by rewrite app_nil_r | done | done | done | done |].
  simpl in HF', Hbound.
  assert (F' = []) as ->.
  { specialize (Hbound ltac:(done)). rewrite length_app in Hbound.
    fold ts in Hbound. rewrite <- HL in Hbound. destruct F'; [done|]. simpl in *. lia. }
  simpl in HF'. fold ts in HF'.
  assert (RateLimiter.live now (RateLimiter.limits kind).2 b' (user_id, kind) = ts) as Hlive.
  { unfold RateLimiter.live. fold (stored b' (user_id, kind)). rewrite HF'.
    apply filter_all.
    apply (between_live kind t1 now Hwithin now ts); [|done].
    apply Forall_cons in Hts as [[H1 H2] _]. split; [done|]. lra. }
  split.
  - exists (Py.int (W - (now - t1))). split.
    + apply int_floor. rewrite HW. lra.
    + rewrite check_unfold. cbv zeta. rewrite Hlive, <- HL, <- HW.
      rewrite <- Hlen, Nat.leb_refl. reflexivity.
  - intros later Hlater. rewrite check_unfold. cbv zeta. rewrite <- HL, <- HW.
    assert (RateLimiter.live later W full (user_id, kind)
            = List.filter (fun t => if Qlt_le_dec (later - t) W then true else false) rest)
      as ->.
    { unfold RateLimiter.live, full. rewrite lookup_insert_eq. simpl.
      assert (Py.Qltb (later - t1) W = false) as -> by (by apply Qltb_ge).
      apply List.filter_ext. intros t. symmetry. apply Qlt_le_dec_ltb. }
    assert (length (List.filter (fun t => if Qlt_le_dec (later - t) W then true else false)
                                rest) < L)%nat as Hlt.
    { rewrite <- Hlen. simpl.
      pose proof (List.filter_length_le
                    (fun t => if Qlt_le_dec (later - t) W then true else false) rest). lia. }
    apply Nat.leb_gt in Hlt. by rewrite Hlt.
Qed.

(** Five image requests one second apart are accepted; the sixth, three
    seconds later, is refused for 3593 seconds; one second after the hour a
    request is accepted again, and the two timestamps that are an hour old
    are gone.  Thirty text requests one second apart are accepted; the next
    one, at second 30, is refused for 30 seconds. *)
Lemma rate_limit_window_witness :
  let b' := default ∅ (accepted_run [0; 1; 2; 3; 4]%Q "u" "image" ∅) in
  let seconds :=
    [0; 1; 2; 3; 4; 5; 6; 7; 8; 9; 10; 11; 12; 13; 14; 15; 16; 17; 18; 19;
     20; 21; 22; 23; 24; 25; 26; 27; 28; 29]%Q in
  let c' := default ∅ (accepted_run seconds "u" "text" ∅) in
  accepted_run [0; 1; 2; 3; 4]%Q "u" "image" ∅ = Some b'
  /\ RateLimiter.check 7 "u" "image" b'
     = ((false, "Rate limit exceeded. Please try again in 3593 seconds."),
        <[("u", "image") := [0; 1; 2; 3; 4]%Q]> b')
  /\ RateLimiter.check 3601 "u" "image" (<[("u", "image") := [0; 1; 2; 3; 4]%Q]> b')
     = ((true, ""),
        <[("u", "image") := [2; 3; 4; 3601]%Q]> (<[("u", "image") := [0; 1; 2; 3; 4]%Q]> b'))
  /\ accepted_run seconds "u" "text" ∅ = Some c'
  /\ RateLimiter.check 30 "u" "text" c'
     = ((false, "Rate limit exceeded. Please try again in 30 seconds."),
        <[("u", "text") := seconds]> c').
Proof.
  intros b' seconds c'.
  assert (accepted_run [0; 1; 2; 3; 4]%Q "u" "image" ∅ = Some b') as Hrun.
  { vm_compute. reflexivity. }
  assert (accepted_run seconds "u" "text" ∅ = Some c') as Hrun'.
  { vm_compute. reflexivity. }
  split; [exact Hrun|].
  destruct (rate_limit_window "u" "image" 5 3600 ∅ b' 0 7 [1; 2; 3; 4]%Q)
    as [(wait_time & [Hlo Hhi] & H1) H2].
  - reflexivity.
  - reflexivity.
  - repeat (apply List.Forall_cons; [split; vm_compute; discriminate|]).
    apply List.Forall_nil.
  - reflexivity.
  - exact Hrun.
  - assert (wait_time = 3593%Z) as ->.
    { unfold Qle in Hlo. unfold Qlt in Hhi. simpl in Hlo, Hhi. lia. }
    split; [exact H1|]. split.
    { rewrite (H2 3601%Q); [reflexivity|]. vm_compute. discriminate. }
    split; [exact Hrun'|].
    destruct (rate_limit_window "u" "text" 30 60 ∅ c' 0 30 (tl seconds))
      as [(wait & [Hlo' Hhi'] & H3) _].
    + reflexivity.
    + reflexivity.
    + repeat (apply List.Forall_cons; [split; vm_compute; discriminate|]).
      apply List.Forall_nil.
    + reflexivity.
    + exact Hrun'.
    + assert (wait = 30%Z) as ->.
      { unfold Qle in Hlo'. unfold Qlt in Hhi'. simpl in Hlo', Hhi'. lia. }
      exact H3.
Defined.

(** ** SecurityOrchestrator: the metrics *)

Section MetricsFacts.

Import SecurityOrchestrator.

Lemma reasons_total_track reason m :
  reasons_total (_track_block reason m) = reasons_total m + 1.
Proof.
  unfold reasons_total, _track_block. simpl.
  assert (forall (j1 j2 : string) (z1 z2 y : nat), z1 + (z2 + y) = z2 + (z1 + y)) as Hcomm
    by (intros; lia).
  destruct (block_reasons m !! reason) as [n|] eqn:E; simpl.
  - rewrite <- insert_delete_eq.
    rewrite map_fold_insert_L; [|intros; apply Hcomm; done | apply lookup_delete_eq].
    rewrite (map_fold_delete_L _ _ reason n (block_reasons m)); [lia | |done].
    intros. by apply Hcomm.
  - rewrite map_fold_insert_L; [lia | |done]. intros. by apply Hcomm.
Qed.

(** A call counts the request and tracks at most one block. *)
Lemma validate_input_metrics now user_id message req_type speciality history st :
  let m' := metrics (validate_input now user_id message req_type speciality history st).2 in
  m' = count_request (metrics st)
  \/ exists reason, m' = _track_block reason (count_request (metrics st)).
Proof.
  unfold validate_input. simpl.
  destruct (enabled st); simpl; [|by left].
  destruct (RateLimiter.check _ _ _ _) as [[ok msg] bucket']. simpl.
  destruct ok; simpl; [|right; by eexists].
  destruct (PromptInjectionDetector.detect _) as [suspicious inj_msg].
  destruct suspicious; simpl; [right; by eexists|].
  destruct (if String.eqb req_type "text" then _ else _) as [in_domain domain_msg].
  destruct in_domain; simpl; [|right; by eexists].
  destruct (ContentModerator.moderate _) as [[safe category] mod_msg].
  destruct safe; simpl; [by left|].
  destruct (String.eqb category "emergency"); simpl; right; by eexists.
Qed.

Lemma count_request_consistent m : metrics_consistent m -> metrics_consistent (count_request m).
Proof. intros [H1 H2]. split; [done|]. simpl. lia. Qed.

Lemma track_block_consistent reason m :
  metrics_consistent m ->
  metrics_consistent (_track_block reason (count_request m)).
Proof.
  intros [H1 H2]. split.
  - rewrite reasons_total_track. unfold reasons_total in *. simpl in *. lia.
  - simpl. lia.
Qed.

Lemma validate_call_consistent c st :
  metrics_consistent (metrics st) -> metrics_consistent (metrics (validate_call c st).2).
Proof.
  intros H. unfold validate_call.
  destruct (validate_input_metrics (at_time c) (by_user c) (with_message c) (of_type c)
              (for_speciality c) (after_history c) st) as [-> | [reason ->]].
  - by apply count_request_consistent.
  - by apply track_block_consistent.
Qed.

Lemma fold_consistent calls st :
  metrics_consistent (metrics st) ->
  metrics_consistent (metrics (fold_left (fun st c => (validate_call c st).2) calls st)).
Proof.
  revert st. induction calls as [|c calls IH]; intros st H; simpl; [done|].
  apply IH. by apply validate_call_consistent.
Qed.

End MetricsFacts.

(** C10.  After any series of [validate_input] calls on a new orchestrator,
    [blocked_requests] is the sum of the counts in [block_reasons] and is at
    most [total_requests]; and [get_metrics] computes [block_rate] without a
    division by zero, as a number between 0 and 1. *)
Theorem metrics_invariant (enabled : bool) (calls : list ValidateCall) :
  let m := SecurityOrchestrator.metrics (state_after enabled calls) in
  metrics_consistent m
  /\ exists q, SecurityOrchestrator.block_rate m = Some q /\ (0 <= q /\ q <= 1)%Q.
Proof.
  intros m.
  assert (metrics_consistent m) as Hm.
  { apply fold_consistent. split; [reflexivity | simpl; lia]. }
  split; [done|]. destruct Hm as [_ Hle].
  unfold SecurityOrchestrator.block_rate.
  destruct (Nat.max _ 1 =? 0)%nat eqn:E; [apply Nat.eqb_eq in E; lia|].
  eexists. split; [done|]. unfold Qle. simpl. split; [lia|].
  rewrite Z.mul_1_r.
  set (d := Nat.max (SecurityOrchestrator.total_requests m) 1) in *.
  assert (Z.pos (Pos.of_nat d) = Z.of_nat d) as ->.
  { rewrite <- (Nat2Pos.id d) at 2 by lia. by rewrite positive_nat_Z. }
  lia.
Qed.

(** ** DomainGrounding *)

Section DomainFacts.

Import DomainGrounding.

Lemma is_in_domain_cases text speciality history :
  is_in_domain text speciality history = (true, "")
  \/ is_in_domain text speciality history = (false, off_topic_response).
Proof.
  unfold is_in_domain. cbv zeta.
  repeat match goal with
         | |- context [if ?c then (true, "") else _] => destruct c; [by left|]
         end.
  destruct (matches_non_medical text); by right.
Qed.

Lemma context_established history speciality :
  meets (tokens_of (combined_text history)) MEDICAL_KEYWORDS = true ->
  history <> [] /\ _analyze_conversation_context history speciality = true.
Proof.
  intros H. destruct history as [|msg history]; [vm_compute in H; discriminate|].
  split; [done|]. unfold _analyze_conversation_context. cbv zeta. by rewrite H.
Qed.

End DomainFacts.

Section RecentMessages.
Import DomainGrounding.

Lemma chars_append (a b : string) : Py.chars (a +:+ b) = Py.chars a ++ Py.chars b.
Proof.
  unfold Py.chars. induction a as [|c a IH]; simpl; [done|]. by rewrite IH.
Qed.

(** A run found in a text is found in the text followed by a character
    outside the class and anything else. *)
Lemma runs_before p l1 c l2 tok :
  p c = false ->
  forall cur, In tok (Py.runs p cur l1) -> In tok (Py.runs p cur (l1 ++ c :: l2)).
Proof.
  intros Hc. induction l1 as [|x l1 IH]; intros cur; simpl.
  - rewrite Hc. destruct cur; [done|]. intros [<-|[]]. by left.
  - destruct (p x); [apply IH|].
    destruct cur; [apply IH|]. intros [<-|H]; [by left | right; by apply IH].
Qed.

(** A run found in a text is found in the text preceded by anything and a
    character outside the class. *)
Lemma runs_after p l1 c l2 tok :
  p c = false ->
  In tok (Py.runs p [] l2) ->
  forall cur, In tok (Py.runs p cur (l1 ++ c :: l2)).
Proof.
  intros Hc H. induction l1 as [|x l1 IH]; intros cur; simpl.
  - rewrite Hc. destruct cur; [done | by right].
  - destruct (p x); [apply IH|]. destruct cur; [apply IH | right; apply IH].
Qed.

Lemma lower_join_cons x y l :
  Py.chars (Py.lower (Py.join " " (x :: y :: l)))
  = Py.chars (Py.lower x) ++ " "%char :: Py.chars (Py.lower (Py.join " " (y :: l))).
Proof.
  change (Py.join " " (x :: y :: l)) with (x +:+ " " +:+ Py.join " " (y :: l)).
  unfold Py.lower. rewrite !chars_str, !chars_append, map_app. reflexivity.
Qed.

(** The tokens of a message are among those of the joined messages. *)
Lemma tokens_of_joined (texts : list string) (content tok : string) :
  In content texts ->
  In tok (Py.findall_az (Py.lower content)) ->
  In tok (Py.findall_az (Py.lower (Py.join " " texts))).
Proof.
  induction texts as [|x texts IH]; [done|]. intros Hin Htok.
  destruct texts as [|y texts].
  { destruct Hin as [->|[]]. exact Htok. }
  unfold Py.findall_az. rewrite lower_join_cons.
  destruct Hin as [->|Hin].
  - by apply runs_before.
  - apply runs_after; [done|]. by apply IH.
Qed.

Lemma meets_mono (a a' b : gset string) : a ⊆ a' -> meets a b = true -> meets a' b = true.
Proof.
  unfold meets. intros Hsub Hmeet. apply bool_decide_eq_true in Hmeet.
  apply bool_decide_eq_true. intros Hempty. apply Hmeet.
  apply elem_of_equiv_empty_L. intros tok [Ha Hb]%elem_of_intersection.
  apply (not_elem_of_empty (C := gset string) tok). rewrite <- Hempty.
  apply elem_of_intersection. split; [by apply Hsub | done].
Qed.

(** A message among the last ten at most is among the messages read. *)
Lemma last_n_suffix {A} (n : nat) (older recent : list A) (m : A) :
  length recent <= n -> In m recent -> In m (Py.last_n n (older ++ recent)).
Proof.
  intros Hlen Hin. unfold Py.last_n.
  destruct (n <? length (older ++ recent))%nat eqn:E; [|apply in_or_app; by right].
  rewrite length_app. rewrite skipn_app.
  apply in_or_app. right.
  replace (length older + length recent - n - length older) with 0 by lia.
  exact Hin.
Qed.

Lemma recent_keyword_context (older recent : list HistoryMsg) (m : HistoryMsg) :
  length recent <= 10 ->
  In m recent ->
  meets (tokens_of (Py.lower (msg_text m))) MEDICAL_KEYWORDS = true ->
  meets (tokens_of (combined_text (older ++ recent))) MEDICAL_KEYWORDS = true.
Proof.
  intros Hlen Hin. apply meets_mono. unfold tokens_of, combined_text.
  intros tok Htok. apply elem_of_list_to_set in Htok. apply elem_of_list_to_set.
  apply list_elem_of_In in Htok. apply list_elem_of_In.
  apply (tokens_of_joined _ (msg_text m)); [|done].
  apply in_map. by apply last_n_suffix.
Qed.

End RecentMessages.

(** C5, as amended.  When one of the last ten messages of the history, a
    dictionary with the content [content] or any other object whose [str()]
    is [content], has a medical-keyword token in its content, [is_in_domain]
    accepts every message of at most 20 distinct tokens, whatever it says.
    [recent] is any end of the history of at most ten messages. *)
Theorem short_reply_in_medical_context
        (text speciality : string) (older recent : list HistoryMsg)
        (m : HistoryMsg) (role content : string) :
  length recent <= 10 ->
  In m recent ->
  m = HDict role (Some content) \/ m = HOther content ->
  meets (DomainGrounding.tokens_of (Py.lower content)) MEDICAL_KEYWORDS = true ->
  size (DomainGrounding.tokens_of (Py.lower text)) <= 20 ->
  DomainGrounding.is_in_domain text speciality (older ++ recent) = (true, "").
Proof.
  intros Hlen Hin Hm Hkw Hshort.
  assert (meets (DomainGrounding.tokens_of (DomainGrounding.combined_text (older ++ recent)))
                MEDICAL_KEYWORDS = true) as Hctx.
  { apply (recent_keyword_context older recent m Hlen Hin).
    by destruct Hm as [-> | ->]. }
  destruct (context_established (older ++ recent) speciality Hctx) as [Hne Hest].
  unfold DomainGrounding.is_in_domain. cbv zeta.
  rewrite Hest. apply Nat.leb_le in Hshort. rewrite Hshort.
  destruct (older ++ recent); [done|]. simpl andb.
  repeat match goal with
         | |- context [if ?c then (true, "") else _] => destruct c; [done|]
         end.
  done.
Qed.

(** "I have a rash on my arm" is the tenth message from the end of a
    history of twelve: the reply "hello" is in the domain. *)
Lemma short_reply_in_medical_context_witness :
  DomainGrounding.is_in_domain "hello" "skin"
    (repeat (HDict "assistant" (Some "ok")) 2
     ++ HDict "user" (Some "I have a rash on my arm")
        :: repeat (HDict "assistant" (Some "ok")) 9)
  = (true, "").
Proof.
  apply (short_reply_in_medical_context _ _ _ _
           (HDict "user" (Some "I have a rash on my arm")) "user" "I have a rash on my arm").
  - simpl. lia.
  - by left.
  - by left.
  - vm_compute. reflexivity.
  - vm_compute. lia.
Defined.

(** C5, as stated, fails on a long history: the medical keyword of the first
    message is no longer among the last ten, and the one-word reply "hello"
    is rejected. *)
Lemma short_reply_rejected_after_long_history :
  let history :=
    HDict "user" (Some "I have a rash on my arm")
    :: repeat (HDict "assistant" (Some "ok")) 10 in
  meets (DomainGrounding.tokens_of (whole_history_text history)) MEDICAL_KEYWORDS = true
  /\ size (DomainGrounding.tokens_of (Py.lower "hello")) = 1
  /\ DomainGrounding.is_in_domain "hello" "skin" history
     = (false, DomainGrounding.off_topic_response).
Proof. vm_compute. repeat split. Qed.

(** ** SecurityOrchestrator: crisis messages *)

Section CrisisFacts.

Import SecurityOrchestrator.

Lemma moderate_crisis text :
  ContentModerator.matches_crisis text = true ->
  ContentModerator.moderate text
  = (false, "emergency", ContentModerator.emergency_response).
Proof.
  intros H. unfold ContentModerator.moderate.
  destruct (String.eqb text "") eqn:E.
  - apply String.eqb_eq in E. subst. vm_compute in H. discriminate.
  - by rewrite H.
Qed.

(** A text request on an enabled orchestrator that the rate limiter and
    the injection detector let through: the verdict is that of domain
    grounding when it rejects, and that of the moderator otherwise. *)
Lemma validate_input_text now user_id message speciality history st :
  let text := Py.strip message in
  enabled st = true ->
  (RateLimiter.check now user_id "text" (bucket st)).1.1 = true ->
  (PromptInjectionDetector.detect text).1 = false ->
  (validate_input now user_id (Some message) "text" speciality history st).1 =
  let '(in_domain, domain_msg) := DomainGrounding.is_in_domain text speciality history in
  if negb in_domain then (false, domain_msg, ErrorType "off_topic")
  else
    let '(safe, category, mod_msg) := ContentModerator.moderate text in
    if negb safe then
      if String.eqb category "emergency" then (false, mod_msg, ErrorType "emergency")
      else (false, if String.eqb mod_msg "" then "Inappropriate content" else mod_msg,
            ErrorType category)
    else (true, "", Category "safe").
Proof.
  intros text Hen Hrate Hinj. unfold validate_input. simpl enabled. rewrite Hen.
  simpl negb. cbv iota. simpl bucket. simpl default. fold text.
  change (String.eqb "text" "text") with true. cbv iota.
  destruct (RateLimiter.check now user_id "text" (bucket st)) as [[ok msg] bucket'].
  simpl in Hrate. subst ok. simpl negb. cbv iota.
  destruct (PromptInjectionDetector.detect text) as [suspicious inj_msg].
  simpl in Hinj. subst suspicious. cbv iota.
  destruct (DomainGrounding.is_in_domain text speciality history) as [in_domain domain_msg].
  destruct in_domain; simpl negb; cbv iota; [|done].
  destruct (ContentModerator.moderate text) as [[safe category] mod_msg].
  destruct safe; simpl negb; cbv iota; [done|].
  by destruct (String.eqb category "emergency").
Qed.

End CrisisFacts.

(** C1, as amended.  On an enabled orchestrator, for a text message that
    matches a crisis pattern and that the rate limiter and the injection
    detector let through: when domain grounding accepts the message,
    [validate_input] rejects it with the emergency message and error type
    [emergency]; when domain grounding rejects it, the rejection is the one
    of domain grounding, with error type [off_topic]. *)
Theorem crisis_follows_domain_grounding
        (now : Q) (user_id message speciality : string) (history : list HistoryMsg)
        (st : SecurityOrchestrator.State) :
  let text := Py.strip message in
  SecurityOrchestrator.enabled st = true ->
  (RateLimiter.check now user_id "text" (SecurityOrchestrator.bucket st)).1.1 = true ->
  (PromptInjectionDetector.detect text).1 = false ->
  ContentModerator.matches_crisis text = true ->
  (SecurityOrchestrator.validate_input now user_id (Some message) "text" speciality
                                       history st).1
  = if (DomainGrounding.is_in_domain text speciality history).1
    then (false, ContentModerator.emergency_response,
          SecurityOrchestrator.ErrorType "emergency")
    else (false, DomainGrounding.off_topic_response,
          SecurityOrchestrator.ErrorType "off_topic").
Proof.
  intros text Hen Hrate Hinj Hcrisis.
  rewrite (validate_input_text now user_id message speciality history st Hen Hrate Hinj).
  fold text. rewrite (moderate_crisis text Hcrisis).
  destruct (is_in_domain_cases text speciality history) as [-> | ->]; done.
Qed.

(** A crisis message that names a body part passes domain grounding and is
    answered with the emergency message. *)
Lemma crisis_follows_domain_grounding_witness :
  (SecurityOrchestrator.validate_input 0 "u" (Some "I want to die, my arm hurts") "text"
                                       "skin" [] (SecurityOrchestrator.init true)).1
  = (false, ContentModerator.emergency_response,
     SecurityOrchestrator.ErrorType "emergency").
Proof.
  rewrite crisis_follows_domain_grounding; vm_compute; reflexivity.
Defined.

(** C1, as stated, fails.  The message below matches an off-topic pattern
    and a crisis pattern, the orchestrator is enabled, the rate limiter and
    the injection detector let it through, and it is rejected as
    [off_topic]: domain grounding runs before the moderator. *)
Lemma crisis_message_rejected_as_off_topic :
  let message := "what is the weather, i want to die" in
  let st := SecurityOrchestrator.init true in
  DomainGrounding.matches_non_medical message = true
  /\ ContentModerator.matches_crisis message = true
  /\ SecurityOrchestrator.enabled st = true
  /\ (RateLimiter.check 0 "u" "text" (SecurityOrchestrator.bucket st)).1.1 = true
  /\ (PromptInjectionDetector.detect message).1 = false
  /\ (SecurityOrchestrator.validate_input 0 "u" (Some message) "text" "skin" [] st).1
     = (false, DomainGrounding.off_topic_response,
        SecurityOrchestrator.ErrorType "off_topic").
Proof. vm_compute. repeat split. Qed.

(** ** HttpClient.post_json *)

Section HttpClientFacts.

Import HttpClient.

Context (url : string) (payload : json) (net : nat -> Outcome).

Lemma attempts_step_fail n a last e :
  failure (net a) = Some e ->
  attempts url payload net (S n) a last
  = let '(r, evs) := attempts url payload net n (S a) (Some e) in
    (r, Post url payload :: Sleep (backoff a) :: evs).
Proof. simpl. destruct (net a); simpl; intros H; by simplify_eq. Qed.

Lemma attempts_step_return n a last body :
  net a = Returned body ->
  attempts url payload net (S n) a last = (inr body, [Post url payload]).
Proof. simpl. by intros ->. Qed.

Lemma attempts_all_fail n :
  forall a last,
    (forall k, a <= k < a + n -> failure (net k) <> None) ->
    attempts url payload net n a last
    = (inl (unavailable url (match n with
                             | O => last
                             | S m => failure (net (a + m))
                             end)),
       failed_rounds url payload a n).
Proof.
  induction n as [|n IH]; intros a last Hfail; [done|].
  destruct (failure (net a)) as [e|] eqn:E; [|by destruct (Hfail a ltac:(lia))].
  rewrite (attempts_step_fail n a last e E), IH by (intros; apply Hfail; lia).
  unfold failed_rounds. simpl. do 3 f_equal.
  destruct n as [|n]; [by rewrite Nat.add_0_r|]. do 2 f_equal. lia.
Qed.

Lemma attempts_first_return k :
  forall n a last body,
    k < n ->
    (forall j, a <= j < a + k -> failure (net j) <> None) ->
    net (a + k) = Returned body ->
    attempts url payload net n a last
    = (inr body, failed_rounds url payload a k ++ [Post url payload]).
Proof.
  induction k as [|k IH]; intros n a last body Hk Hfail Hret.
  - destruct n as [|n]; [lia|]. rewrite Nat.add_0_r in Hret.
    by rewrite (attempts_step_return n a last body Hret).
  - destruct n as [|n]; [lia|].
    destruct (failure (net a)) as [e|] eqn:E; [|by destruct (Hfail a ltac:(lia))].
    rewrite (attempts_step_fail n a last e E).
    rewrite (IH n (S a) (Some e) body); [done | lia | intros; apply Hfail; lia |].
    by replace (S a + k) with (a + S k) by lia.
Qed.

Lemma failed_rounds_posts first n :
  posts (failed_rounds url payload first n) = repeat (url, payload) n.
Proof.
  revert first. induction n as [|n IH]; intros first; [done|].
  unfold failed_rounds in *. simpl. f_equal. apply IH.
Qed.

Lemma failed_rounds_sleeps first n :
  sleeps (failed_rounds url payload first n) = map backoff (seq first n).
Proof.
  revert first. induction n as [|n IH]; intros first; [done|].
  unfold failed_rounds in *. simpl. f_equal. apply IH.
Qed.

End HttpClientFacts.

(** C8.  With [retries >= 0]:
    - when every attempt fails (an exception of [client.post], a non-2xx
      status or a body that is not JSON, all alike), [post_json] posts
      [retries + 1] times, sleeps [base_delay * (attempt + 1)] after each
      failed attempt, and raises one [HTTPException] 502 whose detail carries
      the error of the last attempt;
    - when attempt [k] is the first to succeed, [post_json] returns its
      body after [k] failed rounds and one more post, and nothing follows. *)
Theorem post_json_retries
        (retries : Z) (url : string) (payload : json) (net : nat -> HttpClient.Outcome) :
  (0 <= retries)%Z ->
  let n := Z.to_nat (retries + 1) in
  ((forall k, k < n -> HttpClient.failure (net k) <> None) ->
   exists last_err evs,
     HttpClient.failure (net (Z.to_nat retries)) = Some last_err
     /\ HttpClient.post_json retries url payload net
        = (inl (HTTPException 502 ("Downstream " +:+ url +:+ " error: " +:+ last_err)), evs)
     /\ evs = failed_rounds url payload 0 n
     /\ HttpClient.posts evs = repeat (url, payload) n
     /\ HttpClient.sleeps evs = map HttpClient.backoff (seq 0 n))
  /\ (forall k body,
       k < n ->
       (forall j, j < k -> HttpClient.failure (net j) <> None) ->
       net k = HttpClient.Returned body ->
       HttpClient.post_json retries url payload net
       = (inr body, failed_rounds url payload 0 k ++ [HttpClient.Post url payload])).
Proof.
  intros Hr n. assert (n = S (Z.to_nat retries)) as Hn by (unfold n; lia).
  split.
  - intros Hfail.
    destruct (HttpClient.failure (net (Z.to_nat retries))) as [e|] eqn:E;
      [|by destruct (Hfail (Z.to_nat retries) ltac:(lia))].
    exists e, (failed_rounds url payload 0 n).
    split; [done|]. split; [|split; [done|split]].
    + unfold HttpClient.post_json. fold n.
      rewrite attempts_all_fail by (intros; apply Hfail; lia).
      rewrite Hn. simpl. by rewrite E.
    + apply failed_rounds_posts.
    + apply failed_rounds_sleeps.
  - intros k body Hk Hfail Hret. unfold HttpClient.post_json. fold n.
    apply attempts_first_return; [done | intros; apply Hfail; lia | done].
Qed.

(** With the two retries of the supervisor and a backend that times out
    every time: three posts, sleeps of 0.3, 0.6 and 0.9 seconds, one 502. *)
Lemma post_json_retries_witness :
  HttpClient.post_json 2 "http://agent" JNull (fun _ => HttpClient.PostRaised "timeout")
  = (inl (HTTPException 502 "Downstream http://agent error: timeout"),
     [HttpClient.Post "http://agent" JNull; HttpClient.Sleep (3 # 10);
      HttpClient.Post "http://agent" JNull; HttpClient.Sleep (6 # 10);
      HttpClient.Post "http://agent" JNull; HttpClient.Sleep (9 # 10)]).
Proof.
  destruct (post_json_retries 2 "http://agent" JNull
              (fun _ => HttpClient.PostRaised "timeout") ltac:(lia)) as [Hall _].
  destruct Hall as (last_err & evs & Hlast & Hres & Hevs & _); [intros; discriminate|].
  rewrite Hres. injection Hlast as <-. subst evs. reflexivity.
Defined.

(** ** The supervisor *)

Section SupervisorFacts.
Import SupervisorRequest Supervisor.
Context (P : Platform) (cfg : Config) (env : Env).

Lemma bind_ok {A B} (m : M A) (k : A -> M B) w a w1 :
  m w = (inr a, w1) -> bind m k w = k a w1.
Proof. unfold bind. by intros ->. Qed.

Lemma bind_raise {A B} (m : M A) (k : A -> M B) w e w1 :
  m w = (inl e, w1) -> bind m k w = (inl e, w1).
Proof. unfold bind. by intros ->. Qed.

Lemma validate_payload_text req w :
  type req = "text" -> default "" (message req) <> "" ->
  validate_payload P req w = (inr tt, w).
Proof.
  intros Htype Hmsg%String.eqb_neq. unfold validate_payload.
  by rewrite Htype, Hmsg.
Qed.

Lemma validate_input_run req w :
  validate_input env req w
  = (inr (verdict_of env req w).1,
     {| guardrails := (verdict_of env req w).2; db := db w; http_log := http_log w |}).
Proof.
  unfold validate_input, verdict_of, history_for_validation.
  by destruct (SecurityOrchestrator.validate_input _ _ _ _ _ _ _).
Qed.

Lemma main_entry_rejected req w msg meta :
  well_formed req = true ->
  type req = "text" ->
  default "" (message req) <> "" ->
  (verdict_of env req w).1 = (false, msg, meta) ->
  let response := err (chat_id req) msg (meta_error_type meta) (Some (meta_dict meta)) in
  main_entry P cfg env req w
  = (inr response,
     {| guardrails := (verdict_of env req w).2;
        db := logged req [user_doc req; bot_doc req response] (db w);
        http_log := http_log w |}).
Proof.
  intros Hwf Htype Hmsg Hval response.
  unfold main_entry. rewrite Hwf. change (negb true) with false. cbv iota.
  rewrite (bind_ok _ _ w tt w (validate_payload_text req w Htype Hmsg)).
  erewrite bind_ok; [|reflexivity].
  rewrite Htype at 1. change (String.eqb "text" "text") with true. cbv iota.
  erewrite bind_ok; cycle 1.
  { erewrite bind_ok; [|apply validate_input_run].
    repeat match goal with
           | |- context [verdict_of env req ?w'] =>
               progress change (verdict_of env req w') with (verdict_of env req w)
           end.
    rewrite Hval. change (negb false) with true. cbv iota.
    erewrite bind_ok; reflexivity. }
  reflexivity.
Qed.


Lemma quiet_silent {A} (m : M A) : quiet m -> silent_on_raise m.
Proof. intros H w e w' E. specialize (H w). by rewrite E in H. Qed.

Lemma quiet_ret {A} (a : A) : quiet (ret a).
Proof. done. Qed.

Lemma quiet_raise {A} e : quiet (@raise A e).
Proof. done. Qed.

Lemma quiet_lift {A} (r : PyExc + A) : quiet (lift r).
Proof. done. Qed.

Lemma quiet_bind {A B} (m : M A) (k : A -> M B) :
  quiet m -> (forall a, quiet (k a)) -> quiet (bind m k).
Proof.
  intros Hm Hk w. unfold bind. specialize (Hm w).
  destruct (m w) as [[e|a] w1]; [done|]. simpl in Hm. by rewrite Hk.
Qed.

Lemma quiet_try {A} (m : M A) (h : PyExc -> M A) :
  quiet m -> (forall e, quiet (h e)) -> quiet (try_except m h).
Proof.
  intros Hm Hh w. unfold try_except. specialize (Hm w).
  destruct (m w) as [[e|a] w1]; [|done]. simpl in Hm. by rewrite Hh.
Qed.

Lemma quiet_post_json call url payload : quiet (post_json env call url payload).
Proof. intros w. unfold post_json. by destruct (HttpClient.post_json _ _ _ _). Qed.

Lemma quiet_set_merge chat data : quiet (set_merge P chat data).
Proof. done. Qed.

Lemma quiet_log_vision chat doc : quiet (log_vision_result chat doc).
Proof. done. Qed.

Lemma quiet_save_report chat doc : quiet (save_report chat doc).
Proof. done. Qed.

Lemma silent_bind {A B} (m : M A) (k : A -> M B) :
  quiet m -> (forall a, silent_on_raise (k a)) -> silent_on_raise (bind m k).
Proof.
  intros Hm Hk w e w' E. unfold bind in E. specialize (Hm w).
  destruct (m w) as [[e1|a] w1]; simpl in Hm.
  - by simplify_eq.
  - rewrite <- Hm. by eapply Hk.
Qed.

Ltac quiet_steps :=
  repeat first
    [ apply quiet_ret | apply quiet_raise | apply quiet_lift | apply quiet_post_json
    | apply quiet_set_merge | apply quiet_log_vision | apply quiet_save_report
    | apply quiet_bind; [|intros]
    | match goal with |- quiet (if ?c then _ else _) => destruct c end ].

Lemma route_text_quiet req : quiet (_route_text P cfg env req).
Proof.
  unfold _route_text. cbv zeta. apply quiet_try; [|intros; apply quiet_raise].
  quiet_steps.
Qed.

Lemma route_image_silent req : silent_on_raise (_route_image_then_report P cfg env req).
Proof.
  unfold _route_image_then_report.
  apply silent_bind; [apply quiet_post_json|]. intros vision.
  apply silent_bind; [apply quiet_lift|]. intros is_valid.
  apply silent_bind; [apply quiet_lift|]. intros validation_reason.
  destruct (negb (Json.truthy is_valid)).
  { intros w e w' E. discriminate E. }
  apply quiet_silent. quiet_steps.
  intros w. done.
Qed.

Lemma validate_payload_world req w r w' :
  validate_payload P req w = (r, w') ->
  w' = w /\ match r with
            | inl e => exists status detail, e = HTTPException status detail
            | inr _ => True
            end.
Proof.
  unfold validate_payload, raise, ret.
  repeat match goal with
         | |- context [if ?c then _ else _] => destruct c
         | |- context [let '(_, _) := ?c in _] => destruct c
         end; intros; simplify_eq; eauto.
Qed.

Lemma screening_cases req w :
  (exists response w', screening env req w = (inr (Some response), w'))
  \/ (exists w', screening env req w = (inr None, w')
                 /\ messages (db w') = messages (db w)).
Proof.
  unfold screening. destruct (String.eqb (type req) "text"); [|right; by eexists].
  erewrite bind_ok; [|apply validate_input_run].
  destruct ((verdict_of env req w).1) as [[ok_sec msg] meta].
  destruct ok_sec; simpl negb; cbv iota.
  - right. by eexists.
  - left. by eexists _, _.
Qed.

Lemma main_entry_unfold req :
  well_formed req = true ->
  main_entry P cfg env req
  = (_ <- validate_payload P req ;;
     _ <- _log_user_message req ;;
     rejected <- screening env req ;;
     match rejected with
     | Some response => ret response
     | None => routing P cfg env req
     end).
Proof. intros H. unfold main_entry. by rewrite H. Qed.

Lemma route_silent req : silent_on_raise (route P cfg env req).
Proof.
  unfold route. destruct (String.eqb (type req) "text").
  - apply quiet_silent, route_text_quiet.
  - apply route_image_silent.
Qed.

Lemma routing_raise req w e w' :
  routing P cfg env req w = (inl e, w') ->
  (exists status detail, e = HTTPException status detail)
  /\ messages (db w') = messages (db w).
Proof.
  unfold routing, try_except. intros H.
  destruct ((_ <- _;; _) w) as [[e0|r] w1] eqn:E; [|done].
  unfold bind in E.
  destruct (route P cfg env req w) as [[e1|r] w2] eqn:Er; [|done].
  simplify_eq. apply route_silent in Er.
  destruct e0 as [status detail|text]; [|done].
  unfold raise in H. simplify_eq. eauto.
Qed.

(** When [main_entry] raises, the transcript holds at most the user
    message of the turn. *)
Lemma main_entry_raise req w e w' :
  main_entry P cfg env req w = (inl e, w') ->
  messages (db w') = messages (db w)
  \/ messages (db w') = add_doc (chat_id req) (user_doc req) (messages (db w)).
Proof.
  destruct (well_formed req) eqn:Hwf.
  2:{ unfold main_entry. rewrite Hwf. change (negb false) with true. cbv iota.
      unfold raise. intros H. simplify_eq. eauto. }
  rewrite (main_entry_unfold req Hwf).
  destruct (validate_payload P req w) as [[e0|[]] w0] eqn:E0;
    apply validate_payload_world in E0 as E0'; destruct E0' as [-> He0].
  { rewrite (bind_raise _ _ _ _ _ E0). intros; simplify_eq. eauto. }
  rewrite (bind_ok _ _ _ _ _ E0).
  erewrite bind_ok; [|reflexivity].
  match goal with |- context [bind _ _ ?w1] => set (wu := w1) end.
  destruct (screening_cases req wu) as [(response & w1 & E1)|(w1 & E1 & Hm1)].
  { rewrite (bind_ok _ _ _ _ _ E1). done. }
  rewrite (bind_ok _ _ _ _ _ E1). intros [He Hm]%routing_raise.
  right. by rewrite Hm, Hm1.
Qed.

Lemma post_json_exhausted call url payload w :
  (forall k, k < 3 -> HttpClient.failure (net env call k) <> None) ->
  exists detail evs,
    post_json env call url payload w
    = (inl (HTTPException 502 detail),
       {| guardrails := guardrails w; db := db w; http_log := http_log w ++ evs |}).
Proof.
  intros Hfail. unfold post_json, HttpClient.post_json.
  rewrite attempts_all_fail by (intros; apply Hfail; lia).
  by eexists _, _.
Qed.

(** A first downstream call that fails at every attempt makes the route
    raise an [HTTPException] 502. *)
Lemma route_exhausted req w :
  (forall k, k < 3 -> HttpClient.failure (net env 0 k) <> None) ->
  exists detail w', route P cfg env req w = (inl (HTTPException 502 detail), w').
Proof.
  intros Hfail. unfold route. destruct (String.eqb (type req) "text").
  - unfold _route_text. cbv zeta. unfold try_except.
    match goal with
    | |- context [post_json env 0 ?url ?payload] =>
        destruct (post_json_exhausted 0 url payload w Hfail) as (detail & evs & E)
    end.
    erewrite bind_raise; [|exact E]. by eexists _, _.
  - unfold _route_image_then_report.
    destruct (post_json_exhausted 0 (VISION_AGENT_URL cfg) (vision_payload req) w Hfail)
      as (detail & evs & E).
    erewrite bind_raise; [|exact E]. by eexists _, _.
Qed.

Lemma main_entry_exhausted req w :
  well_formed req = true ->
  validate_payload P req w = (inr tt, w) ->
  (type req = "text" -> (verdict_of env req w).1.1.1 = true) ->
  (forall k, k < 3 -> HttpClient.failure (net env 0 k) <> None) ->
  exists detail w',
    main_entry P cfg env req w = (inl (HTTPException 502 detail), w')
    /\ messages (db w') = add_doc (chat_id req) (user_doc req) (messages (db w)).
Proof.
  intros Hwf Hpay Hsec Hfail. rewrite (main_entry_unfold req Hwf).
  rewrite (bind_ok _ _ _ _ _ Hpay).
  erewrite bind_ok; [|reflexivity].
  match goal with |- context [bind _ _ ?w1] => set (wu := w1) end.
  assert (exists w1, screening env req wu = (inr None, w1)
                     /\ messages (db w1) = messages (db wu)) as (w1 & E1 & Hm1).
  { unfold screening. destruct (String.eqb (type req) "text") eqn:Et; [|by eexists].
    apply String.eqb_eq in Et. specialize (Hsec Et).
    erewrite bind_ok; [|apply validate_input_run].
    change (verdict_of env req wu) with (verdict_of env req w).
    destruct ((verdict_of env req w).1) as [[ok_sec msg] meta]. simpl in Hsec. subst ok_sec.
    by eexists. }
  rewrite (bind_ok _ _ _ _ _ E1).
  destruct (route_exhausted req w1 Hfail) as (detail & w2 & E2).
  unfold routing, try_except. erewrite bind_raise; [|exact E2].
  exists detail, w2. split; [done|].
  apply route_silent in E2. by rewrite E2, Hm1.
Qed.

(** The report backend fails at every attempt after a valid image: the
    route raises a 502 once the vision record is written. *)
Lemma main_entry_report_exhausted req w fields evs prediction :
  well_formed req = true ->
  type req = "image" ->
  validate_payload P req w = (inr tt, w) ->
  HttpClient.post_json 2 (VISION_AGENT_URL cfg) (vision_payload req) (net env 0)
  = (inr (JObj fields), evs) ->
  Json.truthy (default (JBool false) (Json.dict_get "is_valid" fields)) = true ->
  Json.dict_get "prediction_result" fields = Some (JObj prediction) ->
  prediction <> [] ->
  (forall k, k < 3 -> HttpClient.failure (net env 1 k) <> None) ->
  exists detail w',
    main_entry P cfg env req w = (inl (HTTPException 502 detail), w')
    /\ messages (db w') = add_doc (chat_id req) (user_doc req) (messages (db w))
    /\ reports (db w') = reports (db w).
Proof.
  intros Hwf Htype Hpay Hpost Hvalid Hpred Hne Hfail.
  destruct prediction as [|item prediction]; [done|].
  rewrite (main_entry_unfold req Hwf).
  rewrite (bind_ok _ _ _ _ _ Hpay).
  erewrite bind_ok; [|reflexivity].
  erewrite bind_ok; cycle 1.
  { unfold screening. rewrite Htype. reflexivity. }
  unfold routing, try_except, route. rewrite Htype.
  change (String.eqb "image" "text") with false. cbv iota.
  match goal with |- context [bind (_route_image_then_report _ _ _ _) _ ?w1] =>
    set (wu := w1) end.
  assert (exists detail w',
             _route_image_then_report P cfg env req wu = (inl (HTTPException 502 detail), w')
             /\ reports (db w') = reports (db wu)) as (detail & w' & Hroute & Hrep).
  { unfold _route_image_then_report.
    erewrite bind_ok; cycle 1.
    { unfold post_json. rewrite Hpost. reflexivity. }
    erewrite bind_ok; [|reflexivity].
    erewrite bind_ok; [|reflexivity].
    rewrite Hvalid. change (negb true) with false. cbv iota.
    erewrite bind_ok; cycle 1.
    { unfold lift, Json.get. rewrite Hpred. reflexivity. }
    change (negb (Json.truthy (default JNull (Some (JObj (item :: prediction))))))
      with false. cbv iota.
    erewrite bind_ok; [|reflexivity].
    erewrite bind_ok; [|reflexivity].
    erewrite bind_ok; [|reflexivity].
    erewrite bind_ok; [|reflexivity].
    match goal with
    | |- context [bind (post_json env 1 ?url ?payload) _ ?w2] =>
        destruct (post_json_exhausted 1 url payload w2 Hfail) as (detail & evs' & E)
    end.
    erewrite bind_raise; [|exact E]. by eexists _, _. }
  erewrite bind_raise; [|exact Hroute].
  exists detail, w'. split; [done|]. split; [|by rewrite Hrep].
  apply route_image_silent in Hroute. by rewrite Hroute.
Qed.
End SupervisorFacts.

Section SupervisorClaims.
Import SupervisorRequest Supervisor.
Context (P : Platform) (cfg : Config) (env : Env).

(** C2, as amended.  For an image turn that passes the payload checks, when
    the vision backend answers with a dictionary whose [is_valid] is false
    or absent, [main_entry] raises nothing and returns a response with
    [success] false, [response_type] ["error"] and an [error] of type
    ["invalid_image"] that carries the reason.  The vision backend is the
    only one called; no vision record, no report and no chat metadata is
    written, and the guardrails are untouched; the transcript gets the user
    message and the bot message, the latter logged by the route and again by
    [main_entry]. *)
Theorem invalid_image_result (req : SupervisorRequest.t) (w : World)
        (fields : list (string * json)) (evs : list HttpClient.Event) :
  well_formed req = true ->
  type req = "image" ->
  (Validators.validate_image_url (urlparse P) (default "" (image_url req))).1 = true ->
  HttpClient.post_json 2 (VISION_AGENT_URL cfg) (vision_payload req) (net env 0)
  = (inr (JObj fields), evs) ->
  Json.truthy (default (JBool false) (Json.dict_get "is_valid" fields)) = false ->
  let reason := default (JStr "") (Json.dict_get "validation_reason" fields) in
  let text := "Invalid image: " +:+ format_value P reason in
  let response :=
    {| AgentResponse.success := false;
       AgentResponse.response := text;
       AgentResponse.response_type := "error";
       AgentResponse.chat_id := chat_id req;
       AgentResponse.metadata :=
         [("validation_reason", reason); ("error_type", JStr "image_validation_failed")];
       AgentResponse.error := Some [("type", JStr "invalid_image"); ("message", JStr text)] |} in
  main_entry P cfg env req w
  = (inr response,
     {| guardrails := guardrails w;
        db := logged req [user_doc req; bot_doc req response; bot_doc req response] (db w);
        http_log := http_log w ++ evs |}).
Proof.
  intros Hwf Htype Hurl Hpost Hinvalid reason text response.
  rewrite (main_entry_unfold P cfg env req Hwf).
  erewrite bind_ok; cycle 1.
  { unfold validate_payload. rewrite Htype.
    change (String.eqb "image" "text") with false.
    change (String.eqb "image" "image") with true. simpl andb. cbv iota.
    destruct (Validators.validate_image_url _ _) as [ok_url msg]. simpl in Hurl.
    subst ok_url. reflexivity. }
  erewrite bind_ok; [|reflexivity].
  erewrite bind_ok; cycle 1.
  { unfold screening. rewrite Htype. reflexivity. }
  unfold routing, try_except, route. rewrite Htype.
  change (String.eqb "image" "text") with false. cbv iota.
  erewrite bind_ok; cycle 1.
  { unfold _route_image_then_report.
    erewrite bind_ok; cycle 1.
    { unfold post_json. rewrite Hpost. reflexivity. }
    erewrite bind_ok; [|reflexivity].
    erewrite bind_ok; [|reflexivity].
    rewrite Hinvalid. change (negb false) with true. cbv iota.
    erewrite bind_ok; reflexivity. }
  reflexivity.
Qed.


(** C7, as amended.  A text turn that [validate_input] rejects reaches no
    downstream backend and writes no vision record, no report and no chat
    metadata.  The transcript is not left as it was: it gets the user
    message, logged before the validation, and then the bot message that
    carries the rejection. *)
Theorem rejected_turn_effects (req : SupervisorRequest.t) (w : World)
        (msg : string) (meta : SecurityOrchestrator.Meta) :
  well_formed req = true ->
  type req = "text" ->
  default "" (message req) <> "" ->
  (verdict_of env req w).1 = (false, msg, meta) ->
  exists response w',
    main_entry P cfg env req w = (inr response, w')
    /\ AgentResponse.success response = false
    /\ AgentResponse.response response = msg
    /\ http_log w' = http_log w
    /\ vision (db w') = vision (db w)
    /\ reports (db w') = reports (db w)
    /\ chats (db w') = chats (db w)
    /\ messages (db w')
       = add_doc (chat_id req) (bot_doc req response)
                 (add_doc (chat_id req) (user_doc req) (messages (db w))).
Proof.
  intros Hwf Htype Hmsg Hval.
  eexists _, _. split; [by apply main_entry_rejected|]. by repeat split.
Qed.

(** C6, as amended.  Every turn the security validation rejects is logged
    as a bot message to the transcript, after the user message.  A
    downstream failure is not: when the text agent, the vision agent, or
    the report agent after a valid image still fails after the retries,
    [main_entry] raises an [HTTPException] 502 and the transcript holds the
    user message only; and whenever [main_entry] raises, no bot message has
    been logged: the transcript is as it was, or has gained the user message
    only. *)
Theorem transcript_of_rejections_and_failures :
  (* a turn the guardrails reject is answered and the answer is logged *)
  (forall req w msg meta,
      well_formed req = true ->
      type req = "text" ->
      default "" (message req) <> "" ->
      (verdict_of env req w).1 = (false, msg, meta) ->
      exists response w',
        main_entry P cfg env req w = (inr response, w')
        /\ AgentResponse.response response = msg
        /\ messages (db w')
           = add_doc (chat_id req) (bot_doc req response)
                     (add_doc (chat_id req) (user_doc req) (messages (db w))))
  (* a first backend that fails at every attempt: a 502 and no bot message *)
  /\ (forall req w,
         well_formed req = true ->
         validate_payload P req w = (inr tt, w) ->
         (type req = "text" -> (verdict_of env req w).1.1.1 = true) ->
         (forall k, k < 3 -> HttpClient.failure (net env 0 k) <> None) ->
         exists detail w',
           main_entry P cfg env req w = (inl (HTTPException 502 detail), w')
           /\ messages (db w')
              = add_doc (chat_id req) (user_doc req) (messages (db w)))
  (* the report backend fails at every attempt after a valid image: the same *)
  /\ (forall req w fields evs prediction,
         well_formed req = true ->
         type req = "image" ->
         validate_payload P req w = (inr tt, w) ->
         HttpClient.post_json 2 (VISION_AGENT_URL cfg) (vision_payload req) (net env 0)
         = (inr (JObj fields), evs) ->
         Json.truthy (default (JBool false) (Json.dict_get "is_valid" fields)) = true ->
         Json.dict_get "prediction_result" fields = Some (JObj prediction) ->
         prediction <> [] ->
         (forall k, k < 3 -> HttpClient.failure (net env 1 k) <> None) ->
         exists detail w',
           main_entry P cfg env req w = (inl (HTTPException 502 detail), w')
           /\ messages (db w')
              = add_doc (chat_id req) (user_doc req) (messages (db w))
           /\ reports (db w') = reports (db w))
  (* whenever the handler raises, no bot message has been logged *)
  /\ (forall req w e w',
         main_entry P cfg env req w = (inl e, w') ->
         messages (db w') = messages (db w)
         \/ messages (db w')
            = add_doc (chat_id req) (user_doc req) (messages (db w))).
Proof.
  split; [|split; [|split]].
  - intros req w msg meta Hwf Htype Hmsg Hval.
    eexists _, _. split; [by apply main_entry_rejected|]. by split.
  - intros req w. apply main_entry_exhausted.
  - intros req w fields evs prediction. apply main_entry_report_exhausted.
  - intros req w e w'. apply main_entry_raise.
Qed.

End SupervisorClaims.

Lemma invalid_image_result_witness :
  let response :=
    {| AgentResponse.success := false;
       AgentResponse.response := "Invalid image: not a skin image";
       AgentResponse.response_type := "error";
       AgentResponse.chat_id := "c1";
       AgentResponse.metadata :=
         [("validation_reason", JStr "not a skin image");
          ("error_type", JStr "image_validation_failed")];
       AgentResponse.error :=
         Some [("type", JStr "invalid_image");
               ("message", JStr "Invalid image: not a skin image")] |} in
  Supervisor.main_entry example_platform example_config vision_says_invalid image_turn
                        (Supervisor.start true)
  = (inr response,
     {| Supervisor.guardrails := SecurityOrchestrator.init true;
        Supervisor.db :=
          logged image_turn
                 [Supervisor.user_doc image_turn; Supervisor.bot_doc image_turn response;
                  Supervisor.bot_doc image_turn response]
                 Supervisor.empty_store;
        Supervisor.http_log :=
          [HttpClient.Post "http://vision" (Supervisor.vision_payload image_turn)] |}).
Proof.
  intros response.
  apply (invalid_image_result example_platform example_config vision_says_invalid
           image_turn (Supervisor.start true)
           [("is_valid", JBool false); ("validation_reason", JStr "not a skin image")]
           [HttpClient.Post "http://vision" (Supervisor.vision_payload image_turn)]);
    reflexivity.
Defined.

(** C2, as stated, fails: the response to an invalid image has
    [response_type] ["error"]; ["invalid_image"] is the [type] of its
    [error]. *)
Lemma invalid_image_response_type :
  exists response w',
    Supervisor.main_entry example_platform example_config vision_says_invalid image_turn
                          (Supervisor.start true)
    = (inr response, w')
    /\ AgentResponse.response_type response = "error"
    /\ AgentResponse.response_type response <> "invalid_image"
    /\ AgentResponse.error response
       = Some [("type", JStr "invalid_image");
               ("message", JStr "Invalid image: not a skin image")].
Proof.
  eexists _, _. split; [vm_compute; reflexivity|].
  split; [reflexivity|]. split; [discriminate | reflexivity].
Qed.

Lemma rejected_turn_effects_witness :
  exists response w',
    Supervisor.main_entry example_platform example_config backends_down
                          (text_turn "what is the weather") (Supervisor.start true)
    = (inr response, w')
    /\ AgentResponse.response response = DomainGrounding.off_topic_response
    /\ Supervisor.http_log w' = [].
Proof.
  destruct (rejected_turn_effects example_platform example_config backends_down
              (text_turn "what is the weather") (Supervisor.start true)
              DomainGrounding.off_topic_response
              (SecurityOrchestrator.ErrorType "off_topic"))
    as (response & w' & Hrun & _ & Hresp & Hlog & _).
  - reflexivity.
  - reflexivity.
  - discriminate.
  - vm_compute. reflexivity.
  - exists response, w'. by repeat split.
Defined.

(** C7, as stated, fails: the rejected turn has left two documents in the
    transcript of its chat, the user message among them. *)
Lemma rejected_turn_changes_store :
  let req := text_turn "what is the weather" in
  let w := Supervisor.start true in
  let run := Supervisor.main_entry example_platform example_config backends_down req w in
  (verdict_of backends_down req w).1.1.1 = false
  /\ Supervisor.messages (Supervisor.db w) !! "c1" = None
  /\ exists response,
      run.1 = inr response
      /\ Supervisor.messages (Supervisor.db run.2) !! "c1"
         = Some [Supervisor.user_doc req; Supervisor.bot_doc req response]
      /\ Supervisor.db run.2 <> Supervisor.db w.
Proof.
  intros req w run. split; [vm_compute; reflexivity|]. split; [reflexivity|].
  eexists. split; [vm_compute; reflexivity|]. split; [vm_compute; reflexivity|].
  intros H. apply (f_equal (fun d => Supervisor.messages d !! "c1")) in H.
  vm_compute in H. discriminate H.
Qed.

Lemma transcript_of_rejections_and_failures_witness :
  exists detail w',
    Supervisor.main_entry example_platform example_config backends_down image_turn
                          (Supervisor.start true)
    = (inl (HTTPException 502 detail), w')
    /\ Supervisor.messages (Supervisor.db w') !! "c1"
       = Some [Supervisor.user_doc image_turn].
Proof.
  destruct (transcript_of_rejections_and_failures example_platform example_config backends_down)
    as (_ & Hdown & _ & _).
  destruct (Hdown image_turn (Supervisor.start true)) as (detail & w' & Hrun & Hmsgs).
  - reflexivity.
  - reflexivity.
  - discriminate.
  - intros; discriminate.
  - exists detail, w'. split; [exact Hrun|]. rewrite Hmsgs. reflexivity.
Defined.

(** C6, as stated, fails: the text backend fails three times, the caller
    gets a 502, and the transcript holds the user message and no bot
    message. *)
Lemma downstream_failure_not_logged :
  let req := text_turn "I have a rash on my arm" in
  let run := Supervisor.main_entry example_platform example_config backends_down req
                                   (Supervisor.start true) in
  (exists detail, run.1 = inl (HTTPException 502 detail))
  /\ HttpClient.posts (Supervisor.http_log run.2)
     = repeat ("http://skin",
               JObj [("thread_id", JStr "c1");
                     ("message", JStr "I have a rash on my arm");
                     ("chat_history",
                      JArr [JObj [("role", JStr "user");
                                  ("content", JStr "I have a rash on my arm")]])]) 3
  /\ Supervisor.messages (Supervisor.db run.2) !! "c1" = Some [Supervisor.user_doc req].
Proof.
  intros req run. split; [eexists; vm_compute; reflexivity|].
  split; vm_compute; reflexivity.
Qed.

(* ===================================================================== *)
(** * Further properties *)
(* ===================================================================== *)

(** ** Letter case *)

Ltac all_chars c :=
  destruct c as [[] [] [] [] [] [] [] []]; vm_compute; reflexivity.

Section LetterCase.

Lemma lower_char_idem c : Py.lower_char (Py.lower_char c) = Py.lower_char c.
Proof. all_chars c. Qed.

Lemma is_word_lower c : Py.is_word (Py.lower_char c) = Py.is_word c.
Proof. all_chars c. Qed.

Lemma is_space_lower c : Py.is_space (Py.lower_char c) = Py.is_space c.
Proof. all_chars c. Qed.

Lemma newline_lower c : Ascii.eqb (Py.lower_char c) "010" = Ascii.eqb c "010".
Proof. all_chars c. Qed.

Lemma chr_icase x c :
  (Ascii.eqb (Py.lower_char x) c
   || Ascii.eqb (Py.lower_char (Py.lower_char x)) (Py.lower_char c))
  = (Ascii.eqb x c || Ascii.eqb (Py.lower_char x) (Py.lower_char c)).
Proof.
  rewrite lower_char_idem.
  destruct (Ascii.eqb (Py.lower_char x) (Py.lower_char c)) eqn:E.
  - by rewrite !orb_true_r.
  - rewrite !orb_false_r.
    assert (Ascii.eqb x c = false) as ->.
    { apply Ascii.eqb_neq. intros ->. by rewrite Ascii.eqb_refl in E. }
    apply Ascii.eqb_neq. intros H. apply Ascii.eqb_neq in E. apply E.
    by rewrite <- H, lower_char_idem.
Qed.

Lemma flat_map_map {A B C} (f : B -> list C) (g : A -> B) (l : list A) :
  flat_map f (map g l) = flat_map (fun x => f (g x)) l.
Proof. induction l; simpl; [done|]. by f_equal. Qed.

Lemma map_flat_map {A B C} (f : A -> list B) (g : B -> C) (l : list A) :
  map g (flat_map f l) = flat_map (fun x => map g (f x)) l.
Proof. induction l; simpl; [done|]. rewrite map_app. by f_equal. Qed.

Lemma iterate_lower step :
  (forall prev s, step (option_map Py.lower_char prev) (lower_l s)
                  = map lower_pos (step prev s)) ->
  forall fuel prev s,
    Re.iterate step fuel (option_map Py.lower_char prev) (lower_l s)
    = map lower_pos (Re.iterate step fuel prev s).
Proof.
  intros Hstep. induction fuel as [|fuel IH]; intros prev s; simpl; [done|].
  f_equal. rewrite Hstep, flat_map_map, map_flat_map.
  apply flat_map_ext. intros [p t]. simpl. unfold lower_l at 1 2. rewrite !length_map.
  destruct (_ <? _)%nat; [apply IH | done].
Qed.

(** Under [re.IGNORECASE], such a pattern matches the lowered text at the
    places it matches the text. *)
Lemma matches_lower r :
  class_free r = true ->
  forall prev s,
    Re.matches true r (option_map Py.lower_char prev) (lower_l s)
    = map lower_pos (Re.matches true r prev s).
Proof.
  induction r as [|c|p| |a IHa b IHb|a IHa b IHb|a IHa| |]; intros Hfree prev s; simpl in *.
  - done.
  - destruct s as [|x s]; simpl; [done|]. simpl andb. rewrite chr_icase.
    by destruct (_ || _).
  - done.
  - destruct s as [|x s]; simpl; [done|]. rewrite newline_lower.
    by destruct (Ascii.eqb x "010").
  - apply andb_true_iff in Hfree as [Ha Hb].
    rewrite (IHa Ha), flat_map_map, map_flat_map.
    apply flat_map_ext. intros [p t]. apply (IHb Hb).
  - apply andb_true_iff in Hfree as [Ha Hb].
    by rewrite map_app, (IHa Ha), (IHb Hb).
  - unfold lower_l at 1. rewrite length_map. apply iterate_lower. apply (IHa Hfree).
  - by destruct prev.
  - assert (Re.is_word_opt (option_map Py.lower_char prev) = Re.is_word_opt prev) as ->.
    { destruct prev; simpl; [apply is_word_lower | done]. }
    assert (Re.is_word_opt (head (lower_l s)) = Re.is_word_opt (head s)) as ->.
    { destruct s; simpl; [done | apply is_word_lower]. }
    by destruct (xorb _ _).
Qed.

Lemma search_from_lower r :
  class_free r = true ->
  forall s prev,
    Re.search_from true r (option_map Py.lower_char prev) (lower_l s)
    = Re.search_from true r prev s.
Proof.
  intros Hfree. induction s as [|x s IH]; intros prev.
  - simpl. unfold Re.matches_here.
    change (@nil ascii) with (lower_l []) at 1. rewrite (matches_lower r Hfree).
    by destruct (Re.matches _ _ _ _).
  - simpl. f_equal.
    + unfold Re.matches_here.
      change (Py.lower_char x :: lower_l s) with (lower_l (x :: s)).
      rewrite (matches_lower r Hfree). by destruct (Re.matches _ _ _ _).
    + apply (IH (Some x)).
Qed.

Lemma search_lower r text :
  class_free r = true -> Re.search true r (Py.lower text) = Re.search true r text.
Proof.
  intros Hfree. unfold Re.search, Py.lower. rewrite chars_str.
  apply (search_from_lower r Hfree (Py.chars text) None).
Qed.

Lemma lower_idem text : Py.lower (Py.lower text) = Py.lower text.
Proof.
  unfold Py.lower. rewrite chars_str, map_map. f_equal.
  apply map_ext. intros c. apply lower_char_idem.
Qed.

Lemma lower_empty text : String.eqb (Py.lower text) "" = String.eqb text "".
Proof. destruct text as [|c text]; [done|]. reflexivity. Qed.

Lemma len_lower text : Py.len (Py.lower text) = Py.len text.
Proof. unfold Py.len, Py.lower. by rewrite chars_str, length_map. Qed.

Lemma chars_lower s : Py.chars (Py.lower s) = map Py.lower_char (Py.chars s).
Proof. unfold Py.lower. apply chars_str. Qed.

Lemma lstrip_lower l : Py.lstrip_l (map Py.lower_char l) = map Py.lower_char (Py.lstrip_l l).
Proof.
  induction l as [|c l IH]; simpl; [done|]. rewrite is_space_lower.
  by destruct (Py.is_space c).
Qed.

Lemma strip_lower text : Py.strip (Py.lower text) = Py.lower (Py.strip text).
Proof.
  unfold Py.strip, Py.lower, Py.strip_l. rewrite !chars_str. f_equal.
  by rewrite lstrip_lower, <- map_rev, lstrip_lower, <- map_rev.
Qed.

Lemma strip_idem text : Py.strip (Py.strip text) = Py.strip text.
Proof.
  unfold Py.strip. rewrite chars_str. f_equal.
  apply strip_fixed; [apply strip_starts_clean | apply strip_ends_clean].
Qed.

Lemma injection_patterns_class_free : forallb class_free INJECTION_PATTERNS = true.
Proof. reflexivity. Qed.

Lemma detect_lower text :
  PromptInjectionDetector.detect (Py.lower text) = PromptInjectionDetector.detect text.
Proof.
  unfold PromptInjectionDetector.detect. rewrite lower_empty.
  destruct (String.eqb text ""); [done|].
  assert (existsb (fun pattern => Re.search true pattern (Py.lower text)) INJECTION_PATTERNS
          = existsb (fun pattern => Re.search true pattern text) INJECTION_PATTERNS) as ->; [|done].
  pose proof injection_patterns_class_free as H.
  induction INJECTION_PATTERNS as [|r rs IH]; simpl in *; [done|].
  apply andb_true_iff in H as [Hr Hrs]. by rewrite (search_lower r text Hr), (IH Hrs).
Qed.

Lemma matches_crisis_lower text :
  ContentModerator.matches_crisis (Py.lower text) = ContentModerator.matches_crisis text.
Proof. unfold ContentModerator.matches_crisis. by rewrite lower_idem. Qed.

Lemma moderate_lower text :
  ContentModerator.moderate (Py.lower text) = ContentModerator.moderate text.
Proof.
  unfold ContentModerator.moderate.
  by rewrite lower_empty, matches_crisis_lower, len_lower, lower_idem.
Qed.

Lemma is_in_domain_lower text speciality history :
  DomainGrounding.is_in_domain (Py.lower text) speciality history
  = DomainGrounding.is_in_domain text speciality history.
Proof.
  unfold DomainGrounding.is_in_domain, DomainGrounding.matches_non_medical.
  by rewrite lower_empty, lower_idem.
Qed.

Lemma validate_input_lower now user_id message req_type speciality history st :
  SecurityOrchestrator.validate_input now user_id (Some (Py.lower message)) req_type
                                      speciality history st
  = SecurityOrchestrator.validate_input now user_id (Some message) req_type
                                        speciality history st.
Proof.
  unfold SecurityOrchestrator.validate_input. simpl default.
  by rewrite strip_lower, detect_lower, is_in_domain_lower, moderate_lower.
Qed.

End LetterCase.

(** X1.  On the texts of the embedding, those whose code points lie below
    256, [PromptInjectionDetector.detect] looks at a text through its
    lower-case form only: two such texts that differ in letter case alone
    get the same verdict and the same message.  (Beyond that range
    [re.IGNORECASE] and [str.lower] part ways, and with them this
    property.) *)
Theorem detect_ignores_case (a b : string) :
  Py.lower a = Py.lower b ->
  PromptInjectionDetector.detect a = PromptInjectionDetector.detect b.
Proof. intros H. by rewrite <- (detect_lower a), H, detect_lower. Qed.

Lemma detect_ignores_case_witness :
  PromptInjectionDetector.detect "IGNORE Previous Instructions"
  = PromptInjectionDetector.detect "ignore PREVIOUS instructions"
  /\ (PromptInjectionDetector.detect "ignore PREVIOUS instructions").1 = true.
Proof.
  split; [|vm_compute; reflexivity].
  apply detect_ignores_case. vm_compute. reflexivity.
Defined.

(** X2.  On the same texts, the whole of
    [SecurityOrchestrator.validate_input] is blind to letter case: on
    messages that differ in case alone it gives the same result and leaves
    the orchestrator in the same state. *)
Theorem validate_input_ignores_case
        (now : Q) (user_id a b req_type speciality : string)
        (history : list HistoryMsg) (st : SecurityOrchestrator.State) :
  Py.lower a = Py.lower b ->
  SecurityOrchestrator.validate_input now user_id (Some a) req_type speciality history st
  = SecurityOrchestrator.validate_input now user_id (Some b) req_type speciality history st.
Proof.
  intros H. by rewrite <- (validate_input_lower _ _ a), H, validate_input_lower.
Qed.

Lemma validate_input_ignores_case_witness :
  SecurityOrchestrator.validate_input 0 "u1" (Some "I Have A RASH") "text" "skin" []
                                      (SecurityOrchestrator.init true)
  = SecurityOrchestrator.validate_input 0 "u1" (Some "i have a rash") "text" "skin" []
                                        (SecurityOrchestrator.init true).
Proof. apply validate_input_ignores_case. vm_compute. reflexivity. Defined.

(** X3.  [validate_input] strips the message first: white space around a
    message changes neither the result nor the state. *)
Theorem validate_input_ignores_padding
        (now : Q) (user_id message req_type speciality : string)
        (history : list HistoryMsg) (st : SecurityOrchestrator.State) :
  SecurityOrchestrator.validate_input now user_id (Some (Py.strip message)) req_type
                                      speciality history st
  = SecurityOrchestrator.validate_input now user_id (Some message) req_type
                                        speciality history st.
Proof.
  unfold SecurityOrchestrator.validate_input. simpl default. by rewrite strip_idem.
Qed.

(** ** Domain grounding and moderation *)

(** X4.  History can only help: a text that [is_in_domain] accepts with no
    history is accepted with any history. *)
Theorem history_only_helps (text speciality : string) (history : list HistoryMsg) :
  DomainGrounding.is_in_domain text speciality [] = (true, "") ->
  DomainGrounding.is_in_domain text speciality history = (true, "").
Proof.
  unfold DomainGrounding.is_in_domain. cbv zeta.
  destruct (String.eqb text ""); [done|].
  destruct (meets _ MEDICAL_KEYWORDS); [done|].
  destruct (meets _ BODY_PARTS); [done|].
  destruct ((2 <=? _)%nat && _); [done|].
  destruct (meets _ PERSONAL_INFO && _); [done|].
  simpl andb. cbv iota.
  destruct (_ && _ && _); [done|].
  destruct ((String.eqb speciality "skin" || _) && _); [done|].
  by destruct (DomainGrounding.matches_non_medical text).
Qed.

Lemma history_only_helps_witness :
  DomainGrounding.is_in_domain "about 3 days ago" "skin" [HOther "hello"] = (true, "").
Proof. apply history_only_helps. vm_compute. reflexivity. Defined.

(** X5.  [ContentModerator.moderate] answers with the emergency message
    exactly when the text matches a crisis pattern; nothing else, the
    length limit included, gives that answer or hides it. *)
Theorem moderate_emergency_iff (text : string) :
  ContentModerator.moderate text
  = (false, "emergency", ContentModerator.emergency_response)
  <-> ContentModerator.matches_crisis text = true.
Proof.
  split; [|apply moderate_crisis].
  unfold ContentModerator.moderate.
  destruct (String.eqb text ""); [done|].
  destruct (ContentModerator.matches_crisis text); [done|].
  destruct (_ <? _)%Z; [done|]. by destruct (_ && _).
Qed.

(** ** The sanitiser *)

Section SanitizerOutput.

Lemma escape_char_no_markup d c :
  In c (ResponseSanitizer.escape_char d) -> is_markup c = false.
Proof.
  unfold ResponseSanitizer.escape_char, is_markup.
  destruct (Ascii.eqb d "&") eqn:E1; [simpl; intuition (subst; reflexivity)|].
  destruct (Ascii.eqb d "<") eqn:E2; [simpl; intuition (subst; reflexivity)|].
  destruct (Ascii.eqb d ">") eqn:E3; [simpl; intuition (subst; reflexivity)|].
  destruct (Ascii.eqb d "034") eqn:E4; [simpl; intuition (subst; reflexivity)|].
  destruct (Ascii.eqb d "'") eqn:E5; [simpl; intuition (subst; reflexivity)|].
  intros [<-|[]]. by rewrite E2, E3, E4, E5.
Qed.

Lemma escape_no_markup l c :
  In c (ResponseSanitizer.html_escape_l l) -> is_markup c = false.
Proof.
  unfold ResponseSanitizer.html_escape_l. intros (d & _ & Hc)%in_flat_map.
  by apply (escape_char_no_markup d).
Qed.

End SanitizerOutput.

(** X6.  What [sanitize_text] returns holds none of the characters [<],
    [>], the double quote and the apostrophe, none of the control
    characters it removes, and neither starts nor ends with white space. *)
Theorem sanitize_text_output (x : string) :
  let out := Py.chars (ResponseSanitizer.sanitize_text x) in
  forallb (fun c => negb (is_markup c) && negb (ResponseSanitizer.is_control c)) out = true
  /\ starts_clean out = true
  /\ ends_clean out = true.
Proof.
  intros out. unfold out. rewrite sanitize_text_unfold, chars_str.
  destruct (sanitize_clean (Py.chars x)) as (Hc & Hs & He).
  split; [|done].
  apply forallb_forall. intros c Hin.
  rewrite forallb_forall in Hc. rewrite (Hc c Hin), andb_true_r.
  apply negb_true_iff. unfold ResponseSanitizer.sanitize_l in Hin.
  apply strip_sub in Hin. apply filter_In in Hin as [Hin _].
  by apply (escape_no_markup (Py.chars x)).
Qed.

(** X7.  The texts that [sanitize_text] returns unchanged are exactly those
    with none of the five characters [html.escape] replaces, no control
    character and no white space at either end. *)
Theorem sanitize_text_fixed_iff (x : string) :
  ResponseSanitizer.sanitize_text x = x
  <-> has_html_special x = false /\ clean (Py.chars x).
Proof.
  rewrite sanitize_text_unfold. unfold has_html_special. split.
  - intros H. apply (f_equal Py.chars) in H. rewrite chars_str in H.
    split.
    + apply sanitize_l_idempotent_iff. by rewrite !H.
    + rewrite <- H. apply sanitize_clean.
  - intros [Hs Hc]. unfold ResponseSanitizer.sanitize_l.
    by rewrite (escape_no_special _ Hs), (clean_fixed _ Hc), str_chars.
Qed.

(** ** The rate limiter, further *)

(** X8.  Keys do not interfere: a call leaves the bucket of every other
    (user, kind) pair as it was, and its verdict depends on the bucket
    through the timestamps stored for its own pair only. *)
Theorem check_keys_independent
        (now : Q) (user_id kind : string) (b : RateLimiter.bucket_t) :
  (forall key, key <> (user_id, kind) ->
               (RateLimiter.check now user_id kind b).2 !! key = b !! key)
  /\ (forall b2, stored b (user_id, kind) = stored b2 (user_id, kind) ->
                 (RateLimiter.check now user_id kind b).1
                 = (RateLimiter.check now user_id kind b2).1).
Proof.
  split.
  - intros key Hkey. by apply check_other_key.
  - intros b2 Heq. by apply check_verdict_local.
Qed.

Section RateLimiterQuota.

Lemma accepted_run_quota user_id kind ts :
  forall b,
    length (stored b (user_id, kind)) + length ts <= (RateLimiter.limits kind).1 ->
    exists b', accepted_run ts user_id kind b = Some b'
               /\ length (stored b' (user_id, kind)) <= (RateLimiter.limits kind).1.
Proof.
  induction ts as [|t ts IH]; intros b Hq; simpl in *.
  - exists b. split; [done|lia].
  - rewrite check_unfold. cbv zeta.
    pose proof (live_length t (RateLimiter.limits kind).2 b (user_id, kind)) as Hlen.
    destruct (_ <=? _)%nat eqn:E; [apply Nat.leb_le in E; lia|].
    apply IH. rewrite stored_insert, length_app. simpl. lia.
Qed.

Lemma int_nonneg (q : Q) : (0 <= q)%Q -> (0 <= Py.int q)%Z.
Proof.
  unfold Qle, Py.int. simpl. rewrite Z.mul_1_r. intros H.
  apply Z.quot_pos; lia.
Qed.

Lemma int_le_bound (q : Q) (n : Z) : (0 <= q)%Q -> (q <= inject_Z n)%Q -> (Py.int q <= n)%Z.
Proof.
  unfold Qle, Py.int. simpl. rewrite !Z.mul_1_r. intros H0 Hn.
  rewrite Z.quot_div_nonneg by lia.
  apply Z.div_le_upper_bound; lia.
Qed.

End RateLimiterQuota.

(** X9.  While quota is left, nothing is refused: when the timestamps
    stored for a pair and the calls to come are together at most the limit
    of the kind, every one of the calls is accepted, whatever the times at
    which they are made. *)
Theorem quota_left_accepts
        (user_id kind : string) (ts : list Q) (b : RateLimiter.bucket_t) :
  length (stored b (user_id, kind)) + length ts <= (RateLimiter.limits kind).1 ->
  exists b', accepted_run ts user_id kind b = Some b'.
Proof.
  intros Hq. destruct (accepted_run_quota user_id kind ts b Hq) as (b' & H & _). eauto.
Qed.

Lemma quota_left_accepts_witness :
  exists b', accepted_run [5; 1; 1; 90; 2]%Q "new user" "image" ∅ = Some b'.
Proof. apply quota_left_accepts. vm_compute. lia. Defined.

(** X10.  A refusal names its wait.  When [check] refuses, the list
    stored for the pair begins with timestamps that have expired, followed
    by [oldest], the first one still within the window (3600 s for
    ["image"], 60 s otherwise); the message is
    ["Rate limit exceeded. Please try again in N seconds."] where [N] is the
    whole number of seconds in [window - (now - oldest)].  [N] is never
    negative, and is at most the window unless [oldest] lies in the
    future. *)
Theorem refusal_wait_bounds
        (now : Q) (user_id kind : string) (b : RateLimiter.bucket_t) (msg : string) :
  (RateLimiter.check now user_id kind b).1 = (false, msg) ->
  let W := if String.eqb kind "image" then 3600%Z else 60%Z in
  exists (expired : list Q) (oldest : Q) (later : list Q) (wait_time : Z),
    b !! (user_id, kind) = Some (expired ++ oldest :: later)
    /\ Forall (fun t => (inject_Z W <= now - t)%Q) expired
    /\ (now - oldest < inject_Z W)%Q
    /\ (inject_Z wait_time <= inject_Z W - (now - oldest)
        /\ inject_Z W - (now - oldest) < inject_Z wait_time + 1)%Q
    /\ msg = "Rate limit exceeded. Please try again in "
             +:+ NilZero.string_of_int (Z.to_int wait_time) +:+ " seconds."
    /\ (0 <= wait_time)%Z
    /\ ((oldest <= now)%Q -> (wait_time <= W)%Z).
Proof.
  intros H W.
  assert ((RateLimiter.limits kind).2 = inject_Z W) as HW.
  { unfold RateLimiter.limits, W.
    destruct (String.eqb_spec kind "text") as [->|_]; [reflexivity|].
    by destruct (String.eqb kind "image"). }
  clearbody W. set (w := inject_Z W) in *.
  rewrite check_unfold in H. cbv zeta in H. rewrite HW in H.
  destruct (_ <=? _)%nat eqn:Elim; [|done]. simpl in H. injection H as <-.
  apply Nat.leb_le in Elim.
  destruct (RateLimiter.live now w b (user_id, kind)) as [|oldest kept] eqn:E.
  { pose proof (limit_pos kind). simpl in Elim. lia. }
  unfold RateLimiter.live in E.
  destruct (filter_first _ _ _ _ E) as (expired & later & Hst & Hexp & Hold).
  apply Qltb_lt in Hold.
  destruct (b !! (user_id, kind)) as [l|] eqn:El; simpl in Hst; [|by destruct expired].
  subst l.
  pose proof (int_floor (w - (now - oldest)) ltac:(lra)) as [Hlo Hhi].
  exists expired, oldest, later, (Py.int (w - (now - oldest))).
  split; [done|]. split.
  { eapply List.Forall_impl; [|exact Hexp]. intros t Ht. by apply Qltb_ge. }
  split; [done|]. split; [done|]. split; [reflexivity|].
  assert (0 <= Py.int (w - (now - oldest)))%Z as Hnn.
  { apply int_nonneg. lra. }
  split; [done|].
  intros Hpast. subst w. apply int_le_bound; lra.
Qed.

(** Thirty text requests of one user, one second apart; the call at second
    30 is refused for 30 seconds. *)
Lemma refusal_wait_bounds_witness :
  exists wait_time : Z,
    "Rate limit exceeded. Please try again in 30 seconds."
    = "Rate limit exceeded. Please try again in "
      +:+ NilZero.string_of_int (Z.to_int wait_time) +:+ " seconds."
    /\ (0 <= wait_time <= 60)%Z.
Proof.
  destruct (refusal_wait_bounds 30 "u" "text"
              (<[("u", "text") :=
                   [0; 1; 2; 3; 4; 5; 6; 7; 8; 9; 10; 11; 12; 13; 14; 15; 16; 17; 18; 19;
                    20; 21; 22; 23; 24; 25; 26; 27; 28; 29]%Q]> ∅)
              "Rate limit exceeded. Please try again in 30 seconds.")
    as (expired & oldest & later & w & Hst & Hexp & Hold & _ & Hm & H0 & Hw).
  - vm_compute. reflexivity.
  - exists w. split; [exact Hm|]. split; [exact H0|]. apply Hw.
    rewrite lookup_insert_eq in Hst. injection Hst as Hst.
    destruct expired as [|e expired].
    + simpl in Hst. injection Hst as <- _. vm_compute. discriminate.
    + exfalso. simpl in Hst. injection Hst as <- Hst.
      apply Forall_cons in Hexp as [He _]. vm_compute in He. by apply He.
Defined.

(** ** The orchestrator, further *)

Section OrchestratorFacts.
Import SecurityOrchestrator.

Lemma moderate_cases text :
  ContentModerator.moderate text = (true, "safe", "")
  \/ exists category msg,
      ContentModerator.moderate text = (false, category, msg)
      /\ msg <> "" /\ (category = "emergency" \/ category = "validation").
Proof.
  unfold ContentModerator.moderate.
  destruct (String.eqb text ""); [by left|].
  destruct (ContentModerator.matches_crisis text).
  { right. eexists _, _. split; [done|]. split; [done | by left]. }
  destruct (_ <? _)%Z.
  { right. eexists _, _. split; [done|]. split; [done | by right]. }
  destruct (_ && _); [|by left].
  right. eexists _, _. split; [done|]. split; [done | by right].
Qed.

(** The ways a call can end, with what it does to the metrics. *)
Lemma validate_input_cases now user_id message req_type speciality history st :
  let r := validate_input now user_id message req_type speciality history st in
  (exists c, r.1 = (true, "", Category c)
             /\ (c = "safe" \/ c = "security_disabled")
             /\ metrics r.2 = count_request (metrics st))
  \/ (exists msg e reason,
         r.1 = (false, msg, ErrorType e)
         /\ msg <> "" /\ In e ERROR_TYPES
         /\ metrics r.2 = _track_block reason (count_request (metrics st))).
Proof.
  unfold validate_input. simpl.
  destruct (enabled st); simpl.
  2:{ left. eexists. split; [done|]. split; [by right | done]. }
  rewrite check_unfold. cbv zeta.
  destruct (_ <=? _)%nat; simpl.
  { right. eexists _, _, _. split; [done|]. split; [done|]. split; [|done].
    unfold ERROR_TYPES. simpl. tauto. }
  destruct (PromptInjectionDetector.detect _) as [suspicious inj_msg].
  destruct suspicious; simpl.
  { right. eexists _, _, _. split; [done|]. split; [done|]. split; [|done].
    unfold ERROR_TYPES. simpl. tauto. }
  assert (let d := if String.eqb req_type "text"
                   then DomainGrounding.is_in_domain (Py.strip (default "" message))
                                                     speciality history
                   else (true, "") in
          d = (true, "") \/ d = (false, DomainGrounding.off_topic_response)) as Hd.
  { destruct (String.eqb req_type "text"); [apply is_in_domain_cases | by left]. }
  cbv zeta in Hd. destruct Hd as [-> | ->]; simpl.
  2:{ right. eexists _, _, _. split; [done|]. split; [done|]. split; [|done].
      unfold ERROR_TYPES. simpl. tauto. }
  destruct (moderate_cases (Py.strip (default "" message)))
    as [-> | (category & msg & -> & Hmsg & Hcat)]; simpl.
  { left. eexists. split; [done|]. split; [by left | done]. }
  right. destruct Hcat as [-> | ->]; simpl.
  - eexists _, _, _. split; [done|]. split; [done|]. split; [|done].
    unfold ERROR_TYPES. simpl. tauto.
  - apply String.eqb_neq in Hmsg as Hmsg'. rewrite Hmsg'.
    eexists _, _, _. split; [done|]. split; [done|]. split; [|done].
    unfold ERROR_TYPES. simpl. tauto.
Qed.

Lemma validate_call_counts c st :
  let st' := (validate_call c st).2 in
  total_requests (metrics st') = total_requests (metrics st) + 1
  /\ blocked_requests (metrics st')
     = blocked_requests (metrics st) + (if (validate_call c st).1.1.1 then 0 else 1).
Proof.
  unfold validate_call.
  destruct (validate_input_cases (at_time c) (by_user c) (with_message c) (of_type c)
              (for_speciality c) (after_history c) st)
    as [(k & -> & _ & ->) | (msg & e & reason & -> & _ & _ & ->)]; simpl; lia.
Qed.

Lemma run_counts calls :
  forall st,
    let st' := fold_left (fun st c => (validate_call c st).2) calls st in
    total_requests (metrics st') = total_requests (metrics st) + length calls
    /\ blocked_requests (metrics st')
       = blocked_requests (metrics st) + length (List.filter negb (verdicts calls st)).
Proof.
  induction calls as [|c calls IH]; intros st; simpl; [lia|].
  destruct (IH (validate_call c st).2) as [Ht Hb].
  destruct (validate_call_counts c st) as [Ht1 Hb1].
  cbv zeta in *. rewrite Ht, Hb, Ht1, Hb1.
  destruct ((validate_call c st).1.1.1); simpl; lia.
Qed.

End OrchestratorFacts.

(** X11.  The shape of a verdict of [validate_input]: an acceptance has an
    empty message and the category ["safe"] or ["security_disabled"]; a
    rejection has a message that is not empty and one of the five error
    types. *)
Theorem verdict_shape
        (now : Q) (user_id : string) (message : option string)
        (req_type speciality : string) (history : list HistoryMsg)
        (st : SecurityOrchestrator.State) :
  let '(allowed, msg, meta) :=
    (SecurityOrchestrator.validate_input now user_id message req_type speciality
                                         history st).1 in
  if allowed
  then msg = ""
       /\ (meta = SecurityOrchestrator.Category "safe"
           \/ meta = SecurityOrchestrator.Category "security_disabled")
  else msg <> ""
       /\ exists e, meta = SecurityOrchestrator.ErrorType e /\ In e ERROR_TYPES.
Proof.
  destruct (validate_input_cases now user_id message req_type speciality history st)
    as [(c & -> & Hc & _) | (msg & e & reason & -> & Hmsg & He & _)].
  - split; [done|]. destruct Hc as [-> | ->]; tauto.
  - split; [done|]. eauto.
Qed.

(** X12.  The counters count: after any series of calls on a new
    orchestrator, [total_requests] is the number of calls and
    [blocked_requests] the number of them that were rejected. *)
Theorem metrics_count_calls (enabled : bool) (calls : list ValidateCall) :
  let m := SecurityOrchestrator.metrics (state_after enabled calls) in
  SecurityOrchestrator.total_requests m = length calls
  /\ SecurityOrchestrator.blocked_requests m
     = length (List.filter negb (verdicts calls (SecurityOrchestrator.init enabled))).
Proof.
  destruct (run_counts calls (SecurityOrchestrator.init enabled)) as [Ht Hb].
  split; [exact Ht | exact Hb].
Qed.

(** ** The HTTP client, further *)

Section HttpClientMore.
Import HttpClient.
Context (url : string) (payload : json) (net : nat -> Outcome).

(** What the loop can end with, and what it has done by then. *)
Lemma attempts_inv n :
  forall a last,
    match attempts url payload net n a last with
    | (inr body, evs) =>
        exists k, k < n /\ net (a + k) = Returned body
                  /\ (forall j, j < k -> failure (net (a + j)) <> None)
                  /\ evs = failed_rounds url payload a k ++ [Post url payload]
    | (inl e, evs) =>
        (forall j, j < n -> failure (net (a + j)) <> None)
        /\ e = unavailable url (match n with
                                | O => last
                                | S m => failure (net (a + m))
                                end)
        /\ evs = failed_rounds url payload a n
    end.
Proof.
  induction n as [|n IH]; intros a last.
  - simpl. split; [intros; lia|]. done.
  - destruct (net a) as [e|status e|e|body] eqn:E.
    4:{ rewrite (attempts_step_return url payload net n a last body E).
        exists 0. rewrite Nat.add_0_r. split; [lia|]. split; [done|].
        split; [intros; lia | done]. }
    all: assert (failure (net a) = Some e) as Hf by (by rewrite E).
    all: rewrite (attempts_step_fail url payload net n a last e Hf).
    all: specialize (IH (S a) (Some e)).
    all: destruct (attempts url payload net n (S a) (Some e)) as [[e'|body] evs].
    all: try (destruct IH as (Hall & -> & ->); split; [|split]).
    all: try (destruct IH as (k & Hk & Hret & Hfail & ->); exists (S k)).
    all: try (intros [|j] Hj;
              [rewrite Nat.add_0_r; by rewrite Hf
              | replace (a + S j) with (S a + j) by lia; apply Hall; lia]).
    all: try (f_equal; destruct n as [|n];
              [by rewrite Nat.add_0_r, Hf
              | by replace (a + S n) with (S a + n) by lia]).
    all: try reflexivity.
    all: try (split; [lia|]; split;
              [by replace (a + S k) with (S a + k) by lia|]; split; [|reflexivity];
              intros [|j] Hj;
              [rewrite Nat.add_0_r; by rewrite Hf
              | replace (a + S j) with (S a + j) by lia; apply Hfail; lia]).
Qed.

Lemma posts_app evs1 evs2 : posts (evs1 ++ evs2) = posts evs1 ++ posts evs2.
Proof. unfold posts. apply flat_map_app. Qed.

(** A call makes at most [retries + 1] requests, all the same. *)
Lemma post_json_posts retries :
  exists k, k <= Z.to_nat (retries + 1)
            /\ posts (post_json retries url payload net).2 = repeat (url, payload) k.
Proof.
  unfold post_json.
  pose proof (attempts_inv (Z.to_nat (retries + 1)) 0 None) as H.
  destruct (attempts _ _ _ _ _ _) as [[e|body] evs]; simpl.
  - destruct H as (_ & _ & ->). eexists. split; [|apply failed_rounds_posts]. lia.
  - destruct H as (k & Hk & _ & _ & ->). exists (S k). split; [lia|].
    rewrite posts_app, failed_rounds_posts. simpl. symmetry. apply List.repeat_cons.
Qed.

End HttpClientMore.

(** X13.  What an outcome of [post_json] tells about the attempts.  A
    returned body is the body of the first attempt that returned, which is
    one of the [retries + 1] allowed, and the requests made are those up to
    it; a raised exception is an [HTTPException] with status 502, every one
    of the [retries + 1] attempts has failed, and that many requests were
    made.  All requests carry the same URL and payload. *)
Theorem post_json_outcome
        (retries : Z) (url : string) (payload : json) (net : nat -> HttpClient.Outcome) :
  let n := Z.to_nat (retries + 1) in
  match HttpClient.post_json retries url payload net with
  | (inr body, evs) =>
      exists k, k < n /\ net k = HttpClient.Returned body
                /\ (forall j, j < k -> HttpClient.failure (net j) <> None)
                /\ HttpClient.posts evs = repeat (url, payload) (S k)
  | (inl e, evs) =>
      (forall j, j < n -> HttpClient.failure (net j) <> None)
      /\ (exists detail, e = HTTPException 502 detail)
      /\ HttpClient.posts evs = repeat (url, payload) n
  end.
Proof.
  intros n. unfold HttpClient.post_json. fold n.
  pose proof (attempts_inv url payload net n 0 None) as H.
  destruct (HttpClient.attempts url payload net n 0 None) as [[e|body] evs].
  - destruct H as (Hall & -> & ->). split; [exact Hall|].
    split; [by eexists | apply failed_rounds_posts].
  - destruct H as (k & Hk & Hret & Hfail & ->). exists k.
    split; [done|]. split; [done|]. split; [exact Hfail|].
    rewrite posts_app, failed_rounds_posts. simpl. symmetry. apply List.repeat_cons.
Qed.

(** X14.  A client built with a negative [retries] never sends anything:
    [post_json] raises the 502 at once, and the error it reports is
    [None]. *)
Theorem post_json_negative_retries
        (retries : Z) (url : string) (payload : json) (net : nat -> HttpClient.Outcome) :
  (retries < 0)%Z ->
  HttpClient.post_json retries url payload net
  = (inl (HTTPException 502 ("Downstream " +:+ url +:+ " error: None")), []).
Proof.
  intros H. unfold HttpClient.post_json.
  replace (Z.to_nat (retries + 1)) with 0 by lia. reflexivity.
Qed.

Lemma post_json_negative_retries_witness :
  HttpClient.post_json (-1) "http://agent" JNull (fun _ => HttpClient.Returned JNull)
  = (inl (HTTPException 502 "Downstream http://agent error: None"), []).
Proof. apply post_json_negative_retries. lia. Defined.

(** ** Image URLs *)

Section ValidatorFacts.

Lemma prefix_l_app p l : Py.prefix_l p l = true -> exists rest, l = p ++ rest.
Proof.
  revert l. induction p as [|a p IH]; intros l H.
  - by exists l.
  - destruct l as [|b l]; [done|]. simpl in H.
    apply andb_true_iff in H as [Hab Hp]. apply Ascii.eqb_eq in Hab as <-.
    destruct (IH l Hp) as [rest ->]. by exists rest.
Qed.

Lemma private_prefix_search p rest :
  In p PRIVATE_PREFIXES ->
  Re.search_from false Validators.PRIVATE_IP_RE None (Py.chars p ++ rest) = true.
Proof.
  intros Hp. unfold PRIVATE_PREFIXES in Hp.
  repeat (destruct Hp as [<-|Hp]; [vm_compute; reflexivity|]). destruct Hp.
Qed.

Lemma matches_here_alt icase a b prev s :
  Re.matches_here icase (Re.Alt a b) prev s
  = Re.matches_here icase a prev s || Re.matches_here icase b prev s.
Proof.
  unfold Re.matches_here. simpl.
  destruct (Re.matches icase a prev s); simpl; [|done].
  by destruct (Re.matches icase b prev s).
Qed.

Lemma search_from_alt icase a b prev s :
  Re.search_from icase (Re.Alt a b) prev s
  = Re.search_from icase a prev s || Re.search_from icase b prev s.
Proof.
  revert prev. induction s as [|x s IH]; intros prev; simpl.
  - rewrite matches_here_alt. by rewrite !orb_false_r.
  - rewrite matches_here_alt, IH.
    destruct (Re.matches_here icase a prev (x :: s)),
             (Re.matches_here icase b prev (x :: s)),
             (Re.search_from icase a (Some x) s); simpl; try done.
Qed.

(** Under [re.IGNORECASE] a lower-case word matches where the lowered
    text has it. *)
Lemma lit_matches_lowered w prev s :
  is_lowered w = true ->
  Py.prefix_l w (map Py.lower_char s) = true ->
  Re.matches_here true (fold_right (fun c r => Re.Seq (Re.Chr c) r) Re.Eps w) prev s = true.
Proof.
  revert prev s. induction w as [|c w IH]; intros prev s Hw H.
  - done.
  - destruct s as [|x s]; [done|]. simpl in H, Hw.
    apply andb_true_iff in Hw as [Hc Hw]. apply Ascii.eqb_eq in Hc.
    apply andb_true_iff in H as [Hcx Hp]. apply Ascii.eqb_eq in Hcx.
    specialize (IH (Some x) s Hw Hp).
    unfold Re.matches_here in *. simpl.
    replace (Ascii.eqb (Py.lower_char x) (Py.lower_char c)) with true
      by (symmetry; apply Ascii.eqb_eq; congruence).
    rewrite orb_true_r. simpl. rewrite app_nil_r. exact IH.
Qed.

Lemma lit_search_lowered w prev s :
  is_lowered (Py.chars w) = true ->
  Py.contains_l (Py.chars w) (map Py.lower_char s) = true ->
  Re.search_from true (Re.lit w) prev s = true.
Proof.
  intros Hw. revert prev. induction s as [|x s IH]; intros prev H; simpl in H |- *.
  - rewrite orb_false_r in H. unfold Re.lit.
    by rewrite (lit_matches_lowered _ prev [] Hw H).
  - apply orb_true_iff in H as [H|H].
    + unfold Re.lit. by rewrite (lit_matches_lowered _ prev (x :: s) Hw H).
    + rewrite (IH (Some x) H). apply orb_true_r.
Qed.

Lemma unsafe_word_search word s :
  In word UNSAFE_WORDS ->
  Py.contains_l (Py.chars word) (map Py.lower_char s) = true ->
  Re.search_from true Validators.UNSAFE_HOST_RE None s = true.
Proof.
  intros Hin H. unfold Validators.UNSAFE_HOST_RE, Re.words, Re.alts. simpl map.
  cbn [fold_left]. rewrite !search_from_alt.
  unfold UNSAFE_WORDS in Hin.
  destruct Hin as [<-|[<-|[<-|[<-|[]]]]];
    match type of H with
    | Py.contains_l (Py.chars ?w) _ = true =>
        rewrite (lit_search_lowered w None s eq_refl H)
    end;
    rewrite ?orb_true_r; reflexivity.
Qed.

End ValidatorFacts.

(** X16.  [validate_image_url] gives an empty reason exactly when it
    accepts.  An accepted URL is not empty, has the scheme http, https or
    gs and a path that ends, in any letter case, with [.jpg], [.jpeg] or
    [.png]; under http and https it also has a host name. *)
Theorem accepted_url_shape (urlparse : string -> Validators.ParseResult) (url : string) :
  let verdict := Validators.validate_image_url urlparse url in
  let parsed := urlparse url in
  (verdict.1 = true <-> verdict.2 = "")
  /\ (verdict.1 = true ->
      url <> ""
      /\ In (Validators.scheme parsed) ["http"; "https"; "gs"]
      /\ (exists ext, In ext Validators.SAFE_EXT
            /\ Validators.endswith (Py.lower (Validators.path parsed)) ext = true)
      /\ (Validators.scheme parsed <> "gs" ->
          Py.lower (default "" (Validators.hostname parsed)) <> "")).
Proof.
  cbv zeta. unfold Validators.validate_image_url.
  destruct (String.eqb_spec url "") as [->|Hurl]; [by split; [split|]|]. cbv zeta.
  destruct (existsb _ ["http"; "https"; "gs"]) eqn:Hscheme; cbn [negb];
    [|by split; [split|]].
  apply existsb_exists in Hscheme as [x [Hx Hsx]]. apply String.eqb_eq in Hsx as <-.
  destruct (String.eqb_spec (Validators.scheme (urlparse url)) "gs") as [Hgs|Hgs].
  - destruct (String.eqb_spec (Validators.path (urlparse url)) ""); [by split; [split|]|].
    destruct (existsb _ Validators.SAFE_EXT) eqn:Hext; cbn [negb];
      [|by split; [split|]].
    apply existsb_exists in Hext as [ext [Hin Hext]].
    split; [by split|]. intros _. repeat split; eauto.
  - destruct (existsb _ Validators.SAFE_EXT) eqn:Hext; cbn [negb];
      [|by split; [split|]].
    apply existsb_exists in Hext as [ext [Hin Hext]].
    destruct (String.eqb_spec (Py.lower (default "" (Validators.hostname (urlparse url)))) "");
      [by split; [split|]|].
    destruct (Re.search false _ _); [by split; [split|]|].
    destruct (Re.search true _ _); [by split; [split|]|].
    split; [by split|]. intros _. repeat split; eauto.
Qed.

(** X17.  An http or https URL whose host name begins like a loopback,
    private or link-local address ([127.0.0.1], [0.], [10.], [169.254.],
    [172.16.] to [172.31.], [192.168.]) is never accepted. *)
Theorem private_host_rejected (urlparse : string -> Validators.ParseResult)
        (url host p : string) :
  Validators.scheme (urlparse url) <> "gs" ->
  Validators.hostname (urlparse url) = Some host ->
  In p PRIVATE_PREFIXES ->
  Py.prefix_l (Py.chars p) (Py.chars (Py.lower host)) = true ->
  (Validators.validate_image_url urlparse url).1 = false.
Proof.
  intros Hgs Hhost Hp Hpre. unfold Validators.validate_image_url.
  destruct (String.eqb url ""); [done|]. cbv zeta.
  destruct (negb _); [done|].
  destruct (String.eqb_spec (Validators.scheme (urlparse url)) "gs") as [E|_]; [done|].
  destruct (negb _); [done|].
  rewrite Hhost. simpl default.
  destruct (String.eqb _ ""); [done|].
  destruct (prefix_l_app _ _ Hpre) as [rest Hrest].
  unfold Re.search. rewrite Hrest, (private_prefix_search p rest Hp). done.
Qed.

Lemma private_host_rejected_witness :
  (Validators.validate_image_url
     (fun _ => {| Validators.scheme := "http"; Validators.path := "/a.png";
                  Validators.hostname := Some "192.168.0.7" |})
     "http://192.168.0.7/a.png").1 = false.
Proof.
  apply (private_host_rejected _ _ "192.168.0.7" "192.168.").
  - discriminate.
  - reflexivity.
  - vm_compute. tauto.
  - vm_compute. reflexivity.
Defined.

(** X18.  An http or https URL that has [localhost], [file:],
    [metadata.googleinternal] or [169.254.169.254] anywhere in it, the
    query string included and in any letter case, is never accepted. *)
Theorem unsafe_url_rejected (urlparse : string -> Validators.ParseResult)
        (url word : string) :
  Validators.scheme (urlparse url) <> "gs" ->
  In word UNSAFE_WORDS ->
  Py.contains word (Py.lower url) = true ->
  (Validators.validate_image_url urlparse url).1 = false.
Proof.
  intros Hgs Hin Hword. unfold Validators.validate_image_url.
  destruct (String.eqb url ""); [done|]. cbv zeta.
  destruct (negb _); [done|].
  destruct (String.eqb_spec (Validators.scheme (urlparse url)) "gs") as [E|_]; [done|].
  destruct (negb _); [done|].
  destruct (String.eqb _ ""); [done|].
  destruct (Re.search false _ _); [done|].
  unfold Py.contains in Hword. rewrite chars_lower in Hword.
  unfold Re.search. by rewrite (unsafe_word_search word _ Hin Hword).
Qed.

Lemma unsafe_url_rejected_witness :
  (Validators.validate_image_url
     (fun _ => {| Validators.scheme := "https"; Validators.path := "/a.png";
                  Validators.hostname := Some "example.com" |})
     "https://example.com/a.png?next=LocalHost").1 = false.
Proof.
  apply (unsafe_url_rejected _ _ "localhost").
  - discriminate.
  - vm_compute. tauto.
  - vm_compute. reflexivity.
Defined.

(** ** Turns, further *)

Section Preservation.
Import SupervisorRequest Supervisor.
Context (P : Platform) (cfg : Config) (env : Env).
Context {X : Type} (f : World -> X).

Lemma preserves_ret {A} (a : A) : preserves f (ret a).
Proof. done. Qed.

Lemma preserves_raise {A} e : preserves f (@raise A e).
Proof. done. Qed.

Lemma preserves_lift {A} (r : PyExc + A) : preserves f (lift r).
Proof. done. Qed.

Lemma preserves_bind {A B} (m : M A) (k : A -> M B) :
  preserves f m -> (forall a, preserves f (k a)) -> preserves f (bind m k).
Proof.
  intros Hm Hk w. unfold bind. specialize (Hm w).
  destruct (m w) as [[e|a] w1]; [done|]. simpl in Hm. by rewrite Hk.
Qed.

Lemma preserves_try {A} (m : M A) (h : PyExc -> M A) :
  preserves f m -> (forall e, preserves f (h e)) -> preserves f (try_except m h).
Proof.
  intros Hm Hh w. unfold try_except. specialize (Hm w).
  destruct (m w) as [[e|a] w1]; [|done]. simpl in Hm. by rewrite Hh.
Qed.

Lemma preserves_validate_payload req : preserves f (validate_payload P req).
Proof.
  intros w. destruct (validate_payload P req w) as [r w'] eqn:E.
  apply validate_payload_world in E as [-> _]. done.
Qed.

End Preservation.

(** Preservation through the structure of a computation; [leaf] closes
    the calls that touch the world. *)
Ltac preserve_with leaf :=
  repeat first
    [ apply preserves_ret | apply preserves_raise | apply preserves_lift
    | apply preserves_validate_payload
    | leaf
    | apply preserves_bind; [|intros]
    | apply preserves_try; [|intros]
    | match goal with
      | |- preserves _ (if ?c then _ else _) => destruct c
      | |- preserves _ (match ?x with _ => _ end) => destruct x
      end ].

Section SupervisorMore.
Import SupervisorRequest Supervisor.
Context (P : Platform) (cfg : Config) (env : Env).

(** *** Other chats *)

Lemma add_doc_other chat c doc (m : gmap string (list json)) :
  c <> chat -> add_doc chat doc m !! c = m !! c.
Proof. intros H. unfold add_doc. by rewrite lookup_insert_ne. Qed.

Lemma view_save_message c chat doc :
  c <> chat -> preserves (chat_view c) (save_message chat doc).
Proof. intros H w. unfold chat_view. simpl. by rewrite add_doc_other. Qed.

Lemma view_log_vision c chat doc :
  c <> chat -> preserves (chat_view c) (log_vision_result chat doc).
Proof. intros H w. unfold chat_view. simpl. by rewrite add_doc_other. Qed.

Lemma view_save_report c chat doc :
  c <> chat -> preserves (chat_view c) (save_report chat doc).
Proof. intros H w. unfold chat_view. simpl. by rewrite add_doc_other. Qed.

Lemma view_set_merge c chat data :
  c <> chat -> preserves (chat_view c) (set_merge P chat data).
Proof. intros H w. unfold chat_view. simpl. by rewrite lookup_insert_ne. Qed.

Lemma view_post_json c call url payload :
  preserves (chat_view c) (post_json env call url payload).
Proof. intros w. unfold post_json. by destruct (HttpClient.post_json _ _ _ _). Qed.

Lemma view_validate_input c req : preserves (chat_view c) (validate_input env req).
Proof. intros w. by rewrite validate_input_run. Qed.

(** X19.  A turn reads and writes the documents of its own chat only: the
    messages, vision records, reports and chat metadata stored for any
    other chat are the same after [main_entry] as before, whether it
    returns or raises. *)
Theorem other_chats_untouched (c : string) (req : SupervisorRequest.t) :
  c <> chat_id req -> preserves (chat_view c) (main_entry P cfg env req).
Proof.
  intros Hc. unfold main_entry, _route_text, _route_image_then_report,
    _log_user_message, _log_bot_message. cbv zeta.
  preserve_with ltac:(first
    [ apply view_save_message; exact Hc | apply view_log_vision; exact Hc
    | apply view_save_report; exact Hc | apply view_set_merge; exact Hc
    | apply view_post_json | apply view_validate_input ]).
  intros w. done.
Qed.

(** *** The guardrails and the chat metadata *)

Lemma guard_save_message chat doc : preserves guardrails (save_message chat doc).
Proof. done. Qed.

Lemma guard_log_vision chat doc : preserves guardrails (log_vision_result chat doc).
Proof. done. Qed.

Lemma guard_save_report chat doc : preserves guardrails (save_report chat doc).
Proof. done. Qed.

Lemma guard_set_merge chat data : preserves guardrails (set_merge P chat data).
Proof. done. Qed.

Lemma guard_post_json call url payload :
  preserves guardrails (post_json env call url payload).
Proof. intros w. unfold post_json. by destruct (HttpClient.post_json _ _ _ _). Qed.

Ltac guard_leaf :=
  first [ apply guard_save_message | apply guard_log_vision | apply guard_save_report
        | apply guard_set_merge | apply guard_post_json ].

Lemma routing_guardrails req : preserves guardrails (routing P cfg env req).
Proof.
  unfold routing, route, _route_text, _route_image_then_report, _log_bot_message. cbv zeta.
  preserve_with guard_leaf. intros w. done.
Qed.

Lemma screening_guardrails req w :
  guardrails (screening env req w).2
  = if String.eqb (type req) "text" then (verdict_of env req w).2 else guardrails w.
Proof.
  unfold screening. destruct (String.eqb (type req) "text"); [|done].
  erewrite bind_ok; [|apply validate_input_run].
  destruct ((verdict_of env req w).1) as [[ok_sec msg] meta].
  by destruct ok_sec.
Qed.

(** The guardrails are as they were, or as the one call of
    [validate_input] of a text turn has left them. *)
Lemma main_entry_guardrails req w :
  guardrails (main_entry P cfg env req w).2 = guardrails w
  \/ (type req = "text"
      /\ guardrails (main_entry P cfg env req w).2 = (verdict_of env req w).2).
Proof.
  destruct (well_formed req) eqn:Hwf.
  2:{ left. unfold main_entry. by rewrite Hwf. }
  rewrite (main_entry_unfold P cfg env req Hwf).
  destruct (validate_payload P req w) as [[e0|[]] w0] eqn:E0;
    apply validate_payload_world in E0 as E0'; destruct E0' as [-> _].
  { left. by rewrite (bind_raise _ _ _ _ _ E0). }
  rewrite (bind_ok _ _ _ _ _ E0).
  erewrite bind_ok; [|reflexivity].
  match goal with |- context [bind _ _ ?w1] => set (wu := w1) end.
  pose proof (screening_guardrails req wu) as Hs.
  change (verdict_of env req wu) with (verdict_of env req w) in Hs.
  change (guardrails wu) with (guardrails w) in Hs.
  assert (guardrails
            ((rejected <- screening env req;;
              match rejected with
              | Some response => ret response
              | None => routing P cfg env req
              end) wu).2
          = guardrails (screening env req wu).2) as ->.
  { unfold bind. destruct (screening env req wu) as [[e|[response|]] w1]; [done|done|].
    apply routing_guardrails. }
  rewrite Hs. destruct (String.eqb (type req) "text") eqn:Et; [|by left].
  right. by apply String.eqb_eq in Et.
Qed.

Lemma main_entry_chats req :
  String.eqb (type req) "text" = false ->
  preserves (fun w => chats (db w)) (main_entry P cfg env req).
Proof.
  intros Htype. unfold main_entry, screening, routing, route. rewrite !Htype.
  unfold _route_image_then_report, _log_user_message, _log_bot_message.
  preserve_with ltac:(first
    [ by intros w | intros w; unfold post_json; by destruct (HttpClient.post_json _ _ _ _) ]).
Qed.

(** X20.  A turn that is not a text turn never reaches the guardrails and
    never writes chat metadata: the rate-limit buckets and the metrics of
    the orchestrator, and the [chats] collection, are the same after
    [main_entry] as before. *)
Theorem image_turn_untouched (req : SupervisorRequest.t) :
  type req <> "text" ->
  preserves (fun w => (guardrails w, chats (db w))) (main_entry P cfg env req).
Proof.
  intros Htype w. f_equal.
  - by destruct (main_entry_guardrails req w) as [H | [H _]].
  - apply (main_entry_chats req); by apply String.eqb_neq.
Qed.

(** X21.  A text turn never writes a vision record or a report. *)
Theorem text_turn_untouched (req : SupervisorRequest.t) :
  type req = "text" ->
  preserves (fun w => (vision (db w), reports (db w))) (main_entry P cfg env req).
Proof.
  intros Htype. unfold main_entry, screening, routing, route. rewrite !Htype.
  change (String.eqb "text" "text") with true. cbv iota.
  unfold _route_text, _log_user_message, _log_bot_message. cbv zeta.
  preserve_with ltac:(first
    [ by intros w | intros w; unfold post_json; by destruct (HttpClient.post_json _ _ _ _)
    | intros w; by rewrite validate_input_run ]).
Qed.

(** *** Requests to the backends *)

Lemma emits_preserves {A} n urls (m : M A) : preserves http_log m -> emits n urls m.
Proof.
  intros H w. exists []. rewrite H, app_nil_r. split; [done|]. split; [simpl; lia|].
  constructor.
Qed.

Lemma emits_bind {A B} n1 n2 urls (m : M A) (k : A -> M B) :
  emits n1 urls m -> (forall a, emits n2 urls (k a)) -> emits (n1 + n2) urls (bind m k).
Proof.
  intros Hm Hk w. unfold bind. destruct (Hm w) as (evs1 & H1 & Hn1 & Hu1).
  destruct (m w) as [[e|a] w1]; simpl in H1.
  - exists evs1. split; [done|]. split; [lia | done].
  - destruct (Hk a w1) as (evs2 & H2 & Hn2 & Hu2).
    exists (evs1 ++ evs2). rewrite H2, H1, app_assoc. split; [done|].
    rewrite posts_app, length_app. split; [lia|]. by apply Forall_app.
Qed.

Lemma emits_quiet_bind {A B} n urls (m : M A) (k : A -> M B) :
  preserves http_log m -> (forall a, emits n urls (k a)) -> emits n urls (bind m k).
Proof.
  intros Hm Hk. apply (emits_bind 0 n); [by apply emits_preserves | done].
Qed.

Lemma emits_try {A} n urls (m : M A) (h : PyExc -> M A) :
  emits n urls m -> (forall e, preserves http_log (h e)) -> emits n urls (try_except m h).
Proof.
  intros Hm Hh w. unfold try_except. destruct (Hm w) as (evs & H1 & Hn & Hu).
  destruct (m w) as [[e|a] w1]; simpl in H1.
  - exists evs. by rewrite Hh.
  - by exists evs.
Qed.

Lemma emits_post_json call url payload urls :
  In url urls -> emits 3 urls (post_json env call url payload).
Proof.
  intros Hin w. unfold post_json.
  destruct (post_json_posts url payload (net env call) 2) as (k & Hk & Hp).
  destruct (HttpClient.post_json 2 url payload (net env call)) as [r evs]. simpl in *.
  exists evs. split; [done|]. rewrite Hp, repeat_length. split; [lia|].
  apply List.Forall_forall. intros p Hp'. apply repeat_spec in Hp'. by subst.
Qed.

Lemma log_save_message chat doc : preserves http_log (save_message chat doc).
Proof. done. Qed.

Lemma log_log_vision chat doc : preserves http_log (log_vision_result chat doc).
Proof. done. Qed.

Lemma log_save_report chat doc : preserves http_log (save_report chat doc).
Proof. done. Qed.

Lemma log_set_merge chat data : preserves http_log (set_merge P chat data).
Proof. done. Qed.

Lemma log_validate_input req : preserves http_log (validate_input env req).
Proof. intros w. by rewrite validate_input_run. Qed.

Ltac log_leaf :=
  first [ apply log_save_message | apply log_log_vision | apply log_save_report
        | apply log_set_merge | apply log_validate_input ].

Lemma route_text_emits req : emits 3 [agent_url cfg req] (_route_text P cfg env req).
Proof.
  unfold _route_text. cbv zeta. fold (agent_url cfg req).
  apply emits_try; [|intros; apply preserves_raise].
  apply (emits_bind 3 0); [apply emits_post_json; by left|]. intros data.
  apply emits_preserves. preserve_with log_leaf.
Qed.

Lemma route_image_emits req :
  emits 6 [VISION_AGENT_URL cfg; REPORTING_AGENT_URL cfg]
        (_route_image_then_report P cfg env req).
Proof.
  unfold _route_image_then_report.
  apply (emits_bind 3 3); [apply emits_post_json; by left|]. intros vision.
  apply emits_quiet_bind; [apply preserves_lift|]. intros is_valid.
  apply emits_quiet_bind; [apply preserves_lift|]. intros validation_reason.
  destruct (negb (Json.truthy is_valid)).
  { apply emits_preserves. unfold _log_bot_message. preserve_with log_leaf. }
  apply emits_quiet_bind; [apply preserves_lift|]. intros prediction_result.
  destruct (negb (Json.truthy prediction_result)).
  { apply emits_preserves, preserves_raise. }
  apply emits_quiet_bind; [apply preserves_lift|]. intros diagnosis_name.
  apply emits_quiet_bind; [apply preserves_lift|]. intros confidence.
  apply emits_quiet_bind; [apply log_log_vision|]. intros _.
  apply emits_quiet_bind; [by intros w|]. intros collected_info.
  apply (emits_bind 3 0); [apply emits_post_json; right; by left|]. intros report.
  apply emits_preserves. preserve_with log_leaf.
Qed.

(** X22.  The requests of a turn.  [main_entry] only appends to the log of
    requests; a text turn sends at most three, all to the text agent of the
    speciality (the skin agent for ["skin"], the oral agent otherwise); any
    other turn sends at most six, all to the vision agent or the reporting
    agent. *)
Theorem main_entry_request_budget (req : SupervisorRequest.t) :
  emits (if String.eqb (type req) "text" then 3 else 6)
        (if String.eqb (type req) "text" then [agent_url cfg req]
         else [VISION_AGENT_URL cfg; REPORTING_AGENT_URL cfg])
        (main_entry P cfg env req).
Proof.
  destruct (well_formed req) eqn:Hwf.
  2:{ unfold main_entry. rewrite Hwf. apply emits_preserves, preserves_raise. }
  rewrite (main_entry_unfold P cfg env req Hwf).
  apply emits_quiet_bind; [apply preserves_validate_payload|]. intros _.
  apply emits_quiet_bind; [apply log_save_message|]. intros _.
  apply emits_quiet_bind.
  { unfold screening, _log_bot_message. preserve_with log_leaf. }
  intros [response|]; [apply emits_preserves, preserves_ret|].
  unfold routing, route. apply emits_try.
  - destruct (String.eqb (type req) "text").
    + apply (emits_bind 3 0); [apply route_text_emits|]. intros response.
      apply emits_preserves. unfold _log_bot_message. preserve_with log_leaf.
    + apply (emits_bind 6 0); [apply route_image_emits|]. intros response.
      apply emits_preserves. unfold _log_bot_message. preserve_with log_leaf.
  - intros e. unfold _log_bot_message. preserve_with log_leaf.
Qed.

(** *** Payloads that are refused *)

(** X23.  A payload that breaks a pattern of the request model, a text
    turn with no message or an empty one, and an image turn whose URL
    [validate_image_url] rejects all end in an [HTTPException] with status
    400, raised before anything is logged, screened or sent: the world is
    left exactly as it was. *)
Theorem main_entry_bad_payload (req : SupervisorRequest.t) (w : World) :
  well_formed req = false
  \/ (type req = "text" /\ default "" (message req) = "")
  \/ (type req = "image"
      /\ (Validators.validate_image_url (urlparse P) (default "" (image_url req))).1
         = false) ->
  exists detail, main_entry P cfg env req w = (inl (HTTPException 400 detail), w).
Proof.
  intros H. destruct (well_formed req) eqn:Hwf.
  2:{ unfold main_entry. rewrite Hwf. by eexists. }
  rewrite (main_entry_unfold P cfg env req Hwf).
  assert (exists detail, validate_payload P req w = (inl (HTTPException 400 detail), w))
    as [detail E].
  { destruct H as [H | [[Htype Hmsg] | [Htype Hurl]]]; [done| |].
    - unfold validate_payload. rewrite Htype, Hmsg. by eexists.
    - unfold validate_payload. rewrite Htype.
      change (String.eqb "image" "text") with false.
      change (String.eqb "image" "image") with true. simpl andb. cbv iota.
      destruct (Validators.validate_image_url _ _) as [ok_url msg]. simpl in Hurl.
      subst ok_url. by eexists. }
  exists detail. by rewrite (bind_raise _ _ _ _ _ E).
Qed.

(** *** Reaching the routes *)

Lemma get_obj fields k dflt :
  Json.get (JObj fields) k dflt = inr (default dflt (Json.dict_get k fields)).
Proof. reflexivity. Qed.

Lemma get_not_dict body k dflt :
  is_dict body = false ->
  Json.get body k dflt
  = inl (Error ("'" +:+ Json.type_name body +:+ "' object has no attribute 'get'")).
Proof. by destruct body. Qed.

Lemma route_text_success req w fields evs reply :
  HttpClient.post_json 2 (agent_url cfg req) (text_payload req) (net env 0)
  = (inr (JObj fields), evs) ->
  Json.dict_get "response" fields = Some (JStr reply) ->
  let get k dflt := default dflt (Json.dict_get k fields) in
  let collected_info := get "collected_info" (JObj []) in
  let meta :=
    [("thread_id", get "thread_id" JNull);
     ("chat_history", get "chat_history" (JArr []));
     ("information_complete", get "information_complete" (JBool false));
     ("should_request_image", get "should_request_image" (JBool false));
     ("ready_for_images", get "should_request_image" (JBool false));
     ("collected_info", collected_info);
     ("api_calls", get "api_calls" (JInt 1))] in
  _route_text P cfg env req w
  = (inr {| AgentResponse.success := true;
            AgentResponse.response := reply;
            AgentResponse.response_type := "text";
            AgentResponse.chat_id := chat_id req;
            AgentResponse.metadata := meta;
            AgentResponse.error := None |},
     {| guardrails := guardrails w;
        db := if Json.truthy collected_info
              then {| messages := messages (db w);
                      vision := vision (db w);
                      reports := reports (db w);
                      chats :=
                        <[chat_id req :=
                            firestore_merge P (chats (db w) !! chat_id req)
                                            [("user_metadata", collected_info)]]>
                          (chats (db w)) |}
              else db w;
        http_log := http_log w ++ evs |}).
Proof.
  intros Hpost Hreply get collected_info meta. subst get collected_info meta. cbv beta.
  unfold _route_text. cbv zeta. unfold try_except.
  fold (agent_url cfg req). fold (text_chat_history req). fold (text_payload req).
  erewrite bind_ok; cycle 1.
  { unfold post_json. rewrite Hpost. reflexivity. }
  rewrite !get_obj.
  erewrite bind_ok; [|reflexivity]. rewrite Hreply. simpl default.
  erewrite bind_ok; cycle 1.
  { destruct (Json.truthy (JStr reply)); reflexivity. }
  erewrite bind_ok; [|reflexivity].
  erewrite bind_ok; [|reflexivity].
  erewrite bind_ok; [|reflexivity].
  destruct (Json.truthy (default (JObj []) (Json.dict_get "collected_info" fields)));
    (erewrite bind_ok; [|reflexivity]); reflexivity.
Qed.

(** A text turn that the payload checks and the guardrails let through. *)
Lemma text_reaches_routing req w :
  well_formed req = true ->
  type req = "text" ->
  default "" (message req) <> "" ->
  (verdict_of env req w).1.1.1 = true ->
  main_entry P cfg env req w
  = routing P cfg env req
      {| guardrails := (verdict_of env req w).2;
         db := logged req [user_doc req] (db w);
         http_log := http_log w |}.
Proof.
  intros Hwf Htype Hmsg Hok. rewrite (main_entry_unfold P cfg env req Hwf).
  rewrite (bind_ok _ _ w tt w (validate_payload_text P req w Htype Hmsg)).
  erewrite bind_ok; [|reflexivity].
  erewrite bind_ok; cycle 1.
  { unfold screening. rewrite Htype. change (String.eqb "text" "text") with true. cbv iota.
    erewrite bind_ok; [|apply validate_input_run].
    match goal with
    | |- context [verdict_of env req ?w'] =>
        change (verdict_of env req w') with (verdict_of env req w)
    end.
    destruct ((verdict_of env req w).1) as [[ok_sec msg] meta]. simpl in Hok.
    subst ok_sec. reflexivity. }
  reflexivity.
Qed.

(** An image turn that the payload checks let through. *)
Lemma image_reaches_routing req w :
  well_formed req = true ->
  type req = "image" ->
  (Validators.validate_image_url (urlparse P) (default "" (image_url req))).1 = true ->
  main_entry P cfg env req w
  = routing P cfg env req
      {| guardrails := guardrails w;
         db := logged req [user_doc req] (db w);
         http_log := http_log w |}.
Proof.
  intros Hwf Htype Hurl. rewrite (main_entry_unfold P cfg env req Hwf).
  erewrite bind_ok; cycle 1.
  { unfold validate_payload. rewrite Htype.
    change (String.eqb "image" "text") with false.
    change (String.eqb "image" "image") with true. simpl andb. cbv iota.
    destruct (Validators.validate_image_url _ _) as [ok_url msg]. simpl in Hurl.
    subst ok_url. reflexivity. }
  erewrite bind_ok; [|reflexivity].
  erewrite bind_ok; cycle 1.
  { unfold screening. rewrite Htype. reflexivity. }
  reflexivity.
Qed.

Lemma routing_returned req w response w' :
  route P cfg env req w = (inr response, w') ->
  routing P cfg env req w
  = (inr response,
     {| guardrails := guardrails w';
        db := logged req [bot_doc req response] (db w');
        http_log := http_log w' |}).
Proof.
  intros H. unfold routing, try_except. erewrite bind_ok; [|exact H]. reflexivity.
Qed.

Lemma routing_http_error req w status detail w' :
  route P cfg env req w = (inl (HTTPException status detail), w') ->
  routing P cfg env req w = (inl (HTTPException status detail), w').
Proof.
  intros H. unfold routing, try_except. erewrite bind_raise; [|exact H]. reflexivity.
Qed.

Lemma routing_internal_error req w text w' :
  route P cfg env req w = (inl (Error text), w') ->
  let response :=
    err (chat_id req) "Internal server error" "internal_error"
        (Some [("detail", JStr text)]) in
  routing P cfg env req w
  = (inr response,
     {| guardrails := guardrails w';
        db := logged req [bot_doc req response] (db w');
        http_log := http_log w' |}).
Proof.
  intros H response. unfold routing, try_except. erewrite bind_raise; [|exact H].
  reflexivity.
Qed.

Lemma route_text_eq req : type req = "text" -> route P cfg env req = _route_text P cfg env req.
Proof. intros H. unfold route. by rewrite H. Qed.

Lemma route_image_eq req :
  type req = "image" -> route P cfg env req = _route_image_then_report P cfg env req.
Proof. intros H. unfold route. by rewrite H. Qed.

(** *** Turns that succeed *)

(** X24.  A text turn that succeeds.  When the guardrails accept the
    message and the text agent returns a dictionary whose [response] is a
    string, [main_entry] returns a successful response of type ["text"]
    with that string, and with [should_request_image] copied from the
    answer into the metadata ([False] when absent).  The guardrails are as
    [validate_input] left them, the requests made are those of the one call
    of [post_json], the transcript gains the user message and then the bot
    message, no vision record or report is written, and the chat metadata
    are merged with [collected_info] exactly when the answer carries a
    non-empty one. *)
Theorem text_turn_run (req : SupervisorRequest.t) (w : World)
        (fields : list (string * json)) (evs : list HttpClient.Event) (reply : string) :
  well_formed req = true ->
  type req = "text" ->
  default "" (message req) <> "" ->
  (verdict_of env req w).1.1.1 = true ->
  HttpClient.post_json 2 (agent_url cfg req) (text_payload req) (net env 0)
  = (inr (JObj fields), evs) ->
  Json.dict_get "response" fields = Some (JStr reply) ->
  let collected_info := default (JObj []) (Json.dict_get "collected_info" fields) in
  exists response w',
    main_entry P cfg env req w = (inr response, w')
    /\ AgentResponse.success response = true
    /\ AgentResponse.response response = reply
    /\ AgentResponse.response_type response = "text"
    /\ Json.dict_get "should_request_image" (AgentResponse.metadata response)
       = Some (default (JBool false) (Json.dict_get "should_request_image" fields))
    /\ guardrails w' = (verdict_of env req w).2
    /\ http_log w' = http_log w ++ evs
    /\ messages (db w')
       = add_doc (chat_id req) (bot_doc req response)
                 (add_doc (chat_id req) (user_doc req) (messages (db w)))
    /\ vision (db w') = vision (db w)
    /\ reports (db w') = reports (db w)
    /\ chats (db w')
       = if Json.truthy collected_info
         then <[chat_id req :=
                  firestore_merge P (chats (db w) !! chat_id req)
                                  [("user_metadata", collected_info)]]> (chats (db w))
         else chats (db w).
Proof.
  intros Hwf Htype Hmsg Hok Hpost Hreply collected_info. subst collected_info.
  rewrite (text_reaches_routing req w Hwf Htype Hmsg Hok).
  erewrite routing_returned; cycle 1.
  { rewrite (route_text_eq req Htype). by apply route_text_success. }
  eexists _, _. split; [reflexivity|]. simpl.
  destruct (Json.truthy (default (JObj []) (Json.dict_get "collected_info" fields)));
    by repeat split.
Qed.

(** X25.  An image turn that ends in a report.  When the vision agent
    returns a dictionary with a true [is_valid] and a non-empty prediction,
    and the reporting agent, called with the diagnosis and the stored chat
    metadata, returns a dictionary whose [report] has a non-empty [output],
    [main_entry] returns a successful response of type ["report"] with that
    output, and with the diagnosis of the report (of the prediction when
    the report names none) in the metadata.  The requests made are those of
    the two calls in order, one vision record and one report are stored,
    the transcript gains the user message and then the bot message, and the
    chat metadata and the guardrails are untouched. *)
Theorem report_turn_run (req : SupervisorRequest.t) (w : World)
        (fields : list (string * json)) (evs0 : list HttpClient.Event)
        (item : string * json) (prediction report : list (string * json))
        (evs1 : list HttpClient.Event) (report_data : list (string * json))
        (out : string) :
  well_formed req = true ->
  type req = "image" ->
  (Validators.validate_image_url (urlparse P) (default "" (image_url req))).1 = true ->
  HttpClient.post_json 2 (VISION_AGENT_URL cfg) (vision_payload req) (net env 0)
  = (inr (JObj fields), evs0) ->
  Json.truthy (default (JBool false) (Json.dict_get "is_valid" fields)) = true ->
  Json.dict_get "prediction_result" fields = Some (JObj (item :: prediction)) ->
  HttpClient.post_json 2 (REPORTING_AGENT_URL cfg)
    (report_payload req (item :: prediction) (stored_metadata req (db w))) (net env 1)
  = (inr (JObj report), evs1) ->
  Json.dict_get "report" report = Some (JObj report_data) ->
  Json.dict_get "output" report_data = Some (JStr out) ->
  out <> "" ->
  exists response w',
    main_entry P cfg env req w = (inr response, w')
    /\ AgentResponse.success response = true
    /\ AgentResponse.response response = out
    /\ AgentResponse.response_type response = "report"
    /\ Json.dict_get "diagnosis" (AgentResponse.metadata response)
       = Some (default (diagnosis_of (item :: prediction))
                       (Json.dict_get "diagnosis" report))
    /\ guardrails w' = guardrails w
    /\ http_log w' = http_log w ++ evs0 ++ evs1
    /\ messages (db w')
       = add_doc (chat_id req) (bot_doc req response)
                 (add_doc (chat_id req) (user_doc req) (messages (db w)))
    /\ vision (db w')
       = add_doc (chat_id req) (vision_record req (item :: prediction)) (vision (db w))
    /\ reports (db w')
       = add_doc (chat_id req) (report_record (diagnosis_of (item :: prediction)) report)
                 (reports (db w))
    /\ chats (db w') = chats (db w).
Proof.
  intros Hwf Htype Hurl Hpost0 Hvalid Hpred Hpost1 Hreport Houtput Hout.
  rewrite (image_reaches_routing req w Hwf Htype Hurl).
  erewrite routing_returned; cycle 1.
  { rewrite (route_image_eq req Htype). unfold _route_image_then_report.
    erewrite bind_ok; cycle 1.
    { unfold post_json. rewrite Hpost0. reflexivity. }
    rewrite !get_obj.
    erewrite bind_ok; [|reflexivity].
    erewrite bind_ok; [|reflexivity].
    rewrite Hvalid. change (negb true) with false. cbv iota.
    erewrite bind_ok; [|reflexivity]. rewrite Hpred.
    change (negb (Json.truthy (default JNull (Some (JObj (item :: prediction))))))
      with false. cbv iota. simpl default. rewrite !get_obj.
    erewrite bind_ok; [|reflexivity].
    erewrite bind_ok; [|reflexivity].
    erewrite bind_ok; [|reflexivity].
    erewrite bind_ok; [|reflexivity].
    erewrite bind_ok; cycle 1.
    { unfold post_json. simpl net.
      change (HttpClient.post_json 2 (REPORTING_AGENT_URL cfg) _ (net env 1))
        with (HttpClient.post_json 2 (REPORTING_AGENT_URL cfg)
                (report_payload req (item :: prediction) (stored_metadata req (db w)))
                (net env 1)).
      rewrite Hpost1. reflexivity. }
    rewrite !get_obj.
    erewrite bind_ok; [|reflexivity]. rewrite Hreport. simpl default. rewrite !get_obj.
    erewrite bind_ok; [|reflexivity].
    erewrite bind_ok; [|reflexivity].
    rewrite Houtput. simpl default.
    assert (Json.truthy (JStr out) = true) as ->.
    { simpl. apply negb_true_iff. by apply String.eqb_neq. }
    erewrite bind_ok; [|reflexivity].
    erewrite bind_ok; [|reflexivity].
    erewrite bind_ok; [|reflexivity].
    erewrite bind_ok; [|reflexivity].
    erewrite bind_ok; [|reflexivity].
    erewrite bind_ok; [|reflexivity].
    erewrite bind_ok; [|reflexivity].
    reflexivity. }
  eexists _, _. split; [reflexivity|].
  cbn [guardrails http_log db messages vision reports chats logged fold_left].
  unfold report_record. rewrite Hreport.
  repeat split; try reflexivity. symmetry. apply app_assoc.
Qed.

(** *** Answers of a backend that cannot be used *)

(** X26.  When the vision agent finds the image valid and sends no
    prediction (none, or an empty one), [main_entry] raises an
    [HTTPException] with status 502.  The reporting agent is not called:
    the requests made are those of the vision call; the user message is in
    the transcript, and no bot message, vision record or report is
    stored. *)
Theorem no_prediction_run (req : SupervisorRequest.t) (w : World)
        (fields : list (string * json)) (evs : list HttpClient.Event) :
  well_formed req = true ->
  type req = "image" ->
  (Validators.validate_image_url (urlparse P) (default "" (image_url req))).1 = true ->
  HttpClient.post_json 2 (VISION_AGENT_URL cfg) (vision_payload req) (net env 0)
  = (inr (JObj fields), evs) ->
  Json.truthy (default (JBool false) (Json.dict_get "is_valid" fields)) = true ->
  Json.truthy (default JNull (Json.dict_get "prediction_result" fields)) = false ->
  main_entry P cfg env req w
  = (inl (HTTPException 502 "Vision agent returned valid image but no prediction result"),
     {| guardrails := guardrails w;
        db := logged req [user_doc req] (db w);
        http_log := http_log w ++ evs |}).
Proof.
  intros Hwf Htype Hurl Hpost Hvalid Hnone.
  rewrite (image_reaches_routing req w Hwf Htype Hurl).
  erewrite routing_http_error; [reflexivity|].
  rewrite (route_image_eq req Htype). unfold _route_image_then_report.
  erewrite bind_ok; cycle 1.
  { unfold post_json. rewrite Hpost. reflexivity. }
  rewrite !get_obj.
  erewrite bind_ok; [|reflexivity].
  erewrite bind_ok; [|reflexivity].
  rewrite Hvalid. change (negb true) with false. cbv iota.
  erewrite bind_ok; [|reflexivity].
  rewrite Hnone. reflexivity.
Qed.

(** X27.  When the vision agent answers with JSON that is not a
    dictionary, nothing is raised: [main_entry] returns the response
    ["Internal server error"], of error type ["internal_error"], whose
    metadata carry the text of the [AttributeError], and logs it as the bot
    message after the user message. *)
Theorem vision_not_dict_run (req : SupervisorRequest.t) (w : World)
        (body : json) (evs : list HttpClient.Event) :
  well_formed req = true ->
  type req = "image" ->
  (Validators.validate_image_url (urlparse P) (default "" (image_url req))).1 = true ->
  HttpClient.post_json 2 (VISION_AGENT_URL cfg) (vision_payload req) (net env 0)
  = (inr body, evs) ->
  is_dict body = false ->
  let response :=
    {| AgentResponse.success := false;
       AgentResponse.response := "Internal server error";
       AgentResponse.response_type := "error";
       AgentResponse.chat_id := chat_id req;
       AgentResponse.metadata :=
         [("detail",
           JStr ("'" +:+ Json.type_name body +:+ "' object has no attribute 'get'"))];
       AgentResponse.error :=
         Some [("type", JStr "internal_error");
               ("message", JStr "Internal server error")] |} in
  main_entry P cfg env req w
  = (inr response,
     {| guardrails := guardrails w;
        db := logged req [user_doc req; bot_doc req response] (db w);
        http_log := http_log w ++ evs |}).
Proof.
  intros Hwf Htype Hurl Hpost Hbody response.
  rewrite (image_reaches_routing req w Hwf Htype Hurl).
  erewrite routing_internal_error; cycle 1.
  { rewrite (route_image_eq req Htype). unfold _route_image_then_report.
    erewrite bind_ok; cycle 1.
    { unfold post_json. rewrite Hpost. reflexivity. }
    rewrite (get_not_dict body "is_valid" _ Hbody). reflexivity. }
  reflexivity.
Qed.

(** X28.  The same answer from a text agent is treated otherwise: the
    [AttributeError] is caught inside [_route_text] and raised again as an
    [HTTPException] with status 502, so the caller gets no response and the
    transcript keeps the user message with no bot message after it. *)
Theorem text_not_dict_run (req : SupervisorRequest.t) (w : World)
        (body : json) (evs : list HttpClient.Event) :
  well_formed req = true ->
  type req = "text" ->
  default "" (message req) <> "" ->
  (verdict_of env req w).1.1.1 = true ->
  HttpClient.post_json 2 (agent_url cfg req) (text_payload req) (net env 0)
  = (inr body, evs) ->
  is_dict body = false ->
  main_entry P cfg env req w
  = (inl (HTTPException 502
            ("Downstream " +:+ agent_url cfg req +:+ " error: '"
             +:+ Json.type_name body +:+ "' object has no attribute 'get'")),
     {| guardrails := (verdict_of env req w).2;
        db := logged req [user_doc req] (db w);
        http_log := http_log w ++ evs |}).
Proof.
  intros Hwf Htype Hmsg Hok Hpost Hbody.
  rewrite (text_reaches_routing req w Hwf Htype Hmsg Hok).
  erewrite routing_http_error; [reflexivity|].
  rewrite (route_text_eq req Htype). unfold _route_text. cbv zeta. unfold try_except.
  fold (agent_url cfg req). fold (text_chat_history req). fold (text_payload req).
  erewrite bind_ok; cycle 1.
  { unfold post_json. rewrite Hpost. reflexivity. }
  rewrite (get_not_dict body "response" _ Hbody). reflexivity.
Qed.

End SupervisorMore.

(** *** The further properties on the example turns *)

Lemma other_chats_untouched_witness :
  chat_view "c2"
    (Supervisor.main_entry example_platform example_config text_backend_answers
                           (text_turn "I have a rash on my arm") (Supervisor.start true)).2
  = chat_view "c2" (Supervisor.start true).
Proof.
  refine (other_chats_untouched example_platform example_config text_backend_answers "c2"
            (text_turn "I have a rash on my arm") _ (Supervisor.start true)).
  discriminate.
Defined.

Lemma image_turn_untouched_witness :
  let w' :=
    (Supervisor.main_entry example_platform example_config report_backends_answer
                           image_turn (Supervisor.start true)).2 in
  (Supervisor.guardrails w', Supervisor.chats (Supervisor.db w'))
  = (SecurityOrchestrator.init true, ∅).
Proof.
  intros w'.
  refine (image_turn_untouched example_platform example_config report_backends_answer
            image_turn _ (Supervisor.start true)).
  discriminate.
Defined.

Lemma text_turn_untouched_witness :
  let w' :=
    (Supervisor.main_entry example_platform example_config text_backend_answers
                           (text_turn "I have a rash on my arm") (Supervisor.start true)).2 in
  (Supervisor.vision (Supervisor.db w'), Supervisor.reports (Supervisor.db w')) = (∅, ∅).
Proof.
  intros w'.
  refine (text_turn_untouched example_platform example_config text_backend_answers
            (text_turn "I have a rash on my arm") _ (Supervisor.start true)).
  reflexivity.
Defined.

Lemma main_entry_bad_payload_witness :
  exists detail,
    Supervisor.main_entry example_platform example_config backends_down (text_turn "")
                          (Supervisor.start true)
    = (inl (HTTPException 400 detail), Supervisor.start true).
Proof.
  apply main_entry_bad_payload. right. left. split; reflexivity.
Defined.

Lemma text_turn_run_witness :
  let req := text_turn "I have a rash on my arm" in
  exists response w',
    Supervisor.main_entry example_platform example_config text_backend_answers req
                          (Supervisor.start true)
    = (inr response, w')
    /\ AgentResponse.response response = "How long have you had it?"
    /\ Supervisor.chats (Supervisor.db w') !! "c1"
       = Some [("user_metadata", JObj [("location", JStr "arm")])].
Proof.
  intros req.
  destruct (text_turn_run example_platform example_config text_backend_answers req
              (Supervisor.start true)
              [("response", JStr "How long have you had it?");
               ("collected_info", JObj [("location", JStr "arm")])]
              [HttpClient.Post "http://skin" (text_payload req)]
              "How long have you had it?")
    as (response & w' & Hrun & _ & Hresp & _ & _ & _ & _ & _ & _ & _ & Hchats).
  - reflexivity.
  - reflexivity.
  - discriminate.
  - vm_compute. reflexivity.
  - reflexivity.
  - reflexivity.
  - exists response, w'. split; [exact Hrun|]. split; [exact Hresp|].
    rewrite Hchats. reflexivity.
Defined.

Lemma report_turn_run_witness :
  exists response w',
    Supervisor.main_entry example_platform example_config report_backends_answer image_turn
                          (Supervisor.start true)
    = (inr response, w')
    /\ AgentResponse.response response = "This looks like eczema."
    /\ AgentResponse.response_type response = "report"
    /\ Supervisor.vision (Supervisor.db w') !! "c1"
       = Some [vision_record image_turn [("predicted_class", JStr "eczema")]].
Proof.
  destruct (report_turn_run example_platform example_config report_backends_answer image_turn
              (Supervisor.start true)
              [("is_valid", JBool true);
               ("prediction_result", JObj [("predicted_class", JStr "eczema")])]
              [HttpClient.Post "http://vision" (Supervisor.vision_payload image_turn)]
              ("predicted_class", JStr "eczema") []
              [("report", JObj [("output", JStr "This looks like eczema.")])]
              [HttpClient.Post "http://report"
                 (report_payload image_turn [("predicted_class", JStr "eczema")] (JObj []))]
              [("output", JStr "This looks like eczema.")]
              "This looks like eczema.")
    as (response & w' & Hrun & _ & Hresp & Htype & _ & _ & _ & _ & Hvision & _).
  - reflexivity.
  - reflexivity.
  - reflexivity.
  - reflexivity.
  - reflexivity.
  - reflexivity.
  - reflexivity.
  - reflexivity.
  - reflexivity.
  - discriminate.
  - exists response, w'. split; [exact Hrun|]. split; [exact Hresp|].
    split; [exact Htype|]. rewrite Hvision. reflexivity.
Defined.

Lemma no_prediction_run_witness :
  Supervisor.main_entry example_platform example_config vision_without_prediction image_turn
                        (Supervisor.start true)
  = (inl (HTTPException 502 "Vision agent returned valid image but no prediction result"),
     {| Supervisor.guardrails := SecurityOrchestrator.init true;
        Supervisor.db := logged image_turn [Supervisor.user_doc image_turn]
                                Supervisor.empty_store;
        Supervisor.http_log :=
          [HttpClient.Post "http://vision" (Supervisor.vision_payload image_turn)] |}).
Proof.
  apply (no_prediction_run example_platform example_config vision_without_prediction
           image_turn (Supervisor.start true) [("is_valid", JBool true)]
           [HttpClient.Post "http://vision" (Supervisor.vision_payload image_turn)]);
    reflexivity.
Defined.

Lemma vision_not_dict_run_witness :
  exists response w',
    Supervisor.main_entry example_platform example_config backends_answer_list image_turn
                          (Supervisor.start true)
    = (inr response, w')
    /\ AgentResponse.response response = "Internal server error"
    /\ AgentResponse.metadata response
       = [("detail", JStr "'list' object has no attribute 'get'")].
Proof.
  eexists _, _. split.
  - apply (vision_not_dict_run example_platform example_config backends_answer_list
             image_turn (Supervisor.start true) (JArr [])
             [HttpClient.Post "http://vision" (Supervisor.vision_payload image_turn)]);
      reflexivity.
  - split; reflexivity.
Defined.

Lemma text_not_dict_run_witness :
  let req := text_turn "I have a rash on my arm" in
  exists w',
    Supervisor.main_entry example_platform example_config backends_answer_list req
                          (Supervisor.start true)
    = (inl (HTTPException 502
              "Downstream http://skin error: 'list' object has no attribute 'get'"),
       w')
    /\ Supervisor.messages (Supervisor.db w') !! "c1" = Some [Supervisor.user_doc req].
Proof.
  intros req. eexists. split.
  - refine (text_not_dict_run example_platform example_config backends_answer_list req
              (Supervisor.start true) (JArr [])
              [HttpClient.Post "http://skin" (text_payload req)] _ _ _ _ _ _).
    + reflexivity.
    + reflexivity.
    + discriminate.
    + vm_compute. reflexivity.
    + reflexivity.
    + reflexivity.
  - reflexivity.
Defined.
